(** * Freshservice automation scripts: a shallow embedding and its properties

    The repository holds three Python scripts that drive the Freshservice
    REST API (and an HRMS report API) through [requests]:

    - [contract_assets.py]: pages through the assets of a contract, resolves
      department / location / requester names through memoised by-id
      lookups, writes a CSV and attaches it to a ticket;
    - [freshservice_hrms_termination.py]: reads a ticket, extracts an
      employee id, queries HRMS, finds the employee and the manager in
      Freshservice and places a service request;
    - [term_ticket_assets_note.py]: posts an asset note and replaces the
      ticket's asset list.

    Python values are embedded as the JSON-shaped type [pyval]; the scripts
    run in a state-and-exception monad [M] whose state [world] holds the
    remote server (an oracle answering the n-th HTTP call), the trace of
    requests sent so far, the lines printed, the files on disk and the
    module-level caches. *)

From Stdlib Require Import ZArith String Ascii List Bool Lia DecimalString.
From stdpp Require Import base option gmap strings.
Import ListNotations.

Local Open Scope string_scope.
Local Open Scope Z_scope.
Local Open Scope list_scope.

(** ** Python values *)

(** The values a JSON document decodes to ([json.loads], [xmltodict.parse])
    and the scalars the scripts build themselves.  JSON numbers are
    modelled for integers only. *)
#[warnings="-register-all"]
Inductive pyval : Type :=
| PNone
| PBool (b : bool)
| PInt (z : Z)
| PStr (s : string)
| PList (l : list pyval)
| PDict (d : list (string * pyval)).

(** A response of [requests]: status, text, and what [response.json()],
    [xmltodict.parse(response.content)] and [response.content.decode()] give
    ([None] when the body does not decode: no JSON, no XML, not UTF-8). *)
Record response : Type := mk_response {
  status_code : Z;
  text : string;
  json_body : option pyval;
  xml_body : option pyval;
  decoded : option string
}.

(** Exceptions, all below Python's [Exception]. *)
Inductive exn : Type :=
| NameError (name : string)
| ValueError (msg : string)
| KeyError (key : pyval)
| IndexError
| TypeError
| AttributeError
| JSONDecodeError
| ExpatError
| HTTPError (r : response)
| ConnectionError
| FileNotFoundError (path : string)
| PermissionError (path : string)
| UnicodeDecodeError.

(** [except ValueError]: [JSONDecodeError] and [UnicodeDecodeError] derive
    from [ValueError]. *)
Definition is_ValueError (e : exn) : bool :=
  match e with
  | ValueError _ | JSONDecodeError | UnicodeDecodeError => true
  | _ => false
  end.

(** [except requests.HTTPError]. *)
Definition is_HTTPError (e : exn) : bool :=
  match e with
  | HTTPError _ => true
  | _ => false
  end.

(** ** Requests *)

Inductive method : Type := GET | POST | PUT.

(** The path and query of a URL, kept as a tagged value instead of the
    formatted text; each constructor stands for one f-string of the source. *)
Inductive endpoint : Type :=
| EContractAssets (contract_id page per_page : Z)
    (* /api/v2/contracts/{contract_id}/associated-assets?page={page}&per_page={per_page} *)
| EDepartment (id : pyval)          (* /api/v2/departments/{id} *)
| ELocation (id : pyval)            (* /api/v2/locations/{id} *)
| ERequester (id : pyval)           (* /api/v2/requesters/{id} *)
| EAgent (id : pyval)               (* /api/v2/agents/{id} *)
| ETicket (id : Z)                  (* /api/v2/tickets/{id} *)
| ETicketNotes (id : Z)             (* /api/v2/tickets/{id}/notes *)
| ERequestedItems (id : Z)          (* /api/v2/tickets/{id}/requested_items *)
| EAssetsOfUser (user : pyval)      (* /api/v2/assets?filter="user_id:{user}" *)
| EAssetType (id : pyval)           (* /api/v2/asset_types/{id} *)
| ESearch (ns field email : string) (* /api/v2/{ns}?query=quote("{field}:'{email}'") *)
| EPlaceRequest (item : Z)          (* /api/v2/service_catalog/items/{item}/place_request *)
| EAbsolute.                        (* the host string is the whole URL *)

(** A CSV file is kept as its rows. *)
Definition csv_row : Type := list pyval.
Definition file_content : Type := list csv_row.

Inductive payload : Type :=
| NoBody
| JsonBody (v : pyval)                          (* data=json.dumps(v) *)
| MultipartBody (priority : string) (filename : string)
                (data : file_content) (mime : string).

(** Authentication as sent: HTTP Basic with a user and a password (from
    [auth=(...)] or from a hand-built [Authorization] header), a bearer
    token, or an [Api-Key] header. *)
Inductive credential : Type :=
| NoAuth
| BasicAuth (user password : string)
| Bearer (token : pyval)
| ApiKey (key : string).

Record request : Type := mk_request {
  meth : method;
  host : string;
  path : endpoint;
  auth : credential;
  body : payload
}.

(** What a call of [requests.get/post/put] comes back with. *)
Inductive reply : Type :=
| Reply (r : response)
| Fails (e : exn).

(** ** Printed output *)

(** A printed line, as the pieces of its f-string. *)
Inductive piece : Type :=
| Lit (s : string)
| Val (v : pyval)
| Exc (e : exn)
| Url (base : string) (e : endpoint).

Definition line : Type := list piece.

(** ** The world *)

Definition cache : Type := list (pyval * pyval).

Record world : Type := mk_world {
  server : nat -> request -> reply;     (* answer to the n-th call, n from 0 *)
  trace : list request;                 (* requests sent, oldest first *)
  stdout : list line;                   (* lines printed, oldest first *)
  fs : gmap string file_content;        (* files on disk *)
  remove_error : string -> option exn;  (* what removing an existing file
                                           raises, if the system refuses *)
  dept_cache : cache;                   (* contract_assets.py globals *)
  location_cache : cache;
  requester_cache : cache
}.

Definition set_trace (t : list request) (w : world) : world :=
  mk_world (server w) t (stdout w) (fs w) (remove_error w)
           (dept_cache w) (location_cache w) (requester_cache w).
Definition set_stdout (o : list line) (w : world) : world :=
  mk_world (server w) (trace w) o (fs w) (remove_error w)
           (dept_cache w) (location_cache w) (requester_cache w).
Definition set_fs (f : gmap string file_content) (w : world) : world :=
  mk_world (server w) (trace w) (stdout w) f (remove_error w)
           (dept_cache w) (location_cache w) (requester_cache w).
Definition set_dept_cache (c : cache) (w : world) : world :=
  mk_world (server w) (trace w) (stdout w) (fs w) (remove_error w)
           c (location_cache w) (requester_cache w).
Definition set_location_cache (c : cache) (w : world) : world :=
  mk_world (server w) (trace w) (stdout w) (fs w) (remove_error w)
           (dept_cache w) c (requester_cache w).
Definition set_requester_cache (c : cache) (w : world) : world :=
  mk_world (server w) (trace w) (stdout w) (fs w) (remove_error w)
           (dept_cache w) (location_cache w) c.

(** ** The monad: state and exceptions *)

Inductive outcome (A : Type) : Type :=
| Ok (a : A)
| Raise (e : exn)
| OutOfFuel.
Arguments Ok {A} a.
Arguments Raise {A} e.
Arguments OutOfFuel {A}.

Definition M (A : Type) : Type := world -> outcome A * world.

Definition ret {A} (a : A) : M A := fun w => (Ok a, w).
Definition raise {A} (e : exn) : M A := fun w => (Raise e, w).
Definition out_of_fuel {A} : M A := fun w => (OutOfFuel, w).

Definition bind {A B} (m : M A) (k : A -> M B) : M B :=
  fun w =>
    match m w with
    | (Ok a, w') => k a w'
    | (Raise e, w') => (Raise e, w')
    | (OutOfFuel, w') => (OutOfFuel, w')
    end.

Notation "'do' x <- m ; k" := (bind m (fun x => k))
  (at level 10, x name, m at level 100, k at level 200).
Notation "'do' ' p <- m ; k" := (bind m (fun x => match x with p => k end))
  (at level 10, p pattern, m at level 100, k at level 200).
Notation "'run' m ; k" := (bind m (fun _ => k))
  (at level 10, m at level 100, k at level 200).

(** [try: m except <sel> as e: h e]. *)
Definition try_except {A} (m : M A) (sel : exn -> bool) (h : exn -> M A) : M A :=
  fun w =>
    match m w with
    | (Raise e, w') => if sel e then h e w' else (Raise e, w')
    | r => r
    end.

(** [except Exception]. *)
Definition any_exception (e : exn) : bool := true.

Definition lift {A} (r : exn + A) : M A :=
  match r with
  | inl e => raise e
  | inr a => ret a
  end.

Definition print (l : line) : M unit :=
  fun w => (Ok tt, set_stdout (stdout w ++ [l]) w).

(** One HTTP call: the request is recorded, the server answers. *)
Definition http (rq : request) : M response :=
  fun w =>
    let w' := set_trace (trace w ++ [rq]) w in
    match server w (length (trace w)) rq with
    | Reply r => (Ok r, w')
    | Fails e => (Raise e, w')
    end.

(** [response.raise_for_status()]. *)
Definition raise_for_status (r : response) : M unit :=
  if (400 <=? status_code r) && (status_code r <? 600)
  then raise (HTTPError r) else ret tt.

(** [response.content.decode()]. *)
Definition content_decode (r : response) : M string :=
  match decoded r with
  | Some s => ret s
  | None => raise UnicodeDecodeError
  end.

(** [response.json()]. *)
Definition json (r : response) : M pyval :=
  match json_body r with
  | Some v => ret v
  | None => raise JSONDecodeError
  end.

(** ** Python operations on values *)

(** Truth value of an object. *)
Definition truthy (v : pyval) : bool :=
  match v with
  | PNone => false
  | PBool b => b
  | PInt z => negb (z =? 0)
  | PStr s => negb (String.eqb s "")
  | PList l => match l with [] => false | _ => true end
  | PDict d => match d with [] => false | _ => true end
  end.

Fixpoint dict_lookup (k : string) (d : list (string * pyval)) : option pyval :=
  match d with
  | [] => None
  | (k', v) :: d' => if String.eqb k k' then Some v else dict_lookup k d'
  end.

(** [v.get(k, default)]. *)
Definition py_get (v : pyval) (k : string) (dflt : pyval) : exn + pyval :=
  match v with
  | PDict d => inr (match dict_lookup k d with Some x => x | None => dflt end)
  | _ => inl AttributeError
  end.

(** [v[k]] with a string key. *)
Definition py_item (v : pyval) (k : string) : exn + pyval :=
  match v with
  | PDict d => match dict_lookup k d with
               | Some x => inr x
               | None => inl (KeyError (PStr k))
               end
  | _ => inl TypeError
  end.

(** [v[0]]. *)
Definition py_first (v : pyval) : exn + pyval :=
  match v with
  | PList (x :: _) => inr x
  | PList [] => inl IndexError
  | PStr (String c _) => inr (PStr (String c EmptyString))
  | PStr EmptyString => inl IndexError
  | PDict _ => inl (KeyError (PInt 0))
  | _ => inl TypeError
  end.

Fixpoint chars (s : string) : list pyval :=
  match s with
  | EmptyString => []
  | String c s' => PStr (String c EmptyString) :: chars s'
  end.

(** The items a [for] loop, [list.extend] or [zip] draws from a value. *)
Definition py_iter (v : pyval) : exn + list pyval :=
  match v with
  | PList l => inr l
  | PStr s => inr (chars s)
  | PDict d => inr (map (fun kv => PStr (fst kv)) d)
  | _ => inl TypeError
  end.

(** [d[k] = v] on a dict with string keys. *)
Fixpoint dict_set (k : string) (v : pyval) (d : list (string * pyval))
  : list (string * pyval) :=
  match d with
  | [] => [(k, v)]
  | (k', v') :: d' =>
      if String.eqb k k' then (k', v) :: d' else (k', v') :: dict_set k v d'
  end.

(** ** Text

    Text is modelled for code points below 256, one [ascii] per code
    point. *)

Definition code (c : ascii) : N := N_of_ascii c.

Definition between (lo hi : N) (c : ascii) : bool :=
  ((lo <=? code c) && (code c <=? hi))%N.

(** [str.isspace] on one character; also the class [\s] of [re]. *)
Definition is_space (c : ascii) : bool :=
  between 9 13 c || between 28 32 c || (code c =? 133)%N || (code c =? 160)%N.


(** The class [\d] of [re]. *)
Definition is_digit (c : ascii) : bool := between 48 57 c.

Fixpoint lstrip (s : string) : string :=
  match s with
  | EmptyString => EmptyString
  | String c s' => if is_space c then lstrip s' else s
  end.

Fixpoint rstrip (s : string) : string :=
  match s with
  | EmptyString => EmptyString
  | String c s' =>
      match rstrip s' with
      | EmptyString => if is_space c then EmptyString else String c EmptyString
      | r => String c r
      end
  end.

(** [str.strip()]. *)
Definition strip (s : string) : string := lstrip (rstrip s).

Definition lower_char (c : ascii) : ascii :=
  if between 65 90 c || between 192 214 c || between 216 222 c
  then ascii_of_N (code c + 32) else c.

Definition upper_char (c : ascii) : ascii :=
  if between 97 122 c || between 224 246 c || between 248 254 c
  then ascii_of_N (code c - 32) else c.

(** [str.lower()]. *)
Fixpoint lower (s : string) : string :=
  match s with
  | EmptyString => EmptyString
  | String c s' => String (lower_char c) (lower s')
  end.

(** [str.capitalize()]. *)
Definition capitalize (s : string) : string :=
  match s with
  | EmptyString => EmptyString
  | String c s' => String (upper_char c) (lower s')
  end.

(** [s.replace('\n', ' ')]. *)
Fixpoint replace_newline (s : string) : string :=
  match s with
  | EmptyString => EmptyString
  | String c s' =>
      String (if (code c =? 10)%N then " "%char else c) (replace_newline s')
  end.

(** [s.replace('  ', ' ')]: left to right, without overlap. *)
Fixpoint replace_two_spaces (s : string) : string :=
  match s with
  | EmptyString => EmptyString
  | String c s' =>
      match s' with
      | String c' s'' =>
          if (code c =? 32)%N && (code c' =? 32)%N
          then String " "%char (replace_two_spaces s'')
          else String c (replace_two_spaces s')
      | EmptyString => s
      end
  end.

(** [v.strip()]. *)
Definition py_strip (v : pyval) : exn + string :=
  match v with
  | PStr s => inr (strip s)
  | _ => inl AttributeError
  end.

(** [os.path.basename]: what follows the last slash. *)
Fixpoint basename (p : string) : string :=
  match p with
  | EmptyString => EmptyString
  | String c p' =>
      if (code c =? 47)%N then basename p'
      else match index 0 "/" p' with
           | Some _ => basename p'
           | None => p
           end
  end.

(** ** Dictionaries keyed by values

    The caches of [contract_assets.py] are dicts keyed by whatever the
    asset record holds in its id field. *)

(** Lists and dicts cannot be hashed. *)
Definition hashable (v : pyval) : bool :=
  match v with
  | PList _ | PDict _ => false
  | _ => true
  end.

Definition as_int (v : pyval) : option Z :=
  match v with
  | PBool b => Some (if b then 1 else 0)
  | PInt z => Some z
  | _ => None
  end.

(** Equality of keys: Python's [==] on scalars, where [True == 1]. *)
Definition key_eqb (a b : pyval) : bool :=
  match a, b with
  | PNone, PNone => true
  | PStr s, PStr t => String.eqb s t
  | _, _ => match as_int a, as_int b with
            | Some x, Some y => x =? y
            | _, _ => false
            end
  end.

Fixpoint cache_get (k : pyval) (c : cache) : option pyval :=
  match c with
  | [] => None
  | (k', v) :: c' => if key_eqb k k' then Some v else cache_get k c'
  end.

(** [k in c]. *)
Definition cache_mem (k : pyval) (c : cache) : exn + bool :=
  if hashable k
  then inr (match cache_get k c with Some _ => true | None => false end)
  else inl TypeError.

(** [c[k]]. *)
Definition cache_item (k : pyval) (c : cache) : exn + pyval :=
  if hashable k
  then match cache_get k c with
       | Some v => inr v
       | None => inl (KeyError k)
       end
  else inl TypeError.

(** [c[k] = v]: an equal key keeps its place and takes the new value. *)
Fixpoint cache_set (k v : pyval) (c : cache) : cache :=
  match c with
  | [] => [(k, v)]
  | (k', v') :: c' =>
      if key_eqb k k' then (k', v) :: c' else (k', v') :: cache_set k v c'
  end.

(** ** Files *)

(** [open(path, "w")]: the file is created or emptied. *)
Definition open_w (p : string) : M unit :=
  fun w => (Ok tt, set_fs (<[p := []]> (fs w)) w).

(** [writer.writerow(row)] on the file at [p]. *)
Definition writerow (p : string) (row : csv_row) : M unit :=
  fun w =>
    let old := match fs w !! p with Some rows => rows | None => [] end in
    (Ok tt, set_fs (<[p := old ++ [row]]> (fs w)) w).

(** [open(path, "rb").read()]. *)
Definition read_file (p : string) : M file_content :=
  fun w =>
    match fs w !! p with
    | Some rows => (Ok rows, w)
    | None => (Raise (FileNotFoundError p), w)
    end.

(** [os.remove(path)]: a file that exists is removed unless the system
    refuses (the file is in use, the directory is read-only). *)
Definition os_remove (p : string) : M unit :=
  fun w =>
    match fs w !! p with
    | Some _ =>
        match remove_error w p with
        | Some e => (Raise e, w)
        | None => (Ok tt, set_fs (delete p (fs w)) w)
        end
    | None => (Raise (FileNotFoundError p), w)
    end.

Fixpoint for_each {A} (l : list A) (f : A -> M unit) : M unit :=
  match l with
  | [] => ret tt
  | x :: l' => run f x; for_each l' f
  end.

(** A list comprehension whose element expression can raise. *)
Fixpoint map_exn {A B} (f : A -> exn + B) (l : list A) : exn + list B :=
  match l with
  | [] => inr []
  | x :: l' =>
      match f x with
      | inl e => inl e
      | inr y =>
          match map_exn f l' with
          | inl e => inl e
          | inr ys => inr (y :: ys)
          end
      end
  end.

(** * contract_assets.py *)

Module ContractAssets.
Section Script.

(** [credentials.fs_domain] and [credentials.fs_api_key]; the credentials
    module is not part of the repository. *)
Variable FSURL : string.
Variable api_key : string.

Definition contract_id : Z := 37.

Definition base_url : string :=
  if negb (String.prefix "http" FSURL)
  then ("https://" ++ FSURL)%string
  else FSURL.

Definition per_page : Z := 100.

(** [requests.get(url, auth=(api_key, "X"), headers=json_headers)]. *)
Definition get_request (e : endpoint) : request :=
  mk_request GET base_url e (BasicAuth api_key "X") NoBody.

Definition api_get (e : endpoint) : M response := http (get_request e).

(** The [while True] loop of step 1; [fuel] bounds the number of pages
    fetched. *)
Fixpoint fetch_pages (fuel : nat) (page : Z) (all_assets : list pyval)
  : M (list pyval) :=
  match fuel with
  | O => out_of_fuel
  | S fuel' =>
      do response <- api_get (EContractAssets contract_id page per_page);
      if negb (status_code response =? 200) then
        run print [Lit "Error retrieving assets on page "; Val (PInt page);
                   Lit ": "; Val (PInt (status_code response));
                   Lit " "; Val (PStr (text response))];
        ret all_assets
      else
        do data <- json response;
        do assets <- lift (py_get data "associated_assets" (PList []));
        if negb (truthy assets) then ret all_assets
        else
          do items <- lift (py_iter assets);
          fetch_pages fuel' (page + 1) (all_assets ++ items)
  end.

Definition read_dept_cache : M cache := fun w => (Ok (dept_cache w), w).
Definition read_location_cache : M cache := fun w => (Ok (location_cache w), w).
Definition read_requester_cache : M cache := fun w => (Ok (requester_cache w), w).

Definition write_dept_cache (c : cache) : M unit :=
  fun w => (Ok tt, set_dept_cache c w).
Definition write_location_cache (c : cache) : M unit :=
  fun w => (Ok tt, set_location_cache c w).
Definition write_requester_cache (c : cache) : M unit :=
  fun w => (Ok tt, set_requester_cache c w).

Definition get_department_name (dept_id : pyval) : M pyval :=
  if negb (truthy dept_id) then ret PNone
  else
    do c <- read_dept_cache;
    do hit <- lift (cache_mem dept_id c);
    if hit then lift (cache_item dept_id c)
    else
      do r <- api_get (EDepartment dept_id);
      if status_code r =? 200 then
        do j <- json r;
        do d <- lift (py_get j "department" (PDict []));
        do dept_name <- lift (py_get d "name" PNone);
        do c' <- read_dept_cache;
        run write_dept_cache (cache_set dept_id dept_name c');
        ret dept_name
      else
        run print [Lit "Error retrieving department "; Val dept_id;
                   Lit ": "; Val (PInt (status_code r));
                   Lit " "; Val (PStr (text r))];
        ret PNone.

Definition get_location_name (loc_id : pyval) : M pyval :=
  if negb (truthy loc_id) then ret PNone
  else
    do c <- read_location_cache;
    do hit <- lift (cache_mem loc_id c);
    if hit then lift (cache_item loc_id c)
    else
      do r <- api_get (ELocation loc_id);
      if status_code r =? 200 then
        do j <- json r;
        do d <- lift (py_get j "location" (PDict []));
        do loc_name <- lift (py_get d "name" PNone);
        do c' <- read_location_cache;
        run write_location_cache (cache_set loc_id loc_name c');
        ret loc_name
      else
        run print [Lit "Error retrieving location "; Val loc_id;
                   Lit ": "; Val (PInt (status_code r));
                   Lit " "; Val (PStr (text r))];
        ret PNone.

Definition get_requester_name (user_id : pyval) : M pyval :=
  if negb (truthy user_id) then ret PNone
  else
    do c <- read_requester_cache;
    do hit <- lift (cache_mem user_id c);
    if hit then lift (cache_item user_id c)
    else
      do r <- api_get (ERequester user_id);
      if status_code r =? 200 then
        do j <- json r;
        do requester <- lift (py_get j "requester" (PDict []));
        do fn <- lift (py_get requester "first_name" (PStr ""));
        do first_name <- lift (py_strip fn);
        do ln <- lift (py_get requester "last_name" (PStr ""));
        do last_name <- lift (py_strip ln);
        let requester_name :=
          if truthy (PStr first_name) || truthy (PStr last_name)
          then PStr (strip (first_name ++ " " ++ last_name)%string)
          else PNone in
        do c' <- read_requester_cache;
        run write_requester_cache (cache_set user_id requester_name c');
        ret requester_name
      else
        run print [Lit "Error retrieving requester "; Val user_id;
                   Lit ": "; Val (PInt (status_code r));
                   Lit " "; Val (PStr (text r))];
        ret PNone.

Definition lease_number : string := "1996594".

(** [now_ym] is [datetime.datetime.now().strftime('%Y-%m')]. *)
Definition csv_filename (now_ym : string) : string :=
  (now_ym ++ "_Lease_" ++ lease_number ++ "_Assets.csv")%string.

Definition csv_header : csv_row :=
  [PStr "display_id"; PStr "asset_tag"; PStr "name";
   PStr "department"; PStr "location"; PStr "requester"].

(** The body of the [for asset in all_assets] loop. *)
Definition write_asset_row (csv_file_path : string) (asset : pyval) : M unit :=
  do display_id <- lift (py_get asset "display_id" PNone);
  do asset_tag <- lift (py_get asset "asset_tag" PNone);
  do asset_name <- lift (py_get asset "name" PNone);
  do dept_id <- lift (py_get asset "department_id" PNone);
  do loc_id <- lift (py_get asset "location_id" PNone);
  do user_id <- lift (py_get asset "user_id" PNone);
  do dept_name <- (if truthy dept_id then get_department_name dept_id
                   else ret PNone);
  do loc_name <- (if truthy loc_id then get_location_name loc_id
                  else ret PNone);
  do requester_name <- (if truthy user_id then get_requester_name user_id
                        else ret PNone);
  writerow csv_file_path
    [display_id; asset_tag; asset_name; dept_name; loc_name; requester_name].

Definition write_csv (csv_file_path : string) (all_assets : list pyval)
  : M unit :=
  run open_w csv_file_path;
  run writerow csv_file_path csv_header;
  for_each all_assets (write_asset_row csv_file_path).

Definition is_success (status : Z) : bool :=
  (status =? 200) || (status =? 201).

Definition update_ticket_with_attachment (ticket_id : Z) (file_path : string)
  : M unit :=
  do opened <- try_except
                 (do file_data <- read_file file_path; ret (Some file_data))
                 any_exception
                 (fun e =>
                    run print [Lit "Error reading file "; Val (PStr file_path);
                               Lit ": "; Exc e];
                    ret None);
  match opened with
  | None => ret tt
  | Some file_stream =>
      let m := MultipartBody "1" (basename file_path) file_stream
                             "application/octet-stream" in
      do sent <- try_except
                   (do response <- http (mk_request PUT base_url
                                           (ETicket ticket_id)
                                           (BasicAuth api_key "X") m);
                    ret (Some response))
                   any_exception
                   (fun e =>
                      run print [Lit "Exception during PUT request:"; Exc e];
                      ret None);
      match sent with
      | None => ret tt
      | Some response =>
          run print [Lit "Response status code:";
                     Val (PInt (status_code response))];
          if is_success (status_code response) then
            run print [Lit "Ticket "; Val (PInt ticket_id);
                       Lit " updated successfully with the CSV attachment."];
            try_except
              (run os_remove file_path;
               print [Lit "CSV file '"; Val (PStr file_path);
                      Lit "' deleted successfully."])
              any_exception
              (fun e =>
                 print [Lit "Error deleting CSV file '"; Val (PStr file_path);
                        Lit "':"; Exc e])
          else
            print [Lit "Error updating ticket "; Val (PInt ticket_id);
                   Lit ": "; Val (PInt (status_code response));
                   Lit " "; Val (PStr (text response))]
      end
  end.

(** The module body, top to bottom. *)
Definition script (fuel : nat) (ticket_id : Z) (now_ym : string) : M unit :=
  do all_assets <- fetch_pages fuel 1 [];
  run write_dept_cache [];
  run write_location_cache [];
  run write_requester_cache [];
  let csv_file_path := csv_filename now_ym in
  run write_csv csv_file_path all_assets;
  run print [Lit "CSV file created successfully: "; Val (PStr csv_file_path)];
  run print [Lit "Calling update_ticket_with_attachment()..."];
  update_ticket_with_attachment ticket_id csv_file_path.

(** *** What the server may answer to a page request *)

Definition page_request (page : Z) : request :=
  get_request (EContractAssets contract_id page per_page).

(** Status 200 and a non-empty [associated_assets] array. *)
Definition full_page (rp : reply) (items : list pyval) : Prop :=
  exists r d,
    rp = Reply r /\ status_code r = 200 /\ json_body r = Some (PDict d)
    /\ dict_lookup "associated_assets" d = Some (PList items)
    /\ items <> [].

(** Status 200 and an empty (or absent) [associated_assets] array. *)
Definition empty_page (rp : reply) : Prop :=
  exists r d,
    rp = Reply r /\ status_code r = 200 /\ json_body r = Some (PDict d)
    /\ (dict_lookup "associated_assets" d = Some (PList [])
        \/ dict_lookup "associated_assets" d = None).

(** A status other than 200. *)
Definition failed_page (rp : reply) (r : response) : Prop :=
  rp = Reply r /\ status_code r <> 200.

(** From call number [n] on, the server answers the requests for pages
    [page], [page + 1], ... with the full pages [pages]. *)
Fixpoint pages_served (srv : nat -> request -> reply) (n : nat) (page : Z)
         (pages : list (list pyval)) : Prop :=
  match pages with
  | [] => True
  | items :: rest =>
      full_page (srv n (page_request page)) items
      /\ pages_served srv (S n) (page + 1) rest
  end.

(** The requests for [n] successive pages from [page] on. *)
Fixpoint page_requests (page : Z) (n : nat) : list request :=
  match n with
  | O => []
  | S n' => page_request page :: page_requests (page + 1) n'
  end.

Definition page_error_line (page : Z) (r : response) : line :=
  [Lit "Error retrieving assets on page "; Val (PInt page);
   Lit ": "; Val (PInt (status_code r)); Lit " "; Val (PStr (text r))].

(** The request that [update_ticket_with_attachment] sends. *)
Definition attachment_request (ticket_id : Z) (file_path : string)
           (file_data : file_content) : request :=
  mk_request PUT base_url (ETicket ticket_id) (BasicAuth api_key "X")
    (MultipartBody "1" (basename file_path) file_data
                   "application/octet-stream").

(** *** Counting resolution calls *)

Inductive kind : Type := Department | Location | Requester.

Definition kind_eq_dec (a b : kind) : {a = b} + {a <> b}.
Proof. decide equality. Defined.

Definition cache_of (k : kind) (w : world) : cache :=
  match k with
  | Department => dept_cache w
  | Location => location_cache w
  | Requester => requester_cache w
  end.

Definition endpoint_of (k : kind) (id : pyval) : endpoint :=
  match k with
  | Department => EDepartment id
  | Location => ELocation id
  | Requester => ERequester id
  end.

(** The field of an asset record that holds the id of each kind. *)
Definition field_of (k : kind) : string :=
  match k with
  | Department => "department_id"
  | Location => "location_id"
  | Requester => "user_id"
  end.

Definition cached (id : pyval) (c : cache) : bool :=
  match cache_get id c with Some _ => true | None => false end.

(** The id a by-id request of kind [k] asks for. *)
Definition resolved_id (k : kind) (rq : request) : option pyval :=
  match k, path rq with
  | Department, EDepartment i => Some i
  | Location, ELocation i => Some i
  | Requester, ERequester i => Some i
  | _, _ => None
  end.

Definition is_call (k : kind) (id : pyval) (rq : request) : bool :=
  match resolved_id k rq with
  | Some i => key_eqb id i
  | None => false
  end.

(** The number of requests in [t] that resolve the id [id] of kind [k]. *)
Fixpoint calls_for (k : kind) (id : pyval) (t : list request) : nat :=
  match t with
  | [] => O
  | rq :: t' => ((if is_call k id rq then 1 else 0) + calls_for k id t')%nat
  end.

(** Since the state [w0], the id [id] of kind [k] has been resolved by one
    call if it has been stored since, and by none otherwise. *)
Definition calls_exact (k : kind) (id : pyval) (w0 w : world) : Prop :=
  calls_for k id (trace w)
  = (calls_for k id (trace w0)
     + (if cached id (cache_of k w0) then 0
        else if cached id (cache_of k w) then 1 else 0))%nat
  /\ (cached id (cache_of k w0) = true -> cached id (cache_of k w) = true).

(** Since the state [w0], the id has been resolved by one call at most, and
    by none if it was cached then. *)
Definition calls_bounded (k : kind) (id : pyval) (w0 w : world) : Prop :=
  (calls_for k id (trace w0) <= calls_for k id (trace w)
   /\ calls_for k id (trace w)
      <= calls_for k id (trace w0)
         + (if cached id (cache_of k w0) then 0 else 1))%nat.

(** The lookups of the id [id] of kind [k] (and of the ids equal to it as
    dict keys) are answered, with status 200, whenever they are sent;
    nothing is said of any other request. *)
Definition resolved_with_200 (srv : nat -> request -> reply)
           (k : kind) (id : pyval) : Prop :=
  forall n id',
    key_eqb id id' = true ->
    exists r, srv n (get_request (endpoint_of k id')) = Reply r
              /\ status_code r = 200.

(** What one call of a resolver of kind [k] on [id] does to the world. *)
Inductive resolver_effect (k : kind) (id : pyval) (w : world)
  : outcome pyval -> world -> Prop :=
| effect_no_call o w' :
    trace w' = trace w ->
    (forall k', cache_of k' w' = cache_of k' w) ->
    (forall v, o = Ok v -> truthy id = true -> cached id (cache_of k w) = true) ->
    resolver_effect k id w o w'
| effect_call_stored v w' :
    truthy id = true ->
    hashable id = true ->
    cached id (cache_of k w) = false ->
    trace w' = trace w ++ [get_request (endpoint_of k id)] ->
    cache_of k w' = cache_set id v (cache_of k w) ->
    (forall k', k' <> k -> cache_of k' w' = cache_of k' w) ->
    resolver_effect k id w (Ok v) w'
| effect_call_raised e w' :
    truthy id = true ->
    cached id (cache_of k w) = false ->
    trace w' = trace w ++ [get_request (endpoint_of k id)] ->
    (forall k', cache_of k' w' = cache_of k' w) ->
    resolver_effect k id w (Raise e) w'
| effect_call_failed r w' :
    truthy id = true ->
    hashable id = true ->
    cached id (cache_of k w) = false ->
    server w (length (trace w)) (get_request (endpoint_of k id)) = Reply r ->
    status_code r <> 200 ->
    trace w' = trace w ++ [get_request (endpoint_of k id)] ->
    (forall k', cache_of k' w' = cache_of k' w) ->
    resolver_effect k id w (Ok PNone) w'.

(** What a row of the CSV loop guarantees about the calls made so far for
    the id [id] of kind [k]. *)
Definition row_result (k : kind) (id : pyval) (w0 w : world) (asset : pyval)
           (o : outcome unit) (w' : world) : Prop :=
  server w' = server w
  /\ calls_bounded k id w0 w'
  /\ (cached id (cache_of k w) = true -> cached id (cache_of k w') = true)
  /\ (o = Ok tt ->
      calls_exact k id w0 w'
      /\ (py_get asset (field_of k) PNone = inr id ->
          truthy id = true -> cached id (cache_of k w') = true)).

Definition resolver_error_line (k : kind) (id : pyval) (r : response) : line :=
  [Lit (match k with
        | Department => "Error retrieving department "
        | Location => "Error retrieving location "
        | Requester => "Error retrieving requester "
        end);
   Val id; Lit ": "; Val (PInt (status_code r)); Lit " "; Val (PStr (text r))].

Definition resolver (k : kind) : pyval -> M pyval :=
  match k with
  | Department => get_department_name
  | Location => get_location_name
  | Requester => get_requester_name
  end.

(** The rows loop of [write_csv]. *)
Definition write_rows (csv_file_path : string) (all_assets : list pyval) : M unit :=
  for_each all_assets (write_asset_row csv_file_path).

(** The name made of a first and a last name that are already stripped:
    the parts that are not empty, with one space between them. *)
Definition joined_name (first_name last_name : string) : pyval :=
  match first_name, last_name with
  | EmptyString, EmptyString => PNone
  | _, EmptyString => PStr first_name
  | EmptyString, _ => PStr last_name
  | _, _ => PStr (first_name ++ " " ++ last_name)%string
  end.

(** [row] is a CSV row of [asset]: its three own fields, then three
    resolved names. *)
Definition row_of (asset : pyval) (row : csv_row) : Prop :=
  exists display_id asset_tag name dept_name loc_name requester_name,
    py_get asset "display_id" PNone = inr display_id
    /\ py_get asset "asset_tag" PNone = inr asset_tag
    /\ py_get asset "name" PNone = inr name
    /\ row = [display_id; asset_tag; name; dept_name; loc_name; requester_name].

Definition read_error_line (file_path : string) (e : exn) : line :=
  [Lit "Error reading file "; Val (PStr file_path); Lit ": "; Exc e].

End Script.
End ContractAssets.

(** * freshservice_hrms_termination.py *)

Module Termination.

(** ** The regular expression of [extract_employee_id] *)

Fixpoint skip_prefix (lit s : string) : option string :=
  match lit with
  | EmptyString => Some s
  | String c lit' =>
      match s with
      | String c' s' => if Ascii.eqb c c' then skip_prefix lit' s' else None
      | EmptyString => None
      end
  end.

Fixpoint skip_spaces (s : string) : string :=
  match s with
  | String c s' => if is_space c then skip_spaces s' else s
  | EmptyString => EmptyString
  end.

Fixpoint take_digits (s : string) : string :=
  match s with
  | String c s' => if is_digit c then String c (take_digits s') else EmptyString
  | EmptyString => EmptyString
  end.

(** [Employee ID:\s*(\d+)] matched at the start of [s]; the result is
    group 1.  The two classes are disjoint, so the greedy match is the
    only one. *)
Definition match_here (s : string) : option string :=
  match skip_prefix "Employee ID:" s with
  | Some rest =>
      match take_digits (skip_spaces rest) with
      | EmptyString => None
      | ds => Some ds
      end
  | None => None
  end.

(** [re.search]: the leftmost position where the pattern matches. *)
Fixpoint re_search (s : string) : option string :=
  match match_here s with
  | Some ds => Some ds
  | None =>
      match s with
      | String _ s' => re_search s'
      | EmptyString => None
      end
  end.

Fixpoint string_forall (p : ascii -> bool) (s : string) : bool :=
  match s with
  | EmptyString => true
  | String c s' => p c && string_forall p s'
  end.

(** The description holds the text [Employee ID:], any white space, and a
    number. *)
Definition contains_employee_id (description : string) : Prop :=
  exists before spaces number after,
    description = (before ++ "Employee ID:" ++ spaces ++ number ++ after)%string
    /\ string_forall is_space spaces = true
    /\ string_forall is_digit number = true
    /\ number <> EmptyString.

Definition extract_employee_id (description_text : pyval) : M string :=
  match description_text with
  | PStr s =>
      match re_search s with
      | Some g => ret g
      | None => raise (ValueError "Employee ID not found in description text.")
      end
  | _ => raise TypeError
  end.

(** ** [datetime.strptime(s, "%m/%d/%Y").strftime("%Y-%m-%d")] *)

Definition str2 (a b : ascii) : string := String a (String b EmptyString).
Definition str1 (a : ascii) : string := String a EmptyString.

(** The alternatives of [(?P<m>1[0-2]|0[1-9]|[1-9])] at the start of [s],
    in the order the matcher tries them, each with the text left. *)
Definition alt_m (s : string) : list (string * string) :=
  match s with
  | String a r1 =>
      (match r1 with
       | String b r2 =>
           (if (code a =? 49)%N && between 48 50 b then [(str2 a b, r2)] else [])
           ++ (if (code a =? 48)%N && between 49 57 b then [(str2 a b, r2)] else [])
       | EmptyString => []
       end)
      ++ (if between 49 57 a then [(str1 a, r1)] else [])
  | EmptyString => []
  end.

(** The alternatives of [(?P<d>3[0-1]|[1-2]\d|0[1-9]|[1-9]| [1-9])]. *)
Definition alt_d (s : string) : list (string * string) :=
  match s with
  | String a r1 =>
      (match r1 with
       | String b r2 =>
           (if (code a =? 51)%N && between 48 49 b then [(str2 a b, r2)] else [])
           ++ (if between 49 50 a && is_digit b then [(str2 a b, r2)] else [])
           ++ (if (code a =? 48)%N && between 49 57 b then [(str2 a b, r2)] else [])
       | EmptyString => []
       end)
      ++ (if between 49 57 a then [(str1 a, r1)] else [])
      ++ (match r1 with
          | String b r2 =>
              if (code a =? 32)%N && between 49 57 b then [(str2 a b, r2)] else []
          | EmptyString => []
          end)
  | EmptyString => []
  end.

(** [(?P<Y>\d\d\d\d)]. *)
Definition take_Y (s : string) : option (string * string) :=
  match s with
  | String a (String b (String c (String d r))) =>
      if is_digit a && is_digit b && is_digit c && is_digit d
      then Some (String a (String b (String c (String d EmptyString))), r)
      else None
  | _ => None
  end.

(** The first alternative whose continuation succeeds. *)
Fixpoint first_match {A B} (alts : list A) (k : A -> option B) : option B :=
  match alts with
  | [] => None
  | a :: alts' =>
      match k a with
      | Some b => Some b
      | None => first_match alts' k
      end
  end.

Definition skip_slash (s : string) : option string :=
  match s with
  | String c r => if (code c =? 47)%N then Some r else None
  | EmptyString => None
  end.

(** [re.match] of the compiled format: the groups m, d, Y and the text
    left unread. *)
Definition match_format (s : string) : option (string * string * string * string) :=
  first_match (alt_m s) (fun '(m, r1) =>
    match skip_slash r1 with
    | Some r2 =>
        first_match (alt_d r2) (fun '(d, r3) =>
          match skip_slash r3 with
          | Some r4 =>
              match take_Y r4 with
              | Some (y, r5) => Some (m, d, y, r5)
              | None => None
              end
          | None => None
          end)
    | None => None
    end).

Fixpoint digits_value (acc : Z) (s : string) : Z :=
  match s with
  | EmptyString => acc
  | String c s' => digits_value (acc * 10 + (Z.of_N (code c) - 48)) s'
  end.

(** [int(s)] on a matched group (digits, after an optional space). *)
Definition py_int (s : string) : Z := digits_value 0 (strip s).

Definition is_leap (y : Z) : bool :=
  ((y mod 4 =? 0) && negb (y mod 100 =? 0)) || (y mod 400 =? 0).

Definition days_in_month (y m : Z) : Z :=
  if m =? 2 then (if is_leap y then 29 else 28)
  else if (m =? 4) || (m =? 6) || (m =? 9) || (m =? 11) then 30
  else 31.

(** [datetime.strptime(s, "%m/%d/%Y")]: year, month, day.  Every failure
    is a [ValueError]; its message is kept short here (the library also
    quotes the input, or the text left unread), and nothing below reads
    it. *)
Definition strptime (s : string) : exn + (Z * Z * Z) :=
  match match_format s with
  | None => inl (ValueError "time data does not match format '%m/%d/%Y'")
  | Some (m, d, y, rest) =>
      match rest with
      | String _ _ => inl (ValueError "unconverted data remains")
      | EmptyString =>
          let year := py_int y in
          let month := py_int m in
          let day := py_int d in
          if year <? 1 then inl (ValueError "year is out of range")
          else if (1 <=? day) && (day <=? days_in_month year month)
          then inr (year, month, day)
          else inl (ValueError "day is out of range for month")
      end
  end.

Definition digit_char (n : Z) : ascii := ascii_of_N (Z.to_N (48 + n)).

(** Two digits, zero-padded: [%m] and [%d] of [strftime]. *)
Definition two_digits (n : Z) : string :=
  str2 (digit_char (n / 10)) (digit_char (n mod 10)).

(** Four digits, zero-padded. *)
Definition four_digits (n : Z) : string :=
  String (digit_char (n / 1000)) (String (digit_char (n / 100 mod 10))
    (two_digits (n mod 100))).

(** [str(n)] for an integer. *)
Definition str_of_Z (n : Z) : string :=
  NilEmpty.string_of_int (Z.to_int n).

(** [strftime("%Y-%m-%d")]; [%Y] is the year in decimal as the C library
    prints it. *)
Definition strftime (date : Z * Z * Z) : string :=
  let '(year, month, day) := date in
  (str_of_Z year ++ "-" ++ two_digits month ++ "-" ++ two_digits day)%string.

(** *** What the format accepts, in words *)

(** A date of the calendar, with a year that [datetime] can hold. *)
Definition valid_date (y m d : Z) : Prop :=
  1 <= y <= 9999 /\ 1 <= m <= 12 /\ 1 <= d <= days_in_month y m.



(** The ways [%m] reads a month: two digits, or one digit. *)
Definition month_text (t : string) (m : Z) : Prop :=
  t = two_digits m \/ (m <= 9 /\ t = str1 (digit_char m)).

(** The ways [%d] reads a day: two digits, one digit, or a space and one
    digit. *)
Definition day_text (t : string) (d : Z) : Prop :=
  t = two_digits d
  \/ (d <= 9 /\ (t = str1 (digit_char d) \/ t = str2 " " (digit_char d))).

(** The text is month, slash, day, slash and a year of four digits, in one
    of the ways the format reads them. *)
Definition date_text (s : string) (y m d : Z) : Prop :=
  exists mt dt,
    s = (mt ++ "/" ++ dt ++ "/" ++ four_digits y)%string
    /\ month_text mt m /\ day_text dt d.

Definition date_error_line (date_str : string) : line :=
  [Lit "Error converting date: "; Val (PStr date_str)].

Definition convert_date_format (date_str : pyval) : M string :=
  do date_str <- lift (py_strip date_str);
  try_except
    (do date <- lift (strptime date_str); ret (strftime date))
    is_ValueError
    (fun e =>
       run print [Lit "Error converting date: "; Val (PStr date_str)];
       raise e).

(** *** What an HRMS report looks like *)

(** The report as [xmltodict] gives it: the columns of the header and the
    rows of the body. *)
Definition report (cols rows : pyval) : pyval :=
  PDict [("result", PDict [("header", PDict [("col", cols)]);
                           ("body", PDict [("row", rows)])])].

(** A row from which [dict(zip(labels, row["col"]))] can be built. *)
Definition row_is_aligned (row : pyval) : Prop :=
  exists values vs, py_item row "col" = inr values /\ py_iter values = inr vs.

(** The date as [strftime("%Y-%m-%d")] writes it: the year in decimal,
    without padding, then month and day with two digits each. *)
Definition iso_date (y m d : Z) : string :=
  (str_of_Z y ++ "-" ++ two_digits m ++ "-" ++ two_digits d)%string.

(** A value that the date loop leaves alone ([None], empty) or converts. *)
Definition date_value_ok (v : pyval) : Prop :=
  truthy v = false
  \/ exists s y m d,
       v = PStr s /\ date_text (strip s) y m d /\ valid_date y m d.

(** A value that is empty or a string. *)
Definition date_value_is_text (v : pyval) : Prop :=
  truthy v = false \/ exists s, v = PStr s.

(** A non-empty string that is no date. *)
Definition date_value_bad (v : pyval) : Prop :=
  exists s,
    v = PStr s /\ truthy v = true
    /\ forall y m d, ~ (date_text (strip s) y m d /\ valid_date y m d).

(** *** What a people search may answer *)

(** [raise_for_status] lets the response through. *)
Definition passes (r : response) : Prop :=
  status_code r < 400 \/ 600 <= status_code r.

(** The search finds nobody: an error status with a body that decodes as
    UTF-8 (the handler prints it), or an answer whose [key] is absent, null
    or empty. *)
Definition search_misses (key : string) (rp : reply) : Prop :=
  exists r,
    rp = Reply r
    /\ ((400 <= status_code r < 600 /\ exists content, decoded r = Some content)
        \/ (passes r
            /\ exists j found,
                 json_body r = Some j
                 /\ py_get j key PNone = inr found
                 /\ truthy found = false)).

(** The search answers with a list whose first person has the id [id] and
    the manager [manager_id]. *)
Definition search_finds (key : string) (rp : reply) (id manager_id : pyval)
  : Prop :=
  exists r d person others,
    rp = Reply r /\ passes r
    /\ json_body r = Some (PDict d)
    /\ dict_lookup key d = Some (PList (person :: others))
    /\ py_item person "id" = inr id
    /\ py_get person "reporting_manager_id" PNone = inr manager_id.

(** The search is refused with an error status and a body that is not
    UTF-8. *)
Definition search_garbled (rp : reply) : Prop :=
  exists r,
    rp = Reply r /\ 400 <= status_code r < 600 /\ decoded r = None.

(** The lookup of a manager ends in the HTTP error of the answer [r]: the
    lookup as requester is refused with a status other than 404, or it is
    answered with 404 and the lookup as agent is refused.  [lookups] are
    the requests sent, the first of them as the [n]-th call. *)
Definition manager_lookup_fails (srv : nat -> request -> reply) (n : nat)
           (as_requester as_agent : request) (r : response)
           (lookups : list request) : Prop :=
  (srv n as_requester = Reply r
   /\ 400 <= status_code r < 600 /\ status_code r <> 404
   /\ lookups = [as_requester])
  \/ (exists r0,
         srv n as_requester = Reply r0 /\ status_code r0 = 404
         /\ srv (S n) as_agent = Reply r
         /\ 400 <= status_code r < 600
         /\ lookups = [as_requester; as_agent]).

(** ** The script *)

Section Script.

(** The constants of the credentials module, which is not part of the
    repository. *)
Variables fs_api_key fs_password fs_domain : string.
Variables apiKey username password company : string.
Variables onePoint_login_domain onePoint_term_report : string.

(** [repr] of a list or a dict, as [str] and f-strings print them. *)
Variable py_repr : pyval -> string.

(** [f"{v}"]. *)
Definition py_str (v : pyval) : string :=
  match v with
  | PNone => "None"
  | PBool true => "True"
  | PBool false => "False"
  | PInt z => str_of_Z z
  | PStr s => s
  | PList _ | PDict _ => py_repr v
  end.

Definition fs_url : string := ("https://" ++ fs_domain)%string.

(** The headers carry the Basic credentials [fs_api_key:fs_password]. *)
Definition get_headers : credential := BasicAuth fs_api_key fs_password.

Definition fetch_ticket_data (ticket_id : Z) (headers : credential) : M pyval :=
  do response <- http (mk_request GET fs_url (ETicket ticket_id) headers NoBody);
  run raise_for_status response;
  json response.

Definition login_hrms : M pyval :=
  let login_data :=
    PDict [("credentials",
            PDict [("username", PStr username);
                   ("password", PStr password);
                   ("company", PStr company)])] in
  do response <- http (mk_request POST onePoint_login_domain EAbsolute
                         (ApiKey apiKey) (JsonBody login_data));
  run raise_for_status response;
  do response_data <- json response;
  lift (py_item response_data "token").

(** [xmltodict.parse(response.content)]. *)
Definition xml_parse (r : response) : M pyval :=
  match xml_body r with
  | Some v => ret v
  | None => raise ExpatError
  end.

(** ['result' not in response_dict], on the dict that [xmltodict] gives. *)
Definition has_key (k : string) (v : pyval) : exn + bool :=
  match v with
  | PDict d => inr (match dict_lookup k d with Some _ => true | None => false end)
  | _ => inl TypeError
  end.

Definition fetch_employee_data (employee_id : string) (token : pyval) : M pyval :=
  let report_data :=
    PDict [("filters",
            PList [PDict [("field_name", PStr "EmployeeId");
                          ("operator", PStr "=");
                          ("values", PList [PStr employee_id])]])] in
  do response <- http (mk_request POST onePoint_term_report EAbsolute
                         (Bearer token) (JsonBody report_data));
  run raise_for_status response;
  do response_dict <- xml_parse response;
  do present <- lift (has_key "result" response_dict);
  if negb present then raise (ValueError "No result found in the response")
  else ret response_dict.

(** [col["label"].strip().replace('\n', ' ').replace('  ', ' ')]. *)
Definition clean_label (col : pyval) : exn + string :=
  match py_item col "label" with
  | inl e => inl e
  | inr l =>
      match py_strip l with
      | inl e => inl e
      | inr s => inr (replace_two_spaces (replace_newline s))
      end
  end.

(** [dict(zip(labels, values))]. *)
Fixpoint dict_zip (labels : list string) (values : list pyval)
         (acc : list (string * pyval)) : list (string * pyval) :=
  match labels, values with
  | l :: labels', v :: values' => dict_zip labels' values' (dict_set l v acc)
  | _, _ => acc
  end.

Definition align_row (labels : list string) (row : pyval)
  : exn + list (string * pyval) :=
  match py_item row "col" with
  | inl e => inl e
  | inr values =>
      match py_iter values with
      | inl e => inl e
      | inr vs => inr (dict_zip labels vs [])
      end
  end.

Definition date_fields : list string :=
  ["Effective Date"; "Date Hired"; "Date Started"; "IT Deactivation Date"].

(** The date conversion loop of [process_employee_data]. *)
Fixpoint convert_dates (fields : list string) (employee_data : list (string * pyval))
  : M (list (string * pyval)) :=
  match fields with
  | [] => ret employee_data
  | date_field :: fields' =>
      match dict_lookup date_field employee_data with
      | Some v =>
          if truthy v then
            run print [Lit "Converting date: "; Val v];
            do converted <- convert_date_format v;
            convert_dates fields' (dict_set date_field (PStr converted) employee_data)
          else
            run print [Lit "Skipping date conversion for "; Val (PStr date_field);
                       Lit " (value is empty or not found)."];
            convert_dates fields' employee_data
      | None =>
          run print [Lit "Skipping date conversion for "; Val (PStr date_field);
                     Lit " (value is empty or not found)."];
          convert_dates fields' employee_data
      end
  end.

Definition process_employee_data (response_dict : pyval) : M pyval :=
  do result <- lift (py_item response_dict "result");
  do header <- lift (py_item result "header");
  do cols <- lift (py_item header "col");
  do col_list <- lift (py_iter cols);
  do labels <- lift (map_exn clean_label col_list);
  do body <- lift (py_item result "body");
  do rows <- lift (py_item body "row");
  let rows := match rows with PList l => l | other => [other] end in
  do employee_data_list <- lift (map_exn (align_row labels) rows);
  match employee_data_list with
  | [] => raise IndexError
  | employee_data :: _ =>
      do employee_data <- convert_dates date_fields employee_data;
      ret (PDict employee_data)
  end.

(** The request of [search_api]. *)
Definition search_request (headers : credential) (email endpoint field_name : string)
  : request :=
  mk_request GET fs_url (ESearch endpoint field_name email) headers NoBody.

Definition url_line (rq : request) : line :=
  [Lit "Request URL: "; Url (host rq) (path rq)].

(** The helper [search_api] of [fetch_requester_info]. *)
Definition search_api (headers : credential) (email endpoint field_name : string)
  : M pyval :=
  let rq := search_request headers email endpoint field_name in
  run print (url_line rq);
  do response <- http rq;
  run raise_for_status response;
  json response.

(** The body of the handlers of [requests.HTTPError]: the last line prints
    [e.response.content.decode()], which raises when the body of the answer
    is not UTF-8. *)
Definition http_error_report (what : string) (e : exn) : M unit :=
  run print [Lit what; Exc e];
  run print [Lit "Response Content:"];
  match e with
  | HTTPError r =>
      do content <- content_decode r;
      print [Val (PStr content)]
  | _ => raise AttributeError
  end.

(** One namespace of [fetch_requester_info]: [Some] is the early return. *)
Definition search_namespace (headers : credential) (email : string)
           (endpoint field_name key user_type err : string)
  : M (option (pyval * pyval * string)) :=
  try_except
    (do response_json <- search_api headers email endpoint field_name;
     do found <- lift (py_get response_json key PNone);
     if truthy found then
       do people <- lift (py_item response_json key);
       do person <- lift (py_first people);
       do requester_id <- lift (py_item person "id");
       do manager_id <- lift (py_get person "reporting_manager_id" PNone);
       ret (Some (requester_id, manager_id, user_type))
     else ret None)
    is_HTTPError
    (fun e => run http_error_report err e; ret None).

Definition fetch_requester_info (email : pyval) : M (pyval * pyval * string) :=
  let headers := get_headers in
  match email with
  | PStr email =>
      let email := lower email in
      do r <- search_namespace headers email "requesters" "primary_email"
                "requesters" "requester" "Error searching requesters: ";
      match r with
      | Some found => ret found
      | None =>
          do a <- search_namespace headers email "agents" "email"
                    "agents" "agent" "Error searching agents: ";
          match a with
          | Some found => ret found
          | None =>
              run print [Lit "No user found with the given email."];
              raise (ValueError "User not found in both requesters and agents")
          end
      end
  | _ => raise AttributeError
  end.

(** The by-id lookups of [fetch_manager_email]. *)
Definition requester_lookup (headers : credential) (manager_id : pyval) : request :=
  mk_request GET fs_url (ERequester manager_id) headers NoBody.

Definition agent_lookup (headers : credential) (manager_id : pyval) : request :=
  mk_request GET fs_url (EAgent manager_id) headers NoBody.

Definition fetch_manager_email (manager_id : pyval) : M pyval :=
  let headers := get_headers in
  do response <- http (requester_lookup headers manager_id);
  if status_code response =? 200 then
    do response_json <- json response;
    do requester <- lift (py_item response_json "requester");
    do manager_email <- lift (py_item requester "primary_email");
    run print [Lit "Manager found as requester. Email: "; Val manager_email];
    ret manager_email
  else if status_code response =? 404 then
    do response <- http (agent_lookup headers manager_id);
    if status_code response =? 200 then
      do response_json <- json response;
      do agent <- lift (py_item response_json "agent");
      do manager_email <- lift (py_item agent "email");
      run print [Lit "Manager found as agent. Email: "; Val manager_email];
      ret manager_email
    else
      run print [Lit "Manager not found as agent."];
      run raise_for_status response;
      ret PNone
  else
    run print [Lit "Failed to fetch manager."];
    run raise_for_status response;
    ret PNone.

Definition create_service_request
           (requester_id it_deactivation_date manager_email : pyval) : M pyval :=
  let manager_email :=
    if negb (truthy manager_email) then PStr "noreply@hrms.com"
    else manager_email in
  let service_request_data :=
    PDict [("quantity", PInt 1);
           ("email", manager_email);
           ("custom_fields",
            PDict [("date_of_change", PStr (py_str it_deactivation_date));
                   ("untitled", PStr (py_str requester_id));
                   ("employee_change_type", PStr "Termination")])] in
  let headers := get_headers in
  run print [Lit "Request URL:"; Url fs_url (EPlaceRequest 95)];
  run print [Lit "Request Data:"; Val service_request_data];
  do response <- http (mk_request POST fs_url (EPlaceRequest 95)
                         (BasicAuth fs_api_key fs_password)
                         (JsonBody service_request_data));
  run try_except (raise_for_status response) is_HTTPError
        (fun e =>
           run print [Lit "Failed to create service request: "; Exc e];
           run print [Lit "Response Content:"];
           do content <- content_decode response;
           run print [Val (PStr content)];
           raise e);
  do response_json <- json response;
  do sr <- lift (py_item response_json "service_request");
  lift (py_item sr "id").

(** The request that [create_service_request] sends. *)
Definition place_request (requester_id it_deactivation_date manager_email : pyval)
  : request :=
  mk_request POST fs_url (EPlaceRequest 95) (BasicAuth fs_api_key fs_password)
    (JsonBody
       (PDict [("quantity", PInt 1);
               ("email", if truthy manager_email then manager_email
                         else PStr "noreply@hrms.com");
               ("custom_fields",
                PDict [("date_of_change", PStr (py_str it_deactivation_date));
                       ("untitled", PStr (py_str requester_id));
                       ("employee_change_type", PStr "Termination")])])).

(** The requests that [login_hrms] and [fetch_employee_data] send. *)
Definition login_request : request :=
  mk_request POST onePoint_login_domain EAbsolute (ApiKey apiKey)
    (JsonBody
       (PDict [("credentials",
                PDict [("username", PStr username);
                       ("password", PStr password);
                       ("company", PStr company)])])).

Definition report_request (employee_id : string) (token : pyval) : request :=
  mk_request POST onePoint_term_report EAbsolute (Bearer token)
    (JsonBody
       (PDict [("filters",
                PList [PDict [("field_name", PStr "EmployeeId");
                              ("operator", PStr "=");
                              ("values", PList [PStr employee_id])]])])).

(** [time.sleep]: no effect on the world. *)
Definition sleep (seconds : Z) : M unit := ret tt.

(** What a module-level name is bound to when [main] runs. *)
Inductive binding : Type :=
| Function0 (f : M pyval)     (* a function of no argument *)
| OtherObject.                (* a module, or a function with parameters *)

(** The names bound at module level, in the order of the source. *)
Definition module_globals : list (string * binding) :=
  [("argparse", OtherObject); ("requests", OtherObject); ("re", OtherObject);
   ("base64", OtherObject); ("json", OtherObject); ("time", OtherObject);
   ("xmltodict", OtherObject); ("datetime", OtherObject);
   ("credentials", OtherObject);
   ("get_headers", OtherObject); ("fetch_ticket_data", OtherObject);
   ("extract_employee_id", OtherObject); ("convert_date_format", OtherObject);
   ("login_hrms", Function0 login_hrms);
   ("fetch_employee_data", OtherObject); ("process_employee_data", OtherObject);
   ("fetch_requester_info", OtherObject); ("fetch_manager_email", OtherObject);
   ("create_service_request", OtherObject); ("main", OtherObject)].

Fixpoint lookup_name (name : string) (ns : list (string * binding))
  : option binding :=
  match ns with
  | [] => None
  | (n, b) :: ns' => if String.eqb name n then Some b else lookup_name name ns'
  end.

(** [name()]: the name is looked up when the call runs; a name bound
    nowhere raises [NameError]. *)
Definition call0 (name : string) : M pyval :=
  match lookup_name name module_globals with
  | Some (Function0 f) => f
  | Some OtherObject => raise TypeError
  | None => raise (NameError name)
  end.

(** [try: m except <sel1> as e: h1 e except <sel2> as e: h2 e]. *)
Definition try_except2 {A} (m : M A) (sel1 : exn -> bool) (h1 : exn -> M A)
           (sel2 : exn -> bool) (h2 : exn -> M A) : M A :=
  fun w =>
    match m w with
    | (Raise e, w') =>
        if sel1 e then h1 e w'
        else if sel2 e then h2 e w'
        else (Raise e, w')
    | r => r
    end.

(** The part of [main] that follows the HRMS record. *)
Definition offboard (employee_data : pyval) : M unit :=
  do op_primary_email <- lift (py_item employee_data "Primary Email");
  do it_deactivation_date <- lift (py_get employee_data "IT Deactivation Date" PNone);
  do employee_name <- lift (py_get employee_data "Employee Name" PNone);
  do '(requester_id, manager_email) <-
    try_except
      (do '(requester_id, manager_id, user_type) <- fetch_requester_info op_primary_email;
       run print [Lit "User Type: "; Val (PStr (capitalize user_type));
                  Lit ", ID: "; Val requester_id];
       do manager_email <-
         (if truthy manager_id then
            try_except
              (do manager_email <- fetch_manager_email manager_id;
               run print [Lit "Manager Email: "; Val manager_email];
               ret manager_email)
              is_HTTPError
              (fun e =>
                 run http_error_report "Failed to fetch manager email: " e;
                 ret PNone)
          else
            run print [Lit "Manager ID not found for the user"];
            ret PNone);
       ret (requester_id, manager_email))
      is_ValueError
      (fun e => run print [Exc e]; ret (PNone, PNone));
  if negb (truthy requester_id) then
    print [Lit "Requester ID not found. Cannot proceed without requester."]
  else
    try_except2
      (do ticket_id <- create_service_request requester_id it_deactivation_date
                         manager_email;
       print [Lit "Service Request Ticket ID: "; Val ticket_id])
      is_HTTPError
      (fun e => http_error_report "Failed to create service request: " e)
      any_exception
      (fun e => print [Lit "An error occurred: "; Exc e]).

(** The request of [fetch_ticket_data]. *)
Definition ticket_request (ticket_id : Z) : request :=
  mk_request GET fs_url (ETicket ticket_id) get_headers NoBody.

Definition main (ticket_id : Z) : M unit :=
  let headers := get_headers in
  do ticket_data <- fetch_ticket_data ticket_id headers;
  do ticket <- lift (py_item ticket_data "ticket");
  do description_text <- lift (py_item ticket "description_text");
  do found <-
    try_except
      (do employee_id <- extract_employee_id description_text;
       run print [Lit "Employee ID: "; Val (PStr employee_id)];
       ret (Some employee_id))
      is_ValueError
      (fun e => run print [Exc e]; ret None);
  match found with
  | None => ret tt
  | Some employee_id =>
      try_except
        (do token <- call0 "login_HRMS";
         run sleep 5;
         do response_dict <- fetch_employee_data employee_id token;
         do employee_data <- process_employee_data response_dict;
         run print [Val employee_data];
         offboard employee_data)
        any_exception
        (fun e => print [Lit "An error occurred: "; Exc e])
  end.

End Script.
End Termination.

(** * term_ticket_assets_note.py *)

Module TicketAssetsNote.

(** [{'display_id': asset['asset_tag']}]. *)
Definition asset_stub (asset : pyval) : exn + pyval :=
  match py_item asset "asset_tag" with
  | inl e => inl e
  | inr tag => inr (PDict [("display_id", tag)])
  end.

Definition update_ticket_with_assets
           (ticket_id : Z) (sandbox : string) (headers : credential)
           (assets : list pyval) : M (Z * string) :=
  do stubs <- lift (map_exn asset_stub assets);
  let payload := PDict [("assets", PList stubs)] in
  do response <- http (mk_request PUT ("https://" ++ sandbox)%string
                         (ETicket ticket_id) headers (JsonBody payload));
  ret (status_code response, text response).

(** ['requested_items' in v]: a key of a dict, an element of a list, a
    substring of a string; other values are not iterable. *)
Fixpoint starts_with (sub s : string) : bool :=
  match sub, s with
  | EmptyString, _ => true
  | String a sub', String b s' => Ascii.eqb a b && starts_with sub' s'
  | String _ _, EmptyString => false
  end.

Fixpoint contains (sub s : string) : bool :=
  starts_with sub s
  || match s with
     | EmptyString => false
     | String _ s' => contains sub s'
     end.

Definition py_in (k : string) (v : pyval) : exn + bool :=
  match v with
  | PDict d => inr (match dict_lookup k d with Some _ => true | None => false end)
  | PList l => inr (existsb (fun x => match x with
                                      | PStr s => String.eqb k s
                                      | _ => false
                                      end) l)
  | PStr s => inr (contains k s)
  | _ => inl TypeError
  end.

Section Script.

(** The module [credentials]. *)
Variables fs_api_key fs_password fs_domain : string.

(** [repr] of a list or a dict, as f-strings print them. *)
Variable py_repr : pyval -> string.

(** The headers carry the Basic credentials [fs_api_key:fs_password]. *)
Definition get_headers : credential := BasicAuth fs_api_key fs_password.

Definition fetch_requested_items
           (ticket_id : Z) (sandbox : string) (headers : credential) : M pyval :=
  do response <- http (mk_request GET ("https://" ++ sandbox)%string
                         (ERequestedItems ticket_id) headers NoBody);
  json response.

Definition fetch_assets
           (employee_name : pyval) (sandbox : string) (headers : credential)
  : M pyval :=
  do response <- http (mk_request GET ("https://" ++ sandbox)%string
                         (EAssetsOfUser employee_name) headers NoBody);
  json response.

Definition get_asset_type
           (asset_type_id : pyval) (sandbox : string) (headers : credential)
  : M pyval :=
  do response <- http (mk_request GET ("https://" ++ sandbox)%string
                         (EAssetType asset_type_id) headers NoBody);
  json response.

(** One [<li>] of the note: the three subscripts are evaluated left to
    right. *)
Definition asset_item (asset : pyval) : exn + string :=
  match py_item asset "name" with
  | inl e => inl e
  | inr name =>
      match py_item asset "asset_type" with
      | inl e => inl e
      | inr asset_type =>
          match py_item asset_type "name" with
          | inl e => inl e
          | inr type_name =>
              match py_item asset "asset_tag" with
              | inl e => inl e
              | inr tag =>
                  inr ("<li>Name: " ++ Termination.py_str py_repr name
                       ++ ", Type of Asset: "
                       ++ Termination.py_str py_repr type_name
                       ++ ", Asset Tag: " ++ Termination.py_str py_repr tag
                       ++ "</li>")%string
              end
          end
      end
  end.

Definition create_html_body (assets : list pyval) : exn + string :=
  match map_exn asset_item assets with
  | inl e => inl e
  | inr items =>
      inr ("<p>Assets to be collected:</p><ul>"
           ++ String.concat "" items ++ "</ul>")%string
  end.

Definition add_note_to_ticket
           (ticket_id : Z) (sandbox : string) (headers : credential)
           (html_body : string) : M (Z * string) :=
  let payload := PDict [("body", PStr html_body); ("private", PBool false)] in
  do response <- http (mk_request POST ("https://" ++ sandbox)%string
                         (ETicketNotes ticket_id) headers (JsonBody payload));
  ret (status_code response, text response).

(** The loop of [main] over the assets of the employee. *)
Fixpoint collect_assets (sandbox : string) (headers : credential)
         (assets : list pyval) (assets_list : list pyval) : M (list pyval) :=
  match assets with
  | [] => ret assets_list
  | asset :: rest =>
      do asset_type_id <- lift (py_get asset "asset_type_id" PNone);
      do asset_type_data <- get_asset_type asset_type_id sandbox headers;
      do name <- lift (py_get asset "name" PNone);
      do asset_type <- lift (py_item asset_type_data "asset_type");
      do asset_tag <- lift (py_get asset "asset_tag" PNone);
      collect_assets sandbox headers rest
        (assets_list ++ [PDict [("name", name);
                                ("asset_type", asset_type);
                                ("asset_tag", asset_tag)]])
  end.

Definition main (ticket_id : Z) : M unit :=
  let sandbox := fs_domain in
  let headers := get_headers in
  do requested_items <- fetch_requested_items ticket_id sandbox headers;
  do present <- lift (py_in "requested_items" requested_items);
  do nonempty <- (if present
                  then do v <- lift (py_item requested_items "requested_items");
                       ret (truthy v)
                  else ret false);
  if nonempty then
    do items <- lift (py_item requested_items "requested_items");
    do first_item <- lift (py_first items);
    do custom_fields <- lift (py_item first_item "custom_fields");
    do employee_name <- lift (py_get custom_fields "untitled" PNone);
    if truthy employee_name then
      run print [Lit "User Name: "; Val employee_name];
      do assets <- fetch_assets employee_name sandbox headers;
      do listed <- lift (py_get assets "assets" (PList []));
      do each <- lift (py_iter listed);
      do assets_list <- collect_assets sandbox headers each [];
      do html_body <- lift (create_html_body assets_list);
      do ' (status, response_text) <-
        add_note_to_ticket ticket_id sandbox headers html_body;
      run print [Val (PInt status); Lit " "; Val (PStr response_text)];
      do ' (status, response_text) <-
        update_ticket_with_assets ticket_id sandbox headers assets_list;
      print [Lit "Ticket updated with assets: "; Val (PInt status);
             Lit ", "; Val (PStr response_text)]
    else print [Lit "employee_name not found in custom_fields"]
  else print [Lit "requested_items not found or empty"].

(** *** The requests of the script *)

Definition items_request (ticket_id : Z) : request :=
  mk_request GET ("https://" ++ fs_domain)%string (ERequestedItems ticket_id)
             get_headers NoBody.

Definition assets_request (employee_name : pyval) : request :=
  mk_request GET ("https://" ++ fs_domain)%string (EAssetsOfUser employee_name)
             get_headers NoBody.

Definition type_request (asset_type_id : pyval) : request :=
  mk_request GET ("https://" ++ fs_domain)%string (EAssetType asset_type_id)
             get_headers NoBody.

Definition note_request (ticket_id : Z) (html_body : string) : request :=
  mk_request POST ("https://" ++ fs_domain)%string (ETicketNotes ticket_id)
             get_headers
             (JsonBody (PDict [("body", PStr html_body);
                               ("private", PBool false)])).

Definition link_request (ticket_id : Z) (tags : list pyval) : request :=
  mk_request PUT ("https://" ++ fs_domain)%string (ETicket ticket_id)
             get_headers
             (JsonBody
                (PDict [("assets",
                         PList (map (fun t => PDict [("display_id", t)]) tags))])).

(** *** What the server may answer *)

(** [d.get(k)] on the fields of a record. *)
Definition field (k : string) (d : list (string * pyval)) : pyval :=
  match dict_lookup k d with
  | Some v => v
  | None => PNone
  end.

(** The entry that the loop of [main] keeps for an asset and its type. *)
Definition entry (asset : list (string * pyval)) (asset_type : pyval) : pyval :=
  PDict [("name", field "name" asset);
         ("asset_type", asset_type);
         ("asset_tag", field "asset_tag" asset)].

Fixpoint entries (assets : list (list (string * pyval))) (types : list pyval)
  : list pyval :=
  match assets, types with
  | asset :: assets', asset_type :: types' =>
      entry asset asset_type :: entries assets' types'
  | _, _ => []
  end.

(** The answer to the requested-items query names the employee [name]:
    its first item carries [name] in the custom field [untitled]. *)
Definition names_employee (rp : reply) (name : pyval) : Prop :=
  exists r d first rest item fields,
    rp = Reply r
    /\ json_body r = Some (PDict d)
    /\ dict_lookup "requested_items" d = Some (PList (first :: rest))
    /\ first = PDict item
    /\ dict_lookup "custom_fields" item = Some (PDict fields)
    /\ field "untitled" fields = name.

(** The answer to the assets query lists the records [assets]; an answer
    without the key [assets] lists none. *)
Definition lists_assets (rp : reply) (assets : list (list (string * pyval)))
  : Prop :=
  exists r d,
    rp = Reply r
    /\ json_body r = Some (PDict d)
    /\ match dict_lookup "assets" d with
       | Some v => v
       | None => PList []
       end = PList (map PDict assets).

(** From the [n]-th call on, the server answers the type query of each
    asset with a document whose [asset_type] is the matching element of
    [types]. *)
Fixpoint types_served (srv : nat -> request -> reply) (n : nat)
         (assets : list (list (string * pyval))) (types : list pyval) : Prop :=
  match assets, types with
  | [], [] => True
  | asset :: assets', asset_type :: types' =>
      (exists r d,
          srv n (type_request (field "asset_type_id" asset)) = Reply r
          /\ json_body r = Some (PDict d)
          /\ dict_lookup "asset_type" d = Some asset_type)
      /\ types_served srv (S n) assets' types'
  | _, _ => False
  end.

Definition type_requests (assets : list (list (string * pyval))) : list request :=
  map (fun asset => type_request (field "asset_type_id" asset)) assets.

(** What the script may write to the ticket: nothing, the note, or the
    note and then the asset list. *)
Definition is_note (ticket_id : Z) (rq : request) : Prop :=
  exists html_body, rq = note_request ticket_id html_body.

Definition is_link (ticket_id : Z) (rq : request) : Prop :=
  exists tags, rq = link_request ticket_id tags.

Definition writes_in_order (ticket_id : Z) (writes : list request) : Prop :=
  writes = []
  \/ (exists note, writes = [note] /\ is_note ticket_id note)
  \/ (exists note link, writes = [note; link]
                        /\ is_note ticket_id note /\ is_link ticket_id link).

End Script.

End TicketAssetsNote.

(** * Example worlds *)

(** A world with nothing on disk, nothing printed, nothing sent and empty
    caches, in front of the server [srv]. *)
Definition fresh_world (srv : nat -> request -> reply) : world :=
  mk_world srv [] [] ∅ (fun _ => None) [] [] [].

Definition plain_response (status : Z) (body : option pyval) : response :=
  mk_response status "" body None (Some "").

(** A server that answers every call with the same status and body. *)
Definition constant_server (status : Z) (body : option pyval)
  : nat -> request -> reply :=
  fun _ _ => Reply (plain_response status body).

(** A page of assets as the contract endpoint returns it. *)
Definition assets_page (items : list pyval) : response :=
  plain_response 200 (Some (PDict [("associated_assets", PList items)])).

Definition sample_asset (n : Z) : pyval :=
  PDict [("display_id", PInt n); ("asset_tag", PStr "TAG"); ("name", PStr "Laptop");
         ("department_id", PInt 5); ("location_id", PNone); ("user_id", PNone)].

Definition sample_assets (n : nat) : list pyval :=
  map (fun i => sample_asset (Z.of_nat i)) (seq 0 n).

(** A contract with 140 assets: page 1 holds 100 of them, page 2 holds 40,
    every further page is empty. *)
Definition two_page_server : nat -> request -> reply :=
  fun _ rq =>
    match path rq with
    | EContractAssets _ 1 _ => Reply (assets_page (sample_assets 100))
    | EContractAssets _ 2 _ => Reply (assets_page (sample_assets 40))
    | _ => Reply (assets_page [])
    end.

(** The same contract behind a server that fails from the third call on. *)
Definition failing_third_server : nat -> request -> reply :=
  fun n rq =>
    if (n <? 2)%nat then two_page_server n rq
    else Reply (mk_response 503 "Service Unavailable" None None
                 (Some "Service Unavailable")).

(** Constants for the examples. *)
Definition acme : string := "acme.freshservice.com".
Definition acme_key : string := "k3y".
Definition acme_password : string := "X".

(** A server in front of a ticket that holds the assets A and B. *)
Definition ticket_with_A_and_B : nat -> request -> reply :=
  constant_server 200
    (Some (PDict [("ticket",
                   PDict [("assets", PList [PDict [("display_id", PStr "A")];
                                            PDict [("display_id", PStr "B")]])])])).

(** The entry C, as [main] of the note script builds entries. *)
Definition entry_C : pyval :=
  PDict [("name", PStr "Dock");
         ("asset_type", PDict [("name", PStr "Hardware")]);
         ("asset_tag", PStr "C")].

(** A server that knows every department, location and requester. *)
Definition directory_server : nat -> request -> reply :=
  constant_server 200
    (Some (PDict [("department", PDict [("name", PStr "IT")]);
                  ("location", PDict [("name", PStr "Austin")]);
                  ("requester", PDict [("first_name", PStr "Ada");
                                       ("last_name", PStr "Lovelace")])])).

(** An asset of department 5 at location 9, and a server that knows the
    departments and the requesters but refuses every location lookup. *)
Definition located_asset (n : Z) : pyval :=
  PDict [("display_id", PInt n); ("asset_tag", PStr "TAG"); ("name", PStr "Laptop");
         ("department_id", PInt 5); ("location_id", PInt 9); ("user_id", PNone)].

Definition no_locations_server : nat -> request -> reply :=
  fun n rq =>
    match path rq with
    | ELocation _ => Reply (plain_response 503 None)
    | _ => directory_server n rq
    end.

(** A server whose by-id lookups all fail. *)
Definition broken_directory_server : nat -> request -> reply :=
  constant_server 500 None.

Definition lease_csv : string := ContractAssets.csv_filename "2026-11".

(** A world where the CSV has been written. *)
Definition world_with_csv (srv : nat -> request -> reply) : world :=
  mk_world srv [] [] {[ lease_csv := [ContractAssets.csv_header] ]}
           (fun _ => None) [] [] [].


(** A manager who is an agent, not a requester. *)
Definition agent_manager_server : nat -> request -> reply :=
  fun _ rq =>
    match path rq with
    | ERequester _ => Reply (plain_response 404 None)
    | EAgent _ =>
        Reply (plain_response 200
                 (Some (PDict [("agent", PDict [("email", PStr "boss@acme.com")])])))
    | _ => Reply (plain_response 500 None)
    end.

(** An employee found among the requesters. *)
Definition requester_directory : nat -> request -> reply :=
  fun _ rq =>
    match path rq with
    | ESearch "requesters" _ _ =>
        Reply (plain_response 200
                 (Some (PDict [("requesters",
                                PList [PDict [("id", PInt 1001);
                                              ("reporting_manager_id", PInt 77)]])])))
    | _ => Reply (plain_response 200 (Some (PDict [("agents", PList [])])))
    end.

(** A termination ticket. *)
Definition termination_ticket : pyval :=
  PDict [("ticket",
          PDict [("id", PInt 54157);
                 ("description_text",
                  PStr "Termination notice. Employee ID: 4821 Last day: 03/14/2024")])].

Definition ticket_server : nat -> request -> reply :=
  constant_server 200 (Some termination_ticket).

Definition sample_repr (v : pyval) : string := "[...]".

(** An asset that belongs to no department, location or requester. *)
Definition loose_asset : list (string * pyval) :=
  [("display_id", PInt 9); ("asset_tag", PStr "TAG-9"); ("name", PStr "Spare dock")].

(** A requester stored with blanks around the names. *)
Definition padded_name_server : nat -> request -> reply :=
  constant_server 200
    (Some (PDict [("requester", PDict [("first_name", PStr " Ada ");
                                       ("last_name", PStr "Lovelace ")])])).

(** A requester whose first name is null. *)
Definition null_name_server : nat -> request -> reply :=
  constant_server 200
    (Some (PDict [("requester", PDict [("first_name", PNone);
                                       ("last_name", PStr "Lovelace")])])).

(** A server that cannot be reached. *)
Definition unreachable_server : nat -> request -> reply :=
  fun _ _ => Fails ConnectionError.

(** A ticket that names no employee. *)
Definition plain_ticket : pyval :=
  PDict [("ticket",
          PDict [("id", PInt 7);
                 ("description_text", PStr "Printer is out of toner")])].

(** Nobody is known by the email, neither as requester nor as agent. *)
Definition empty_directory : nat -> request -> reply :=
  constant_server 200
    (Some (PDict [("requesters", PList []); ("agents", PList [])])).

(** An employee who is an agent. *)
Definition agent_directory : nat -> request -> reply :=
  fun _ rq =>
    match path rq with
    | ESearch "agents" _ _ =>
        Reply (plain_response 200
                 (Some (PDict [("agents",
                                PList [PDict [("id", PInt 2002);
                                              ("reporting_manager_id", PInt 77)]])])))
    | _ => Reply (plain_response 200 (Some (PDict [("requesters", PList [])])))
    end.

(** An employee found among the requesters, whose manager is unknown as a
    requester and cannot be looked up as an agent. *)
Definition manager_gone_directory : nat -> request -> reply :=
  fun _ rq =>
    match path rq with
    | ESearch "requesters" _ _ =>
        Reply (plain_response 200
                 (Some (PDict [("requesters",
                                PList [PDict [("id", PInt 1001);
                                              ("reporting_manager_id", PInt 77)]])])))
    | ERequester _ => Reply (plain_response 404 None)
    | EAgent _ => Reply (plain_response 500 None)
    | _ =>
        Reply (plain_response 201
                 (Some (PDict [("service_request", PDict [("id", PInt 9)])])))
    end.

(** A gateway that refuses every request with a body that is not UTF-8. *)
Definition garbled_gateway : nat -> request -> reply :=
  fun _ _ => Reply (mk_response 502 "Bad Gateway" None None None).

(** A contract with two assets on its first page, in front of the
    directory. *)
Definition small_contract_server : nat -> request -> reply :=
  fun n rq =>
    match path rq with
    | EContractAssets _ 1 _ => Reply (assets_page (sample_assets 2))
    | EContractAssets _ _ _ => Reply (assets_page [])
    | _ => directory_server n rq
    end.

(** The record of an employee, as [process_employee_data] returns it. *)
Definition employee_record : list (string * pyval) :=
  [("Primary Email", PStr "Jane.Doe@acme.com");
   ("Date Hired", PStr "03/04/2019");
   ("IT Deactivation Date", PStr "2024-03-14");
   ("Effective Date", PNone)].


Definition bad_record : list (string * pyval) :=
  [("Primary Email", PStr "Jane.Doe@acme.com");
   ("Date Hired", PStr "2024-03-14")].

(** An HRMS report with a result, and the server that returns it. *)
Definition hrms_report : list (string * pyval) :=
  [("result", PDict [("header", PDict [("col", PList [])]);
                     ("body", PDict [("row", PList [])])])].

Definition hrms_server : nat -> request -> reply :=
  fun _ _ => Reply (mk_response 200 "<result/>" None (Some (PDict hrms_report))
              (Some "<result/>")).

(** A ticket whose first requested item names the employee [jdoe], who
    holds a laptop and a dock. *)
Definition laptop : list (string * pyval) :=
  [("name", PStr "Laptop"); ("asset_tag", PStr "TAG-1"); ("asset_type_id", PInt 3)].

Definition dock : list (string * pyval) :=
  [("name", PStr "Dock"); ("asset_tag", PStr "TAG-2"); ("asset_type_id", PInt 3)].

Definition hardware : pyval := PDict [("name", PStr "Hardware")].

Definition items_of (fields : list (string * pyval)) : reply :=
  Reply (plain_response 200
           (Some (PDict [("requested_items",
                          PList [PDict [("custom_fields", PDict fields)]])]))).

Definition note_server : nat -> request -> reply :=
  fun _ rq =>
    match path rq with
    | ERequestedItems _ => items_of [("untitled", PStr "jdoe")]
    | EAssetsOfUser _ =>
        Reply (plain_response 200
                 (Some (PDict [("assets", PList [PDict laptop; PDict dock])])))
    | EAssetType _ =>
        Reply (plain_response 200 (Some (PDict [("asset_type", hardware)])))
    | ETicketNotes _ => Reply (mk_response 403 "Forbidden" None None (Some "Forbidden"))
    | _ => Reply (mk_response 200 "OK" None None (Some "OK"))
    end.

(** The same ticket behind a server that refuses the assets query. *)
Definition refusing_server : nat -> request -> reply :=
  fun _ rq =>
    match path rq with
    | ERequestedItems _ => items_of [("untitled", PStr "jdoe")]
    | EAssetsOfUser _ =>
        Reply (plain_response 400
                 (Some (PDict [("description", PStr "Validation failed")])))
    | _ => Reply (mk_response 200 "OK" None None (Some "OK"))
    end.

(** A ticket without requested items, and one whose item names nobody. *)
Definition no_items_server : nat -> request -> reply :=
  constant_server 404 (Some (PDict [("code", PStr "not_found")])).

Definition nameless_server : nat -> request -> reply :=
  fun _ _ => items_of [("reason", PStr "left")].

(** The asset-type queries are answered with an error document. *)
Definition typeless_server : nat -> request -> reply :=
  fun n rq =>
    match path rq with
    | EAssetType _ =>
        Reply (plain_response 404 (Some (PDict [("code", PStr "not_found")])))
    | _ => note_server n rq
    end.

(** * Properties *)

(** ** Reasoning about runs *)

Lemma bind_ok {A B} (m : M A) (k : A -> M B) w a w' :
  m w = (Ok a, w') -> bind m k w = k a w'.
Proof. intros H. unfold bind. now rewrite H. Qed.

(** The rule for [bind], for a property of the outcome and the final
    world. *)
Lemma bind_rule {A B} (m : M A) (k : A -> M B) (w : world)
      (P : outcome B -> world -> Prop) :
  match m w with
  | (Ok a, w') => P (fst (k a w')) (snd (k a w'))
  | (Raise e, w') => P (Raise e) w'
  | (OutOfFuel, w') => P OutOfFuel w'
  end ->
  P (fst (bind m k w)) (snd (bind m k w)).
Proof. unfold bind. destruct (m w) as [[a|e|] w']; auto. Qed.

Lemma http_reply rq w r :
  server w (length (trace w)) rq = Reply r ->
  http rq w = (Ok r, set_trace (trace w ++ [rq]) w).
Proof. intros H. unfold http. now rewrite H. Qed.

(** Whatever the server does, a call adds exactly its request to the
    trace. *)
Lemma http_trace rq w : trace (snd (http rq w)) = trace w ++ [rq].
Proof. unfold http. destruct (server w _ rq); reflexivity. Qed.

(** Case analysis on whatever the run is blocked on, innermost first. *)
Ltac run_case :=
  match goal with
  | |- context [match ?x with _ => _ end] =>
      lazymatch x with
      | context [match _ with _ => _ end] => fail
      | _ => destruct x eqn:?
      end
  end.

(** ** term_ticket_assets_note.py *)

Section TicketAssetsNoteProperties.
Import TicketAssetsNote.

Lemma map_exn_stubs (assets tags : list pyval) :
  Forall2 (fun a t => py_item a "asset_tag" = inr t) assets tags ->
  map_exn asset_stub assets
  = inr (map (fun t => PDict [("display_id", t)]) tags).
Proof.
  induction 1 as [|a t assets tags Ha _ IH]; [reflexivity|].
  cbn [map_exn map]. unfold asset_stub at 1. rewrite Ha, IH. reflexivity.
Qed.

(** C5. [update_ticket_with_assets] sends one PUT on the ticket whose
    [assets] field is the list of [{display_id}] stubs of the supplied
    entries and of nothing else: whatever the server holds for the ticket
    (say assets A and B), supplying the entry C gives the payload [C]. *)
Theorem update_ticket_with_assets_full_replace
        (ticket_id : Z) (sandbox : string) (headers : credential)
        (assets tags : list pyval) (w : world) :
  Forall2 (fun a t => py_item a "asset_tag" = inr t) assets tags ->
  let payload :=
    PDict [("assets", PList (map (fun t => PDict [("display_id", t)]) tags))] in
  let put := mk_request PUT ("https://" ++ sandbox)%string (ETicket ticket_id)
                        headers (JsonBody payload) in
  trace (snd (update_ticket_with_assets ticket_id sandbox headers assets w))
  = trace w ++ [put]
  /\ (forall r, server w (length (trace w)) put = Reply r ->
        fst (update_ticket_with_assets ticket_id sandbox headers assets w)
        = Ok (status_code r, text r)).
Proof.
  intros Hst payload put. subst payload put.
  unfold update_ticket_with_assets, bind.
  rewrite (map_exn_stubs _ _ Hst). cbn [lift ret]. unfold http.
  destruct (server w (length (trace w)) _) as [r|e] eqn:Hsrv; cbn.
  - split; [reflexivity|]. intros r' Hr'. congruence.
  - split; [reflexivity|]. intros r' Hr'. congruence.
Qed.

End TicketAssetsNoteProperties.

(** ** contract_assets.py: the pagination loop *)

Section PaginationProperties.
Import ContractAssets.

Variable FSURL : string.
Variable api_key : string.

#[local] Abbreviation fetch_pages := (fetch_pages FSURL api_key).
#[local] Abbreviation page_request := (page_request FSURL api_key).
#[local] Abbreviation page_requests := (page_requests FSURL api_key).
#[local] Abbreviation pages_served := (pages_served FSURL api_key).

(** A full page is appended and the loop goes on with the next page. *)
Lemma fetch_pages_full fuel page acc w items :
  full_page (server w (length (trace w)) (page_request page)) items ->
  fetch_pages (S fuel) page acc w
  = fetch_pages fuel (page + 1) (acc ++ items)
      (set_trace (trace w ++ [page_request page]) w).
Proof.
  intros (r & d & Hr & Hst & Hj & Hd & Hne).
  cbn [ContractAssets.fetch_pages]. unfold api_get.
  fold (ContractAssets.page_request FSURL api_key page).
  rewrite (bind_ok _ _ _ _ _ (http_reply _ _ _ Hr)).
  rewrite Hst. cbn [Z.eqb Pos.eqb negb].
  unfold json. rewrite Hj. unfold bind at 1. cbn [ret].
  unfold py_get. rewrite Hd. unfold bind at 1. cbn [lift ret].
  destruct items as [|a items]; [congruence|]. cbn [truthy negb].
  unfold bind at 1. cbn [py_iter lift ret]. reflexivity.
Qed.

(** The loop through the full pages. *)
Lemma fetch_pages_through pages : forall fuel page acc w,
  pages_served (server w) (length (trace w)) page pages ->
  fetch_pages (length pages + fuel) page acc w
  = fetch_pages fuel (page + Z.of_nat (length pages)) (acc ++ concat pages)
      (set_trace (trace w ++ page_requests page (length pages)) w).
Proof.
  induction pages as [|items pages IH]; intros fuel page acc w Hserved.
  - cbn. rewrite Z.add_0_r, !app_nil_r. destruct w; reflexivity.
  - destruct Hserved as [Hfull Hrest].
    cbn [length Nat.add]. rewrite (fetch_pages_full _ _ _ _ _ Hfull).
    rewrite IH.
    + cbn [trace set_trace concat ContractAssets.page_requests].
      rewrite <- !app_assoc. cbn [app].
      replace (page + 1 + Z.of_nat (length pages))
        with (page + Z.of_nat (S (length pages))) by lia.
      reflexivity.
    + cbn [server trace set_trace]. rewrite length_app. cbn [length].
      replace (length (trace w) + 1)%nat with (S (length (trace w))) by lia.
      exact Hrest.
Qed.

(** The loop stops on a page with no asset. *)
Lemma fetch_pages_empty fuel page acc w :
  empty_page (server w (length (trace w)) (page_request page)) ->
  fetch_pages (S fuel) page acc w
  = (Ok acc, set_trace (trace w ++ [page_request page]) w).
Proof.
  intros (r & d & Hr & Hst & Hj & Hd).
  cbn [ContractAssets.fetch_pages]. unfold api_get.
  fold (ContractAssets.page_request FSURL api_key page).
  rewrite (bind_ok _ _ _ _ _ (http_reply _ _ _ Hr)).
  rewrite Hst. cbn [Z.eqb Pos.eqb negb].
  unfold json. rewrite Hj. unfold bind at 1. cbn [ret].
  unfold py_get. destruct Hd as [Hd|Hd]; rewrite Hd; reflexivity.
Qed.

(** The loop stops on a status other than 200, after printing it. *)
Lemma fetch_pages_failed fuel page acc w r :
  failed_page (server w (length (trace w)) (page_request page)) r ->
  fetch_pages (S fuel) page acc w
  = (Ok acc,
     set_stdout (stdout w ++ [page_error_line page r])
       (set_trace (trace w ++ [page_request page]) w)).
Proof.
  intros [Hr Hst].
  cbn [ContractAssets.fetch_pages]. unfold api_get.
  fold (ContractAssets.page_request FSURL api_key page).
  rewrite (bind_ok _ _ _ _ _ (http_reply _ _ _ Hr)).
  apply Z.eqb_neq in Hst. rewrite Hst. reflexivity.
Qed.

Lemma page_requests_snoc n : forall page,
  page_requests page (S n)
  = page_requests page n ++ [page_request (page + Z.of_nat n)].
Proof.
  induction n as [|n IH]; intros page.
  - cbn. now rewrite Z.add_0_r.
  - change (page_requests page (S (S n)))
      with (page_request page :: page_requests (page + 1) (S n)).
    rewrite IH. cbn [ContractAssets.page_requests app].
    replace (page + 1 + Z.of_nat n) with (page + Z.of_nat (S n)) by lia.
    reflexivity.
Qed.

(** The whole loop: full pages, then a page that stops it. *)
Lemma fetch_pages_stop pages fuel w :
  pages_served (server w) (length (trace w)) 1 pages ->
  (length pages < fuel)%nat ->
  let k := length pages in
  let w' := set_trace (trace w ++ page_requests 1 (S k)) w in
  let last := server w (length (trace w) + k)%nat (page_request (1 + Z.of_nat k)) in
  (empty_page last -> fetch_pages fuel 1 [] w = (Ok (concat pages), w'))
  /\ (forall r, failed_page last r ->
        fetch_pages fuel 1 [] w
        = (Ok (concat pages),
           set_stdout (stdout w ++ [page_error_line (1 + Z.of_nat k) r]) w')).
Proof.
  intros Hserved Hfuel k w' last. subst k w' last.
  replace fuel with (length pages + S (fuel - length pages - 1))%nat by lia.
  rewrite (fetch_pages_through _ _ _ _ _ Hserved). cbn [app].
  rewrite page_requests_snoc.
  assert (Hlen : length (trace (set_trace
                   (trace w ++ page_requests 1 (length pages)) w))
                 = (length (trace w) + length pages)%nat).
  { cbn [trace set_trace]. rewrite length_app. f_equal.
    clear. generalize 1. induction (length pages) as [|n IH]; intros z;
      [reflexivity|]. cbn. now rewrite IH. }
  split.
  - intros He. rewrite fetch_pages_empty.
    + cbn [trace set_trace]. rewrite <- app_assoc. reflexivity.
    + rewrite Hlen. exact He.
  - intros r Hf. rewrite (fetch_pages_failed _ _ _ _ r).
    + cbn [trace set_trace stdout]. rewrite <- app_assoc. reflexivity.
    + rewrite Hlen. exact Hf.
Qed.

(** C2. The pagination loop halts at the first page that is empty or
    whose status is not 200: after [k] full pages and such a page it has sent
    exactly [k + 1] requests and returns, without raising, the records of
    the [k] earlier pages; on a status other than 200 it prints the error
    and returns the same records. *)
Theorem pagination_halts_at_first_stop_page
        (pages : list (list pyval)) (fuel : nat) (w : world) :
  pages_served (server w) (length (trace w)) 1 pages ->
  (length pages < fuel)%nat ->
  let k := length pages in
  let w' := set_trace (trace w ++ page_requests 1 (S k)) w in
  let last := server w (length (trace w) + k)%nat (page_request (1 + Z.of_nat k)) in
  (empty_page last -> fetch_pages fuel 1 [] w = (Ok (concat pages), w'))
  /\ (forall r, failed_page last r ->
        fetch_pages fuel 1 [] w
        = (Ok (concat pages),
           set_stdout (stdout w ++ [page_error_line (1 + Z.of_nat k) r]) w'))
  /\ length (trace w') = (length (trace w) + k + 1)%nat.
Proof.
  intros Hserved Hfuel k w' last.
  destruct (fetch_pages_stop pages fuel w Hserved Hfuel) as [He Hf].
  split; [exact He|]. split; [exact Hf|].
  subst w' k. cbn [trace set_trace]. rewrite length_app.
  assert (Hn : forall n z, length (page_requests z n) = n).
  { induction n as [|n IH]; intros z; [reflexivity|]. cbn. now rewrite IH. }
  rewrite Hn. lia.
Qed.

(** C3, as the code has it. After a first page of 100 records and a second
    page of 40 the loop has 140 records, and it sends a third request: it
    stops only when that third page comes back empty (or with a status
    other than 200), so it makes exactly three calls; the size of a page
    is never compared with [per_page]. *)
Theorem two_pages_take_three_calls
        (p1 p2 : list pyval) (fuel : nat) (w : world) :
  length p1 = 100%nat -> length p2 = 40%nat ->
  pages_served (server w) (length (trace w)) 1 [p1; p2] ->
  empty_page (server w (length (trace w) + 2)%nat (page_request 3)) ->
  (3 <= fuel)%nat ->
  fetch_pages fuel 1 [] w
  = (Ok (p1 ++ p2),
     set_trace (trace w ++ [page_request 1; page_request 2; page_request 3]) w)
  /\ length (p1 ++ p2) = 140%nat.
Proof.
  intros H1 H2 Hserved Hempty Hfuel. split.
  - destruct (fetch_pages_stop [p1; p2] fuel w Hserved) as [He _];
      [cbn; lia|].
    cbn in He. rewrite app_nil_r in He. apply He. exact Hempty.
  - rewrite length_app. lia.
Qed.

End PaginationProperties.

(** ** contract_assets.py: the memoised resolvers *)

Section KeyProperties.

Lemma key_eqb_sym a b : key_eqb a b = key_eqb b a.
Proof.
  destruct a as [| [] | | | |], b as [| [] | | | |];
    cbv beta iota delta [key_eqb as_int];
    try reflexivity; try apply Z.eqb_sym; apply String.eqb_sym.
Qed.

Lemma key_eqb_trans a b c :
  key_eqb a b = true -> key_eqb b c = true -> key_eqb a c = true.
Proof.
  destruct a as [| [] | | | |], b as [| [] | | | |], c as [| [] | | | |];
    cbv beta iota delta [key_eqb as_int]; intros H1 H2;
    try discriminate; try reflexivity;
    rewrite ?Z.eqb_eq, ?String.eqb_eq in *; try lia; congruence.
Qed.

Lemma key_eqb_congr a b c : key_eqb a b = true -> key_eqb a c = key_eqb b c.
Proof.
  intros Hab. destruct (key_eqb b c) eqn:Hbc.
  - eapply key_eqb_trans; eassumption.
  - destruct (key_eqb a c) eqn:Hac; [|reflexivity].
    rewrite key_eqb_sym in Hab.
    now rewrite (key_eqb_trans _ _ _ Hab Hac) in Hbc.
Qed.

Lemma key_eqb_truthy a b : key_eqb a b = true -> truthy a = truthy b.
Proof.
  destruct a as [| [] | | | |], b as [| [] | | | |];
    cbv beta iota delta [key_eqb as_int truthy];
    intros H; try discriminate; try reflexivity;
    rewrite ?Z.eqb_eq, ?String.eqb_eq in *; subst; reflexivity.
Qed.

Lemma cache_get_congr a b c :
  key_eqb a b = true -> cache_get a c = cache_get b c.
Proof.
  intros Hab. induction c as [|[k v] c IH]; [reflexivity|].
  cbn. rewrite (key_eqb_congr _ _ k Hab), IH. reflexivity.
Qed.

Lemma cached_cache_set id id0 v c :
  ContractAssets.cached id (cache_set id0 v c)
  = key_eqb id id0 || ContractAssets.cached id c.
Proof.
  unfold ContractAssets.cached.
  induction c as [|[k v'] c IH]; cbn.
  - destruct (key_eqb id id0); reflexivity.
  - destruct (key_eqb id0 k) eqn:H0k; cbn.
    + assert (E : key_eqb id id0 = key_eqb id k).
      { rewrite (key_eqb_sym id id0), (key_eqb_sym id k).
        apply key_eqb_congr. exact H0k. }
      rewrite E. destruct (key_eqb id k); cbn; [reflexivity|].
      destruct (cache_get id c); reflexivity.
    + destruct (key_eqb id k); cbn.
      * now rewrite orb_true_r.
      * exact IH.
Qed.

End KeyProperties.

Section ResolverProperties.
Import ContractAssets.

Variable FSURL : string.
Variable api_key : string.

#[local] Abbreviation get_department_name := (get_department_name FSURL api_key).
#[local] Abbreviation get_location_name := (get_location_name FSURL api_key).
#[local] Abbreviation get_requester_name := (get_requester_name FSURL api_key).
#[local] Abbreviation get_request := (get_request FSURL api_key).
#[local] Abbreviation resolver_effect := (resolver_effect FSURL api_key).
#[local] Abbreviation resolver := (resolver FSURL api_key).
#[local] Abbreviation resolved_with_200 := (resolved_with_200 FSURL api_key).

Ltac close_effect :=
  first
    [ solve [ eapply effect_no_call;
              [ reflexivity
              | intros []; reflexivity
              | intros; unfold cached; cbn in *;
                repeat match goal with
                       | H : _ = _ |- _ => rewrite H
                       end; congruence ] ]
    | solve [ eapply effect_call_stored;
              [ assumption
              | assumption
              | unfold cached; cbn;
                match goal with
                | H : cache_get _ _ = None |- _ => rewrite H
                end; reflexivity
              | reflexivity
              | reflexivity
              | intros [] ?; cbn; congruence ] ]
    | solve [ eapply effect_call_raised;
              [ assumption
              | unfold cached; cbn;
                match goal with
                | H : cache_get _ _ = None |- _ => rewrite H
                end; reflexivity
              | reflexivity
              | intros []; reflexivity ] ]
    | solve [ eapply effect_call_failed;
              [ assumption
              | assumption
              | unfold cached; cbn;
                match goal with
                | H : cache_get _ _ = None |- _ => rewrite H
                end; reflexivity
              | eassumption
              | apply Z.eqb_neq; assumption
              | reflexivity
              | intros []; reflexivity ] ] ].

Lemma get_department_name_effect id w :
  resolver_effect Department id w
    (fst (get_department_name id w)) (snd (get_department_name id w)).
Proof.
  unfold ContractAssets.get_department_name, bind, read_dept_cache,
    write_dept_cache, api_get, http, cache_mem, cache_item, json, py_get,
    lift, ret, raise, print.
  destruct (truthy id) eqn:Htruthy; cbn [negb].
  2:{ cbn. eapply effect_no_call;
        [reflexivity | intros []; reflexivity | intros; congruence]. }
  repeat (cbn [fst snd negb]; run_case); cbn [fst snd]; close_effect.
Qed.

Lemma get_location_name_effect id w :
  resolver_effect Location id w
    (fst (get_location_name id w)) (snd (get_location_name id w)).
Proof.
  unfold ContractAssets.get_location_name, bind, read_location_cache,
    write_location_cache, api_get, http, cache_mem, cache_item, json, py_get,
    lift, ret, raise, print.
  destruct (truthy id) eqn:Htruthy; cbn [negb].
  2:{ cbn. eapply effect_no_call;
        [reflexivity | intros []; reflexivity | intros; congruence]. }
  repeat (cbn [fst snd negb]; run_case); cbn [fst snd]; close_effect.
Qed.

Lemma get_requester_name_effect id w :
  resolver_effect Requester id w
    (fst (get_requester_name id w)) (snd (get_requester_name id w)).
Proof.
  unfold ContractAssets.get_requester_name, bind, read_requester_cache,
    write_requester_cache, api_get, http, cache_mem, cache_item, json, py_get,
    py_strip, lift, ret, raise, print.
  destruct (truthy id) eqn:Htruthy; cbn [negb].
  2:{ cbn. eapply effect_no_call;
        [reflexivity | intros []; reflexivity | intros; congruence]. }
  repeat (cbn [fst snd negb]; run_case); cbn [fst snd]; close_effect.
Qed.

Lemma resolver_effect_holds k id w :
  resolver_effect k id w (fst (resolver k id w)) (snd (resolver k id w)).
Proof.
  destruct k; [apply get_department_name_effect
              |apply get_location_name_effect
              |apply get_requester_name_effect].
Qed.

Lemma resolver_server k id w : server (snd (resolver k id w)) = server w.
Proof.
  destruct k; cbn [ContractAssets.resolver];
    [unfold ContractAssets.get_department_name, read_dept_cache, write_dept_cache
    |unfold ContractAssets.get_location_name, read_location_cache, write_location_cache
    |unfold ContractAssets.get_requester_name, read_requester_cache,
       write_requester_cache];
    unfold  bind, api_get, http, cache_mem, cache_item, json, py_get,
      py_strip, lift, ret, raise, print;
    repeat (cbn [fst snd negb]; run_case); reflexivity.
Qed.

Lemma resolver_remove_error k id w :
  remove_error (snd (resolver k id w)) = remove_error w.
Proof.
  destruct k; cbn [ContractAssets.resolver];
    [unfold ContractAssets.get_department_name, read_dept_cache, write_dept_cache
    |unfold ContractAssets.get_location_name, read_location_cache, write_location_cache
    |unfold ContractAssets.get_requester_name, read_requester_cache,
       write_requester_cache];
    unfold  bind, api_get, http, cache_mem, cache_item, json, py_get,
      py_strip, lift, ret, raise, print;
    repeat (cbn [fst snd negb]; run_case); reflexivity.
Qed.

Lemma calls_for_snoc k id t rq :
  calls_for k id (t ++ [rq])
  = (calls_for k id t + (if is_call k id rq then 1 else 0))%nat.
Proof.
  induction t as [|rq' t IH]; cbn; [lia|]. rewrite IH. lia.
Qed.

Lemma is_call_same k id id0 :
  is_call k id (get_request (endpoint_of k id0)) = key_eqb id id0.
Proof. destruct k; reflexivity. Qed.

Lemma is_call_other k k' id id0 :
  k' <> k -> is_call k' id (get_request (endpoint_of k id0)) = false.
Proof. destruct k, k'; intros H; try reflexivity; congruence. Qed.

Lemma cached_congr a b c :
  key_eqb a b = true -> cached a c = cached b c.
Proof. intros H. unfold cached. now rewrite (cache_get_congr a b c H). Qed.

Lemma key_eqb_refl id : hashable id = true -> key_eqb id id = true.
Proof.
  destruct id as [| [] | | | |]; cbv beta iota delta [key_eqb as_int hashable];
    intros H; try discriminate; try reflexivity;
    [apply Z.eqb_refl | apply String.eqb_refl].
Qed.

Lemma calls_exact_refl k id w : calls_exact k id w w.
Proof.
  split; [|tauto].
  destruct (cached id (cache_of k w)); lia.
Qed.

Lemma calls_exact_bounded k id w0 w :
  calls_exact k id w0 w -> calls_bounded k id w0 w.
Proof.
  intros [E _]. unfold calls_bounded. rewrite E.
  destruct (cached id (cache_of k w0)); [lia|].
  destruct (cached id (cache_of k w)); lia.
Qed.

Lemma calls_exact_same k id w0 w w' :
  trace w' = trace w -> (forall k, cache_of k w' = cache_of k w) ->
  calls_exact k id w0 w -> calls_exact k id w0 w'.
Proof.
  intros Ht Hc H. unfold calls_exact. rewrite Ht, Hc. apply H.
Qed.

(** One resolver call, of any kind and for any id, keeps the count of the
    calls for [id] in step with the cache, provided the lookups of [id]
    itself are answered with status 200. *)
Lemma effect_step k id k0 id0 w0 w o w' :
  (cached id (cache_of k w0) = false -> resolved_with_200 (server w) k id) ->
  calls_exact k id w0 w ->
  resolver_effect k0 id0 w o w' ->
  calls_bounded k id w0 w'
  /\ (cached id (cache_of k w) = true -> cached id (cache_of k w') = true)
  /\ (forall v, o = Ok v ->
        calls_exact k id w0 w'
        /\ (k0 = k -> id0 = id -> truthy id = true ->
            cached id (cache_of k w') = true)).
Proof.
  intros H200 Hex Heff. destruct Hex as [E Hm].
  destruct Heff as [o w' Ht Hc Hhit
                   |v w' Htr Hh Hmiss Ht Hck Hco
                   |e w' Htr Hmiss Ht Hc
                   |r w' Htr Hh Hmiss Hr Hst Ht Hc].
  - assert (Hex' : calls_exact k id w0 w')
      by (eapply calls_exact_same; [exact Ht|exact Hc|split; assumption]).
    split; [now apply calls_exact_bounded|].
    split; [now rewrite Hc|].
    intros v Hv. split; [exact Hex'|]. intros -> -> Htruthy.
    rewrite Hc. eauto.
  - destruct (kind_eq_dec k k0) as [->|Hne].
    + assert (Hmono : cached id (cache_of k0 w) = true ->
                      cached id (cache_of k0 w') = true).
      { intros Hin. rewrite Hck, cached_cache_set, Hin. apply orb_true_r. }
      assert (Hex' : calls_exact k0 id w0 w').
      { split; [|auto].
        rewrite Ht, calls_for_snoc, E, is_call_same, Hck, cached_cache_set.
        destruct (key_eqb id id0) eqn:Hk; cbn [orb].
        - rewrite (cached_congr id id0 _ Hk) in Hm |- *.
          rewrite (cached_congr id id0 (cache_of k0 w) Hk), Hmiss in *.
          destruct (cached id0 (cache_of k0 w0)); [|lia].
          specialize (Hm eq_refl). discriminate.
        - lia. }
      split; [now apply calls_exact_bounded|]. split; [exact Hmono|].
      intros v' _. split; [exact Hex'|]. intros _ -> _.
      rewrite Hck, cached_cache_set, (key_eqb_refl _ Hh). reflexivity.
    + assert (Hex' : calls_exact k id w0 w').
      { split; [|rewrite (Hco k Hne); exact Hm].
        rewrite Ht, calls_for_snoc, E, (is_call_other _ _ _ _ Hne),
          (Hco k Hne). lia. }
      split; [now apply calls_exact_bounded|].
      split; [now rewrite (Hco k Hne)|].
      intros v' _. split; [exact Hex'|]. intros Heq. congruence.
  - split; [|split; [now rewrite Hc|intros v Hv; discriminate]].
    unfold calls_bounded. rewrite Ht, calls_for_snoc, E.
    destruct (kind_eq_dec k k0) as [->|Hne].
    + rewrite is_call_same.
      destruct (key_eqb id id0) eqn:Hk.
      * rewrite (cached_congr id id0 _ Hk) in Hm |- *.
        rewrite (cached_congr id id0 (cache_of k0 w) Hk), Hmiss in *.
        destruct (cached id0 (cache_of k0 w0)); [|lia].
        specialize (Hm eq_refl). discriminate.
      * destruct (cached id (cache_of k0 w0)); [lia|].
        destruct (cached id (cache_of k0 w)); lia.
    + rewrite (is_call_other _ _ _ _ Hne).
      destruct (cached id (cache_of k w0)); [lia|].
      destruct (cached id (cache_of k w)); lia.
  - assert (Hother : is_call k id (get_request (endpoint_of k0 id0)) = false).
    { destruct (kind_eq_dec k k0) as [->|Hne];
        [|exact (is_call_other _ _ _ _ Hne)].
      rewrite is_call_same. destruct (key_eqb id id0) eqn:Hk; [|reflexivity].
      assert (Hnot : cached id (cache_of k0 w0) = false).
      { destruct (cached id (cache_of k0 w0)) eqn:Hin; [|reflexivity].
        specialize (Hm eq_refl).
        rewrite (cached_congr id id0 _ Hk), Hmiss in Hm. discriminate. }
      destruct (H200 Hnot (length (trace w)) id0 Hk) as (r' & Hr' & Hst').
      rewrite Hr in Hr'. injection Hr' as <-. contradiction. }
    assert (Hex' : calls_exact k id w0 w').
    { split; [|rewrite Hc; exact Hm].
      rewrite Ht, calls_for_snoc, E, Hother, Hc. lia. }
    split; [now apply calls_exact_bounded|]. split; [now rewrite Hc|].
    intros v _. split; [exact Hex'|]. intros -> -> _.
    rewrite is_call_same, (key_eqb_refl _ Hh) in Hother. discriminate.
Qed.

#[local] Abbreviation write_asset_row := (write_asset_row FSURL api_key).
#[local] Abbreviation write_rows := (write_rows FSURL api_key).

(** [resolve(id) if id else None], as the rows loop calls a resolver. *)
Lemma guarded_effect k id w (m : M pyval) :
  m = (if truthy id then resolver k id else ret PNone) ->
  resolver_effect k id w (fst (m w)) (snd (m w)).
Proof.
  intros ->. destruct (truthy id) eqn:Ht.
  - apply resolver_effect_holds.
  - cbn. apply effect_no_call; [reflexivity|reflexivity|intros; congruence].
Qed.

Lemma guarded_server k id w (m : M pyval) :
  m = (if truthy id then resolver k id else ret PNone) ->
  server (snd (m w)) = server w.
Proof.
  intros ->. destruct (truthy id); [apply resolver_server|reflexivity].
Qed.

Lemma guarded_remove_error k id w (m : M pyval) :
  m = (if truthy id then resolver k id else ret PNone) ->
  remove_error (snd (m w)) = remove_error w.
Proof.
  intros ->. destruct (truthy id); [apply resolver_remove_error|reflexivity].
Qed.

Lemma write_asset_row_calls k id path asset w0 w :
  (cached id (cache_of k w0) = false -> resolved_with_200 (server w) k id) ->
  calls_exact k id w0 w ->
  row_result k id w0 w asset (fst (write_asset_row path asset w))
             (snd (write_asset_row path asset w)).
Proof.
  intros H200 Hex.
  assert (Hstay : forall e, row_result k id w0 w asset (Raise e) w).
  { intros e. split; [reflexivity|]. split; [now apply calls_exact_bounded|].
    split; [auto|discriminate]. }
  unfold ContractAssets.write_asset_row.
  destruct asset as [| | | | |d]; try (cbn; apply Hstay).
  do 6 (apply bind_rule; cbn [py_get lift ret]).
  set (dept_id := match dict_lookup "department_id" d with
                  | Some x => x | None => PNone end).
  set (loc_id := match dict_lookup "location_id" d with
                 | Some x => x | None => PNone end).
  set (user_id := match dict_lookup "user_id" d with
                  | Some x => x | None => PNone end).
  apply bind_rule.
  pose proof (guarded_effect Department dept_id w _ eq_refl) as E1.
  pose proof (guarded_server Department dept_id w _ eq_refl) as S1.
  cbn [ContractAssets.resolver] in E1, S1.
  destruct ((if truthy dept_id
             then ContractAssets.get_department_name FSURL api_key dept_id
             else ret PNone) w) as [o1 w1].
  cbn [fst snd] in E1, S1.
  destruct (effect_step k id _ _ w0 _ _ _ H200 Hex E1) as (B1 & M1 & K1).
  destruct o1 as [dept_name| |];
    [|split; [exact S1|split; [exact B1|split; [exact M1|discriminate]]]..].
  destruct (K1 _ eq_refl) as [X1 C1].
  assert (H200_1 : cached id (cache_of k w0) = false ->
                   resolved_with_200 (server w1) k id)
    by (rewrite S1; exact H200).
  apply bind_rule.
  pose proof (guarded_effect Location loc_id w1 _ eq_refl) as E2.
  pose proof (guarded_server Location loc_id w1 _ eq_refl) as S2.
  cbn [ContractAssets.resolver] in E2, S2.
  destruct ((if truthy loc_id
             then ContractAssets.get_location_name FSURL api_key loc_id
             else ret PNone) w1) as [o2 w2].
  cbn [fst snd] in E2, S2.
  destruct (effect_step k id _ _ w0 _ _ _ H200_1 X1 E2) as (B2 & M2 & K2).
  destruct o2 as [loc_name| |];
    [|split; [congruence|split; [exact B2|split; [auto|discriminate]]]..].
  destruct (K2 _ eq_refl) as [X2 C2].
  assert (H200_2 : cached id (cache_of k w0) = false ->
                   resolved_with_200 (server w2) k id)
    by (rewrite S2; exact H200_1).
  apply bind_rule.
  pose proof (guarded_effect Requester user_id w2 _ eq_refl) as E3.
  pose proof (guarded_server Requester user_id w2 _ eq_refl) as S3.
  cbn [ContractAssets.resolver] in E3, S3.
  destruct ((if truthy user_id
             then ContractAssets.get_requester_name FSURL api_key user_id
             else ret PNone) w2) as [o3 w3].
  cbn [fst snd] in E3, S3.
  destruct (effect_step k id _ _ w0 _ _ _ H200_2 X2 E3) as (B3 & M3 & K3).
  destruct o3 as [requester_name| |];
    [|split; [congruence|split; [exact B3|split; [auto|discriminate]]]..].
  destruct (K3 _ eq_refl) as [X3 C3].
  cbn [writerow fst snd].
  assert (X4 : forall f, calls_exact k id w0 (set_fs f w3)).
  { intros f. eapply calls_exact_same; [| |exact X3]; [reflexivity|].
    intros []; reflexivity. }
  split; [cbn; congruence|]. split; [apply calls_exact_bounded, X4|].
  split.
  { intros Hin. apply M1, M2, M3 in Hin. destruct k; exact Hin. }
  intros _. split; [apply X4|].
  intros Hget Htruthy. cbn [py_get] in Hget. injection Hget as Hget.
  destruct k; cbn [field_of] in Hget.
  - apply (M3 (M2 (C1 eq_refl Hget Htruthy))).
  - apply (M3 (C2 eq_refl Hget Htruthy)).
  - apply (C3 eq_refl Hget Htruthy).
Qed.

(** The rows loop: at the end the id has been resolved by one call at
    most, and by exactly one if the loop ran through and a record refers
    to the id. *)
Lemma write_rows_calls k id path assets w0 : forall w,
  (cached id (cache_of k w0) = false -> resolved_with_200 (server w) k id) ->
  calls_exact k id w0 w ->
  calls_bounded k id w0 (snd (write_rows path assets w))
  /\ (cached id (cache_of k w) = true ->
      cached id (cache_of k (snd (write_rows path assets w))) = true)
  /\ (fst (write_rows path assets w) = Ok tt ->
      calls_exact k id w0 (snd (write_rows path assets w))
      /\ (forall asset,
            In asset assets ->
            py_get asset (field_of k) PNone = inr id ->
            truthy id = true ->
            cached id (cache_of k (snd (write_rows path assets w))) = true)).
Proof.
  induction assets as [|asset assets IH]; intros w H200 Hex.
  - cbn. split; [now apply calls_exact_bounded|]. split; [auto|].
    intros _. split; [exact Hex|]. intros ? [].
  - unfold ContractAssets.write_rows. cbn [for_each]. unfold bind.
    destruct (write_asset_row_calls k id path asset w0 w H200 Hex)
      as (S & B & Mo & K).
    destruct (ContractAssets.write_asset_row FSURL api_key path asset w)
      as [o w1].
    cbn [fst snd] in S, B, Mo, K.
    destruct o as [[]| |];
      [|cbn; split; [exact B|split; [exact Mo|discriminate]]..].
    destruct (K eq_refl) as [X C].
    assert (H200_1 : cached id (cache_of k w0) = false ->
                     resolved_with_200 (server w1) k id)
      by (rewrite S; exact H200).
    destruct (IH w1 H200_1 X) as (B' & Mo' & K').
    unfold ContractAssets.write_rows in B', Mo', K'.
    split; [exact B'|]. split; [auto|].
    intros Hok. destruct (K' Hok) as [X' C']. split; [exact X'|].
    intros a [<-|Hin] Hget Htruthy; eauto.
Qed.

Lemma resolver_miss_trace k id w :
  truthy id = true -> hashable id = true ->
  cached id (cache_of k w) = false ->
  trace (snd (resolver k id w))
  = trace w ++ [get_request (endpoint_of k id)].
Proof.
  intros Ht Hh Hmiss. unfold cached in Hmiss.
  destruct k; cbn [ContractAssets.resolver cache_of endpoint_of] in *;
    [unfold ContractAssets.get_department_name, read_dept_cache, write_dept_cache
    |unfold ContractAssets.get_location_name, read_location_cache, write_location_cache
    |unfold ContractAssets.get_requester_name, read_requester_cache,
       write_requester_cache];
    unfold bind, api_get, http, cache_mem, cache_item, json, py_get,
      py_strip, lift, ret, raise, print;
    rewrite Ht, Hh; cbn [negb];
    repeat (cbn [fst snd negb]; run_case); try discriminate; reflexivity.
Qed.

Lemma resolver_fs k id w : fs (snd (resolver k id w)) = fs w.
Proof.
  destruct k; cbn [ContractAssets.resolver];
    [unfold ContractAssets.get_department_name, read_dept_cache, write_dept_cache
    |unfold ContractAssets.get_location_name, read_location_cache, write_location_cache
    |unfold ContractAssets.get_requester_name, read_requester_cache,
       write_requester_cache];
    unfold  bind, api_get, http, cache_mem, cache_item, json, py_get,
      py_strip, lift, ret, raise, print;
    repeat (cbn [fst snd negb]; run_case); reflexivity.
Qed.

Lemma guarded_fs k id w (m : M pyval) :
  m = (if truthy id then resolver k id else ret PNone) ->
  fs (snd (m w)) = fs w.
Proof.
  intros ->. destruct (truthy id); [apply resolver_fs|reflexivity].
Qed.

(** A row leaves the CSV file in place, whether it is written or not. *)
Lemma write_asset_row_keeps_file path asset w :
  is_Some (fs w !! path) ->
  is_Some (fs (snd (write_asset_row path asset w)) !! path).
Proof.
  intros Hfile. unfold ContractAssets.write_asset_row.
  set (P := fun (_ : outcome unit) (w' : world) => is_Some (fs w' !! path)).
  change (P (fst (write_asset_row path asset w))
            (snd (write_asset_row path asset w))).
  unfold ContractAssets.write_asset_row.
  destruct asset as [| | | | |d]; try exact Hfile.
  do 6 (apply bind_rule; cbn [py_get lift ret]).
  apply bind_rule.
  pose proof (guarded_fs Department
                (match dict_lookup "department_id" d with
                 | Some x => x | None => PNone end) w _ eq_refl) as F1.
  cbn [ContractAssets.resolver] in F1.
  destruct ((if truthy _ then ContractAssets.get_department_name _ _ _
             else ret PNone) w) as [o1 w1].
  cbn [snd] in F1. assert (H1 : P (Ok tt) w1) by (unfold P; now rewrite F1).
  destruct o1; try exact H1.
  apply bind_rule.
  pose proof (guarded_fs Location
                (match dict_lookup "location_id" d with
                 | Some x => x | None => PNone end) w1 _ eq_refl) as F2.
  cbn [ContractAssets.resolver] in F2.
  destruct ((if truthy _ then ContractAssets.get_location_name _ _ _
             else ret PNone) w1) as [o2 w2].
  cbn [snd] in F2. assert (H2 : P (Ok tt) w2) by (unfold P; now rewrite F2, F1).
  destruct o2; try exact H2.
  apply bind_rule.
  pose proof (guarded_fs Requester
                (match dict_lookup "user_id" d with
                 | Some x => x | None => PNone end) w2 _ eq_refl) as F3.
  cbn [ContractAssets.resolver] in F3.
  destruct ((if truthy _ then ContractAssets.get_requester_name _ _ _
             else ret PNone) w2) as [o3 w3].
  cbn [snd] in F3.
  assert (H3 : P (Ok tt) w3) by (unfold P; now rewrite F3, F2, F1).
  destruct o3; try exact H3.
  unfold P. cbn [writerow fst snd fs set_fs].
  rewrite lookup_insert_eq. eauto.
Qed.

(** After [write_csv] the CSV file is on disk, even if a row raised. *)
Lemma write_csv_leaves_file path assets w :
  is_Some (fs (snd (ContractAssets.write_csv FSURL api_key path assets w))
             !! path).
Proof.
  unfold ContractAssets.write_csv, bind, open_w, writerow.
  cbn [fst snd fs set_fs].
  match goal with
  | |- is_Some (fs (snd (for_each _ _ ?w0)) !! _) =>
      assert (H0 : is_Some (fs w0 !! path))
        by (cbn [fs set_fs]; rewrite lookup_insert_eq; eauto);
      generalize dependent w0
  end.
  induction assets as [|asset assets IH]; intros w0 H0; [exact H0|].
  cbn [for_each]. unfold bind.
  pose proof (write_asset_row_keeps_file path asset w0 H0) as H1.
  destruct (ContractAssets.write_asset_row FSURL api_key path asset w0)
    as [[[]| |] w1]; cbn [snd] in H1 |- *; auto.
Qed.

(** C6, as the code has it. An id that was in its cache when the rows
    loop started is never requested.  An id that was not, and whose own
    lookups are answered with status 200 (whatever the answers to the
    lookups of other ids), is requested once at most, and exactly once when
    the loop runs through and some record (however many) refers to it.  (A
    lookup that fails stores nothing, so it is repeated for every record
    that refers to the id.) *)
Theorem each_id_resolved_once
        (path : string) (assets : list pyval) (w : world) (k : kind) (id : pyval) :
  let final := write_rows path assets w in
  let before := calls_for k id (trace w) in
  let after := calls_for k id (trace (snd final)) in
  (cached id (cache_of k w) = true -> after = before)
  /\ (cached id (cache_of k w) = false ->
      resolved_with_200 (server w) k id ->
      (before <= after <= before + 1)%nat
      /\ (fst final = Ok tt ->
          truthy id = true ->
          (exists asset, In asset assets
                         /\ py_get asset (field_of k) PNone = inr id) ->
          after = (before + 1)%nat)).
Proof.
  intros final before after. subst final before after. split.
  - intros Hin.
    destruct (write_rows_calls k id path assets w w) as (B & _ & _).
    + intros Hmiss. congruence.
    + apply calls_exact_refl.
    + unfold calls_bounded in B. rewrite Hin in B. lia.
  - intros Hmiss H200.
    destruct (write_rows_calls k id path assets w w (fun _ => H200)
                (calls_exact_refl k id w)) as (B & _ & K).
    unfold calls_bounded in B. rewrite Hmiss in B. split; [lia|].
    intros Hok Htruthy (asset & Hin & Hget).
    destruct (K Hok) as [[E _] C].
    rewrite E, Hmiss, (C asset Hin Hget Htruthy). reflexivity.
Qed.

(** C7. A by-id lookup answered with a status other than 200 prints the
    error and returns [None] without raising; it leaves the caches as they
    were, so that resolving the same id again sends the request again. *)
Theorem failed_lookup_is_not_cached (k : kind) (id : pyval) (w : world)
        (r : response) :
  truthy id = true -> hashable id = true ->
  cached id (cache_of k w) = false ->
  server w (length (trace w)) (get_request (endpoint_of k id)) = Reply r ->
  status_code r <> 200 ->
  let rq := get_request (endpoint_of k id) in
  let w1 := set_stdout (stdout w ++ [resolver_error_line k id r])
              (set_trace (trace w ++ [rq]) w) in
  resolver k id w = (Ok PNone, w1)
  /\ (forall k', cache_of k' w1 = cache_of k' w)
  /\ trace (snd (resolver k id w1)) = trace w ++ [rq; rq].
Proof.
  intros Ht Hh Hmiss Hr Hst rq w1. subst rq w1. split; [|split].
  - apply Z.eqb_neq in Hst. unfold cached in Hmiss.
    destruct (cache_get id (cache_of k w)) eqn:Hc; [discriminate|].
    destruct k; cbn [ContractAssets.resolver cache_of endpoint_of] in *;
      [unfold ContractAssets.get_department_name, read_dept_cache
      |unfold ContractAssets.get_location_name, read_location_cache
      |unfold ContractAssets.get_requester_name, read_requester_cache];
      rewrite Ht; cbn [negb];
      unfold bind, cache_mem; rewrite Hh, Hc; cbn [lift ret];
      unfold api_get, http; rewrite Hr, Hst; reflexivity.
  - intros []; reflexivity.
  - rewrite resolver_miss_trace by assumption.
    cbn [trace set_trace set_stdout]. rewrite <- app_assoc. reflexivity.
Qed.

End ResolverProperties.

(** ** contract_assets.py: the attachment *)

Section AttachmentProperties.
Import ContractAssets.

Variable FSURL : string.
Variable api_key : string.

#[local] Abbreviation update_ticket_with_attachment :=
  (update_ticket_with_attachment FSURL api_key).
#[local] Abbreviation attachment_request := (attachment_request FSURL api_key).

Lemma is_success_spec status :
  is_success status = true <-> status = 200 \/ status = 201.
Proof.
  unfold is_success. rewrite orb_true_iff, !Z.eqb_eq. reflexivity.
Qed.

(** The run of [update_ticket_with_attachment] on a file that exists. *)
Lemma update_ticket_with_attachment_run ticket_id file_path content w :
  fs w !! file_path = Some content ->
  let put := attachment_request ticket_id file_path content in
  let result := update_ticket_with_attachment ticket_id file_path w in
  fst result = Ok tt
  /\ trace (snd result) = trace w ++ [put]
  /\ fs (snd result)
     = match server w (length (trace w)) put with
       | Reply r => if is_success (status_code r)
                    then match remove_error w file_path with
                         | Some _ => fs w
                         | None => delete file_path (fs w)
                         end
                    else fs w
       | Fails _ => fs w
       end.
Proof.
  intros Hfile put result. subst put result.
  unfold ContractAssets.update_ticket_with_attachment, bind, try_except,
    read_file, http, os_remove, print, ret, any_exception.
  rewrite Hfile. cbn [fst snd].
  fold (ContractAssets.attachment_request FSURL api_key ticket_id file_path content).
  destruct (server w (length (trace w)) _) as [r|e]; cbn [fst snd].
  - destruct (is_success (status_code r));
      cbn [fst snd fs set_trace set_stdout remove_error].
    + rewrite Hfile. destruct (remove_error w file_path); cbn; auto.
    + cbn. auto.
  - cbn. auto.
Qed.


End AttachmentProperties.

(** ** freshservice_hrms_termination.py: people lookups *)

Section PeopleProperties.
Import Termination.

Variables fs_api_key fs_password fs_domain : string.

#[local] Abbreviation headers := (get_headers fs_api_key fs_password).
#[local] Abbreviation requester_lookup := (requester_lookup fs_domain headers).
#[local] Abbreviation agent_lookup := (agent_lookup fs_domain headers).
#[local] Abbreviation fetch_manager_email :=
  (fetch_manager_email fs_api_key fs_password fs_domain).
#[local] Abbreviation search_request := (search_request fs_domain headers).
#[local] Abbreviation fetch_requester_info :=
  (fetch_requester_info fs_api_key fs_password fs_domain).

(** The requests of [fetch_manager_email]: the requester lookup, then the
    agent lookup if and only if the first answer has status 404. *)
Lemma fetch_manager_email_trace manager_id w :
  trace (snd (fetch_manager_email manager_id w))
  = trace w ++ requester_lookup manager_id
      :: match server w (length (trace w)) (requester_lookup manager_id) with
         | Reply r => if status_code r =? 404 then [agent_lookup manager_id] else []
         | Fails _ => []
         end.
Proof.
  unfold Termination.fetch_manager_email, bind, http, json, py_item,
    raise_for_status, lift, ret, raise, print.
  destruct (server w (length (trace w)) _) as [r|e]; [|reflexivity].
  cbn [fst snd].
  destruct (status_code r =? 200) eqn:H200.
  - apply Z.eqb_eq in H200. rewrite H200. cbn [Z.eqb Pos.eqb].
    repeat (cbn [fst snd]; run_case); reflexivity.
  - destruct (status_code r =? 404) eqn:H404.
    + cbn [trace set_trace server].
      repeat (cbn [fst snd trace set_trace set_stdout]; run_case);
        cbn [fst snd trace set_trace set_stdout];
        rewrite <- app_assoc; reflexivity.
    + repeat (cbn [fst snd]; run_case); reflexivity.
Qed.

(** C8. [fetch_manager_email] asks the requester endpoint first; the agent
    endpoint is asked if and only if that first answer has status 404; and
    when the agent lookup then answers 200 the result is the [email] field
    of the agent record. *)
Theorem manager_email_requester_then_agent (manager_id : pyval) (w : world) :
  let first := requester_lookup manager_id in
  let second := agent_lookup manager_id in
  let result := fetch_manager_email manager_id w in
  (exists rest, trace (snd result) = trace w ++ first :: rest
                /\ (rest = [] \/ rest = [second])
                /\ (rest = [second]
                    <-> exists r, server w (length (trace w)) first = Reply r
                                  /\ status_code r = 404))
  /\ (forall r1 r2 j agent email,
        server w (length (trace w)) first = Reply r1 ->
        status_code r1 = 404 ->
        server w (S (length (trace w))) second = Reply r2 ->
        status_code r2 = 200 ->
        json_body r2 = Some j ->
        py_item j "agent" = inr agent ->
        py_item agent "email" = inr email ->
        fst result = Ok email).
Proof.
  intros first second result. split.
  - eexists. split; [apply fetch_manager_email_trace|].
    fold first second.
    destruct (server w (length (trace w)) first) as [r|e].
    + destruct (status_code r =? 404) eqn:H404.
      * split; [now right|]. split; [|reflexivity].
        intros _. exists r. split; [reflexivity|now apply Z.eqb_eq].
      * split; [now left|]. split; [discriminate|].
        intros (r' & Hr' & Hst). injection Hr' as <-.
        apply Z.eqb_neq in H404. contradiction.
    + split; [now left|]. split; [discriminate|].
      intros (r' & Hr' & _). discriminate.
  - intros r1 r2 j agent email Hr1 H404 Hr2 H200 Hj Hagent Hemail.
    subst result first second.
    unfold Termination.fetch_manager_email, bind, http.
    rewrite Hr1, H404. cbn [Z.eqb Pos.eqb fst snd trace set_trace server].
    rewrite length_app. cbn [length].
    replace (length (trace w) + 1)%nat with (S (length (trace w))) by lia.
    rewrite Hr2, H200. cbn [Z.eqb Pos.eqb].
    unfold json. rewrite Hj. cbn [ret]. rewrite Hagent. cbn [lift ret].
    rewrite Hemail. reflexivity.
Qed.

(** C9. When the search among requesters succeeds and lists at least one
    requester, [fetch_requester_info] returns the id and the
    [reporting_manager_id] of the first one with the user type
    ['requester'], and the search request is the only one it sends: the
    agents are not searched. *)
Theorem requester_found_skips_agents
        (email : string) (w : world) (r : response)
        (d person : list (string * pyval)) (others : list pyval) (rid : pyval) :
  let search := search_request (lower email) "requesters" "primary_email" in
  server w (length (trace w)) search = Reply r ->
  (status_code r < 400 \/ 600 <= status_code r) ->
  json_body r = Some (PDict d) ->
  dict_lookup "requesters" d = Some (PList (PDict person :: others)) ->
  dict_lookup "id" person = Some rid ->
  let manager_id := match dict_lookup "reporting_manager_id" person with
                    | Some m => m
                    | None => PNone
                    end in
  let w' := set_trace (trace w ++ [search])
              (set_stdout (stdout w ++ [url_line search]) w) in
  fetch_requester_info (PStr email) w = (Ok (rid, manager_id, "requester"), w').
Proof.
  intros search Hr Hst Hj Hd Hid manager_id w'. subst w' manager_id.
  unfold Termination.fetch_requester_info, search_namespace, search_api,
    try_except, bind, print, http.
  fold search. cbn [fst snd server trace set_stdout].
  rewrite Hr. unfold raise_for_status.
  replace ((400 <=? status_code r) && (status_code r <? 600)) with false
    by (symmetry; apply andb_false_iff; rewrite Z.leb_gt, Z.ltb_ge; lia).
  cbn [ret]. unfold json. rewrite Hj. cbn [ret py_get lift].
  rewrite Hd. cbn [truthy py_item lift ret]. rewrite Hd.
  cbn [py_first lift ret py_item]. rewrite Hid. cbn [lift ret py_get].
  reflexivity.
Qed.

End PeopleProperties.

(** ** freshservice_hrms_termination.py: the main run *)

Section MainProperties.
Import Termination.

Variables fs_api_key fs_password fs_domain : string.
Variables apiKey username password company : string.
Variables onePoint_login_domain onePoint_term_report : string.
Variable py_repr : pyval -> string.

#[local] Abbreviation main :=
  (main fs_api_key fs_password fs_domain apiKey username password company
        onePoint_login_domain onePoint_term_report py_repr).
#[local] Abbreviation call0 :=
  (call0 apiKey username password company onePoint_login_domain).
#[local] Abbreviation ticket_request :=
  (ticket_request fs_api_key fs_password fs_domain).

Lemma digit_is_not_space c : is_digit c = true -> is_space c = false.
Proof.
  unfold is_digit, is_space, between.
  rewrite andb_true_iff, !N.leb_le. intros [H1 H2].
  rewrite !orb_false_iff, !andb_false_iff, !N.leb_gt, !N.eqb_neq. lia.
Qed.

Lemma append_cons c (s t : string) :
  (String c s ++ t)%string = String c (s ++ t)%string.
Proof. reflexivity. Qed.

Lemma append_nil (t : string) : (EmptyString ++ t)%string = t.
Proof. reflexivity. Qed.

Lemma skip_spaces_app spaces rest :
  string_forall is_space spaces = true ->
  skip_spaces (spaces ++ rest) = skip_spaces rest.
Proof.
  induction spaces as [|c spaces IH]; [reflexivity|].
  rewrite append_cons. cbn [skip_spaces string_forall]. intros H.
  apply andb_true_iff in H as [Hc Hs]. rewrite Hc. auto.
Qed.

Lemma match_here_found spaces number after :
  string_forall is_space spaces = true ->
  string_forall is_digit number = true ->
  number <> EmptyString ->
  exists g, match_here ("Employee ID:" ++ spaces ++ number ++ after) = Some g.
Proof.
  intros Hs Hd Hne. unfold match_here.
  change (skip_prefix "Employee ID:" ("Employee ID:" ++ spaces ++ number ++ after))
    with (Some (spaces ++ number ++ after)%string).
  cbv beta iota. rewrite (skip_spaces_app _ _ Hs).
  destruct number as [|c number]; [congruence|].
  cbn [string_forall] in Hd. apply andb_true_iff in Hd as [Hc _].
  rewrite append_cons. cbn [skip_spaces]. rewrite (digit_is_not_space _ Hc).
  cbn [take_digits]. rewrite Hc. eauto.
Qed.

(** A description that holds an employee id lets [re.search] succeed. *)
Lemma re_search_found description :
  contains_employee_id description ->
  exists g, re_search description = Some g.
Proof.
  intros (before & spaces & number & after & -> & Hs & Hd & Hne).
  induction before as [|c before IH].
  - rewrite append_nil.
    destruct (match_here_found spaces number after Hs Hd Hne) as [g Hg].
    exists g.
    change ("Employee ID:" ++ spaces ++ number ++ after)%string
      with (String "E" ("mployee ID:" ++ spaces ++ number ++ after))%string
      in Hg |- *.
    cbn [re_search]. rewrite Hg. reflexivity.
  - rewrite append_cons. cbn [re_search].
    destruct (match_here _); eauto.
Qed.

(** The call [login_HRMS()]: no such name is bound. *)
Lemma login_HRMS_is_unbound :
  call0 "login_HRMS" = raise (NameError "login_HRMS").
Proof. reflexivity. Qed.

(** C1. For a ticket whose description holds an employee id, [main] stops
    at the HRMS login: the call [login_HRMS()] raises [NameError] (the
    function is named [login_hrms]), the outer handler prints it, and
    [main] returns having sent nothing but the ticket request: no HRMS
    call, no person lookup, no service request. *)
Theorem main_stops_at_hrms_login
        (ticket_id : Z) (w : world) (r : response)
        (j ticket : pyval) (description : string) :
  server w (length (trace w)) (ticket_request ticket_id) = Reply r ->
  (status_code r < 400 \/ 600 <= status_code r) ->
  json_body r = Some j ->
  py_item j "ticket" = inr ticket ->
  py_item ticket "description_text" = inr (PStr description) ->
  contains_employee_id description ->
  exists employee_id,
    re_search description = Some employee_id
    /\ main ticket_id w
       = (Ok tt,
          set_stdout
            (stdout w ++ [[Lit "Employee ID: "; Val (PStr employee_id)];
                          [Lit "An error occurred: ";
                           Exc (NameError "login_HRMS")]])
            (set_trace (trace w ++ [ticket_request ticket_id]) w)).
Proof.
  intros Hr Hst Hj Hticket Hdesc Hcontains.
  destruct (re_search_found _ Hcontains) as [employee_id Hid].
  exists employee_id. split; [exact Hid|].
  unfold Termination.main, fetch_ticket_data.
  fold (Termination.ticket_request fs_api_key fs_password fs_domain ticket_id).
  unfold bind at 1. unfold bind at 1.
  rewrite (http_reply _ _ _ Hr). unfold raise_for_status.
  replace ((400 <=? status_code r) && (status_code r <? 600)) with false
    by (symmetry; apply andb_false_iff; rewrite Z.leb_gt, Z.ltb_ge; lia).
  unfold bind at 1. cbn [ret]. unfold json. rewrite Hj. cbn [ret].
  rewrite Hticket. unfold bind at 1. cbn [lift ret].
  rewrite Hdesc. unfold bind at 1. cbn [lift ret].
  unfold bind at 1, try_except at 1, bind at 1. cbn [extract_employee_id].
  rewrite Hid. cbn [ret print fst snd].
  unfold try_except, bind at 1.
  change (Termination.call0 apiKey username password company
            onePoint_login_domain "login_HRMS")
    with (@raise pyval (NameError "login_HRMS")).
  cbv beta iota delta [bind ret raise print any_exception].
  cbn [stdout set_stdout set_trace trace server fs dept_cache location_cache
       requester_cache].
  rewrite <- app_assoc. reflexivity.
Qed.

End MainProperties.

(** ** freshservice_hrms_termination.py: date conversion *)

Section DateProperties.
Import Termination.

(** *** Characters *)

Lemma code_digit_char k : 0 <= k <= 9 -> Z.of_N (code (digit_char k)) = 48 + k.
Proof.
  intros H. unfold code, digit_char.
  rewrite N_ascii_embedding by lia. lia.
Qed.

Lemma is_digit_digit_char k : 0 <= k <= 9 -> is_digit (digit_char k) = true.
Proof.
  intros H. pose proof (code_digit_char k H) as E.
  unfold is_digit, between. apply andb_true_iff. rewrite !N.leb_le. lia.
Qed.

Lemma between_digit lo hi c :
  between lo hi c = true -> (48 <= lo)%N -> (hi <= 57)%N ->
  exists k, c = digit_char k /\ Z.of_N lo - 48 <= k <= Z.of_N hi - 48.
Proof.
  unfold between. rewrite andb_true_iff, !N.leb_le. intros [H1 H2] Hlo Hhi.
  exists (Z.of_N (code c) - 48). split; [|lia].
  unfold digit_char.
  replace (Z.to_N (48 + (Z.of_N (code c) - 48))) with (code c) by lia.
  unfold code. now rewrite ascii_N_embedding.
Qed.

Lemma code_eqb_char c n : (code c =? n)%N = true -> c = ascii_of_N n.
Proof.
  intros H. apply N.eqb_eq in H. rewrite <- H. unfold code.
  now rewrite ascii_N_embedding.
Qed.

Lemma digit_not_space k : 0 <= k <= 9 -> is_space (digit_char k) = false.
Proof.
  intros H. pose proof (code_digit_char k H) as E.
  unfold is_space, between.
  rewrite !orb_false_iff, !andb_false_iff, !N.leb_gt, !N.eqb_neq. lia.
Qed.

(** *** Reading numbers *)

Lemma py_int_one k : 0 <= k <= 9 -> py_int (str1 (digit_char k)) = k.
Proof.
  intros H. unfold py_int, strip, str1. cbn [rstrip lstrip].
  rewrite (digit_not_space k H). cbn [lstrip].
  rewrite (digit_not_space k H). cbn [digits_value].
  rewrite (code_digit_char k H). lia.
Qed.

Lemma py_int_space_one k :
  0 <= k <= 9 -> py_int (str2 " " (digit_char k)) = k.
Proof.
  intros H. unfold py_int, strip, str2. cbn [rstrip lstrip].
  rewrite (digit_not_space k H). cbn [lstrip].
  change (is_space " ") with true. cbn [lstrip].
  rewrite (digit_not_space k H). cbn [digits_value].
  rewrite (code_digit_char k H). lia.
Qed.

Lemma py_int_two a b :
  0 <= a <= 9 -> 0 <= b <= 9 ->
  py_int (str2 (digit_char a) (digit_char b)) = 10 * a + b.
Proof.
  intros Ha Hb. unfold py_int, strip, str2. cbn [rstrip lstrip].
  rewrite (digit_not_space b Hb). cbn [lstrip].
  rewrite (digit_not_space a Ha). cbn [digits_value].
  rewrite (code_digit_char a Ha), (code_digit_char b Hb). lia.
Qed.

Lemma py_int_four a b c d :
  0 <= a <= 9 -> 0 <= b <= 9 -> 0 <= c <= 9 -> 0 <= d <= 9 ->
  py_int (String (digit_char a) (String (digit_char b)
            (str2 (digit_char c) (digit_char d))))
  = 1000 * a + 100 * b + 10 * c + d.
Proof.
  intros Ha Hb Hc Hd. unfold py_int, strip, str2. cbn [rstrip lstrip].
  rewrite (digit_not_space d Hd). cbn [lstrip].
  rewrite (digit_not_space a Ha). cbn [digits_value].
  rewrite (code_digit_char a Ha), (code_digit_char b Hb),
    (code_digit_char c Hc), (code_digit_char d Hd). lia.
Qed.

Lemma two_digits_of a b :
  0 <= b <= 9 -> two_digits (10 * a + b) = str2 (digit_char a) (digit_char b).
Proof.
  intros Hb. unfold two_digits.
  replace ((10 * a + b) / 10) with a by (Z.div_mod_to_equations; lia).
  replace ((10 * a + b) mod 10) with b by (Z.div_mod_to_equations; lia).
  reflexivity.
Qed.

Lemma four_digits_of a b c d :
  0 <= a -> 0 <= b <= 9 -> 0 <= c <= 9 -> 0 <= d <= 9 ->
  four_digits (1000 * a + 100 * b + 10 * c + d)
  = String (digit_char a) (String (digit_char b)
      (str2 (digit_char c) (digit_char d))).
Proof.
  intros Ha Hb Hc Hd. unfold four_digits.
  set (n := 1000 * a + 100 * b + 10 * c + d).
  replace (n / 1000) with a by (subst n; Z.div_mod_to_equations; lia).
  replace (n / 100 mod 10) with b by (subst n; Z.div_mod_to_equations; lia).
  replace (n mod 100) with (10 * c + d)
    by (subst n; Z.div_mod_to_equations; lia).
  rewrite (two_digits_of c d Hd). reflexivity.
Qed.

Lemma py_int_two_digits n : 0 <= n <= 99 -> py_int (two_digits n) = n.
Proof.
  intros H. unfold two_digits. rewrite py_int_two.
  - Z.div_mod_to_equations; lia.
  - Z.div_mod_to_equations; lia.
  - Z.div_mod_to_equations; lia.
Qed.

Lemma py_int_four_digits y : 0 <= y <= 9999 -> py_int (four_digits y) = y.
Proof.
  intros H. unfold four_digits, two_digits. rewrite py_int_four.
  - Z.div_mod_to_equations; lia.
  - Z.div_mod_to_equations; lia.
  - Z.div_mod_to_equations; lia.
  - Z.div_mod_to_equations; lia.
  - Z.div_mod_to_equations; lia.
Qed.

(** *** The format accepts the texts of a date *)

Lemma first_match_head {A B} (a : A) (alts : list A) (k : A -> option B) b :
  k a = Some b -> first_match (a :: alts) k = Some b.
Proof. intros H. cbn. now rewrite H. Qed.

Lemma skip_slash_app rest : skip_slash ("/" ++ rest) = Some rest.
Proof. reflexivity. Qed.

Lemma alt_m_two m rest :
  1 <= m <= 12 ->
  exists tl, alt_m (two_digits m ++ rest) = (two_digits m, rest) :: tl.
Proof.
  intros H. assert (Hm : exists k : nat, m = Z.of_nat k /\ (k <= 12)%nat)
    by (exists (Z.to_nat m); lia).
  destruct Hm as (k & -> & Hk).
  do 13 (destruct k as [|k]; [try lia; eexists; reflexivity|]). lia.
Qed.

Lemma alt_m_one m rest :
  1 <= m <= 9 ->
  alt_m (str1 (digit_char m) ++ "/" ++ rest)
  = [(str1 (digit_char m), ("/" ++ rest)%string)].
Proof.
  intros H. assert (Hm : exists k : nat, m = Z.of_nat k /\ (k <= 9)%nat)
    by (exists (Z.to_nat m); lia).
  destruct Hm as (k & -> & Hk).
  do 10 (destruct k as [|k]; [try lia; reflexivity|]). lia.
Qed.

Lemma alt_d_two d rest :
  1 <= d <= 31 ->
  exists tl, alt_d (two_digits d ++ rest) = (two_digits d, rest) :: tl.
Proof.
  intros H. assert (Hd : exists k : nat, d = Z.of_nat k /\ (k <= 31)%nat)
    by (exists (Z.to_nat d); lia).
  destruct Hd as (k & -> & Hk).
  do 32 (destruct k as [|k]; [try lia; eexists; reflexivity|]). lia.
Qed.

Lemma alt_d_one d rest :
  1 <= d <= 9 ->
  alt_d (str1 (digit_char d) ++ "/" ++ rest)
  = [(str1 (digit_char d), ("/" ++ rest)%string)].
Proof.
  intros H. assert (Hd : exists k : nat, d = Z.of_nat k /\ (k <= 9)%nat)
    by (exists (Z.to_nat d); lia).
  destruct Hd as (k & -> & Hk).
  do 10 (destruct k as [|k]; [try lia; reflexivity|]). lia.
Qed.

Lemma alt_d_space d rest :
  1 <= d <= 9 ->
  alt_d (str2 " " (digit_char d) ++ rest)
  = [(str2 " " (digit_char d), rest)].
Proof.
  intros H. assert (Hd : exists k : nat, d = Z.of_nat k /\ (k <= 9)%nat)
    by (exists (Z.to_nat d); lia).
  destruct Hd as (k & -> & Hk).
  do 10 (destruct k as [|k]; [try lia; reflexivity|]). lia.
Qed.

Lemma take_Y_four y :
  0 <= y <= 9999 -> take_Y (four_digits y) = Some (four_digits y, EmptyString).
Proof.
  intros H. unfold four_digits, two_digits, str2, take_Y.
  rewrite !is_digit_digit_char by (Z.div_mod_to_equations; lia).
  reflexivity.
Qed.

Lemma days_in_month_bound y m : 28 <= days_in_month y m <= 31.
Proof.
  unfold days_in_month.
  destruct (m =? 2); [destruct (is_leap y); lia|].
  destruct ((m =? 4) || (m =? 6) || (m =? 9) || (m =? 11)); lia.
Qed.

Lemma match_format_accepts mt dt y m d :
  month_text mt m -> day_text dt d -> valid_date y m d ->
  match_format (mt ++ "/" ++ dt ++ "/" ++ four_digits y)
  = Some (mt, dt, four_digits y, EmptyString).
Proof.
  intros Hm Hd (Hy & Hmr & Hdr).
  pose proof (days_in_month_bound y m) as Hdim.
  assert (Hy' : 0 <= y <= 9999) by lia.
  assert (Hday : forall tl,
    first_match ((dt, ("/" ++ four_digits y)%string) :: tl)
      (fun '(d0, r3) =>
         match skip_slash r3 with
         | Some r4 =>
             match take_Y r4 with
             | Some (y0, r5) => Some (mt, d0, y0, r5)
             | None => None
             end
         | None => None
         end)
    = Some (mt, dt, four_digits y, EmptyString)).
  { intros tl. apply first_match_head.
    rewrite skip_slash_app, (take_Y_four y Hy'). reflexivity. }
  assert (Hdays :
    first_match (alt_d (dt ++ "/" ++ four_digits y))
      (fun '(d0, r3) =>
         match skip_slash r3 with
         | Some r4 =>
             match take_Y r4 with
             | Some (y0, r5) => Some (mt, d0, y0, r5)
             | None => None
             end
         | None => None
         end)
    = Some (mt, dt, four_digits y, EmptyString)).
  { destruct Hd as [->|[Hd9 [->| ->]]].
    - destruct (alt_d_two d ("/" ++ four_digits y)) as [tl ->]; [lia|].
      apply Hday.
    - rewrite alt_d_one by lia. apply Hday.
    - rewrite alt_d_space by lia. apply Hday. }
  unfold match_format.
  destruct Hm as [->|[Hm9 ->]].
  - destruct (alt_m_two m ("/" ++ dt ++ "/" ++ four_digits y)) as [tl ->];
      [lia|].
    apply first_match_head. rewrite skip_slash_app. exact Hdays.
  - rewrite alt_m_one by lia.
    apply first_match_head. rewrite skip_slash_app. exact Hdays.
Qed.

Lemma month_text_value mt m : 1 <= m <= 12 -> month_text mt m -> py_int mt = m.
Proof.
  intros H [->|[H9 ->]]; [apply py_int_two_digits|apply py_int_one]; lia.
Qed.

Lemma day_text_value dt d : 1 <= d <= 31 -> day_text dt d -> py_int dt = d.
Proof.
  intros H [->|[H9 [->| ->]]];
    [apply py_int_two_digits|apply py_int_one|apply py_int_space_one]; lia.
Qed.

(** Every text of a valid date is parsed to that date. *)
Lemma strptime_accepts s y m d :
  date_text s y m d -> valid_date y m d -> strptime s = inr (y, m, d).
Proof.
  intros (mt & dt & -> & Hm & Hd) Hv. unfold strptime.
  rewrite (match_format_accepts mt dt y m d Hm Hd Hv).
  destruct Hv as (Hy & Hmr & Hdr).
  pose proof (days_in_month_bound y m) as Hdim.
  rewrite (py_int_four_digits y) by lia.
  rewrite (month_text_value mt m Hmr Hm).
  rewrite (day_text_value dt d) by (try lia; assumption).
  replace (y <? 1) with false by (symmetry; apply Z.ltb_ge; lia).
  replace ((1 <=? d) && (d <=? days_in_month y m)) with true
    by (symmetry; apply andb_true_iff; rewrite !Z.leb_le; lia).
  reflexivity.
Qed.

(** *** What the format accepts is the text of a date *)

Lemma append_empty_r (s : string) : (s ++ EmptyString)%string = s.
Proof.
  induction s as [|c s IH]; [reflexivity|].
  rewrite append_cons. now rewrite IH.
Qed.

Lemma first_match_some {A B} (alts : list A) (k : A -> option B) b :
  first_match alts k = Some b -> exists a, In a alts /\ k a = Some b.
Proof.
  induction alts as [|a alts IH]; cbn; [discriminate|].
  destruct (k a) eqn:Hk.
  - intros [= <-]. eauto.
  - intros H. destruct (IH H) as (a' & Hin & Ha'). eauto.
Qed.

Lemma in_if_singleton {A} (c : bool) (x y : A) :
  In y (if c then [x] else []) -> c = true /\ y = x.
Proof. destruct c; cbn; intros H; [|contradiction]. destruct H; [auto|contradiction]. Qed.

Lemma skip_slash_some s r : skip_slash s = Some r -> s = ("/" ++ r)%string.
Proof.
  destruct s as [|c s]; cbn; [discriminate|].
  destruct (code c =? 47)%N eqn:Hc; [|discriminate].
  intros [= <-]. now rewrite (code_eqb_char c 47 Hc).
Qed.

Lemma alt_m_in s mt r :
  In (mt, r) (alt_m s) ->
  s = (mt ++ r)%string /\ exists m, 1 <= m <= 12 /\ month_text mt m.
Proof.
  destruct s as [|a r1]; [contradiction|]. unfold alt_m.
  intros H. apply in_app_or in H as [H|H].
  - destruct r1 as [|b r2]; [contradiction|].
    apply in_app_or in H as [H|H];
      apply in_if_singleton in H as [Hc [= -> ->]];
      apply andb_true_iff in Hc as [Ha Hb]; apply code_eqb_char in Ha; subst a.
    + destruct (between_digit _ _ _ Hb) as (kb & -> & Hkb); [lia..|].
      split; [reflexivity|]. exists (10 * 1 + kb). split; [lia|].
      left. now rewrite two_digits_of by lia.
    + destruct (between_digit _ _ _ Hb) as (kb & -> & Hkb); [lia..|].
      split; [reflexivity|]. exists (10 * 0 + kb). split; [lia|].
      left. now rewrite two_digits_of by lia.
  - apply in_if_singleton in H as [Ha [= -> ->]].
    destruct (between_digit _ _ _ Ha) as (ka & -> & Hka); [lia..|].
    split; [reflexivity|]. exists ka. split; [lia|].
    right. split; [lia|reflexivity].
Qed.

Lemma alt_d_in s dt r :
  In (dt, r) (alt_d s) ->
  s = (dt ++ r)%string /\ exists d, 1 <= d <= 31 /\ day_text dt d.
Proof.
  destruct s as [|a r1]; [contradiction|]. unfold alt_d.
  intros H. apply in_app_or in H as [H|H].
  - destruct r1 as [|b r2]; [contradiction|].
    apply in_app_or in H as [H|H]; [|apply in_app_or in H as [H|H]];
      apply in_if_singleton in H as [Hc [= -> ->]];
      apply andb_true_iff in Hc as [Ha Hb].
    + apply code_eqb_char in Ha; subst a.
      destruct (between_digit _ _ _ Hb) as (kb & -> & Hkb); [lia..|].
      split; [reflexivity|]. exists (10 * 3 + kb). split; [lia|].
      left. now rewrite two_digits_of by lia.
    + destruct (between_digit _ _ _ Ha) as (ka & -> & Hka); [lia..|].
      destruct (between_digit _ _ _ Hb) as (kb & -> & Hkb); [lia..|].
      split; [reflexivity|]. exists (10 * ka + kb). split; [lia|].
      left. now rewrite two_digits_of by lia.
    + apply code_eqb_char in Ha; subst a.
      destruct (between_digit _ _ _ Hb) as (kb & -> & Hkb); [lia..|].
      split; [reflexivity|]. exists (10 * 0 + kb). split; [lia|].
      left. now rewrite two_digits_of by lia.
  - apply in_app_or in H as [H|H].
    + apply in_if_singleton in H as [Ha [= -> ->]].
      destruct (between_digit _ _ _ Ha) as (ka & -> & Hka); [lia..|].
      split; [reflexivity|]. exists ka. split; [lia|].
      right. split; [lia|]. now left.
    + destruct r1 as [|b r2]; [contradiction|].
      apply in_if_singleton in H as [Hc [= -> ->]].
      apply andb_true_iff in Hc as [Ha Hb].
      apply code_eqb_char in Ha; subst a.
      destruct (between_digit _ _ _ Hb) as (kb & -> & Hkb); [lia..|].
      split; [reflexivity|]. exists kb. split; [lia|].
      right. split; [lia|]. now right.
Qed.

Lemma take_Y_some s yt r :
  take_Y s = Some (yt, r) ->
  s = (yt ++ r)%string /\ exists y, 0 <= y <= 9999 /\ yt = four_digits y.
Proof.
  destruct s as [|a [|b [|c [|d r']]]]; cbn [take_Y]; try discriminate.
  destruct (is_digit a && is_digit b && is_digit c && is_digit d) eqn:H;
    [|discriminate].
  intros [= <- <-]. split; [reflexivity|].
  apply andb_true_iff in H as [H Hd]. apply andb_true_iff in H as [H Hc].
  apply andb_true_iff in H as [Ha Hb].
  destruct (between_digit _ _ _ Ha) as (ka & -> & Hka); [lia..|].
  destruct (between_digit _ _ _ Hb) as (kb & -> & Hkb); [lia..|].
  destruct (between_digit _ _ _ Hc) as (kc & -> & Hkc); [lia..|].
  destruct (between_digit _ _ _ Hd) as (kd & -> & Hkd); [lia..|].
  exists (1000 * ka + 100 * kb + 10 * kc + kd). split; [lia|].
  now rewrite four_digits_of by lia.
Qed.

Lemma match_format_sound s mt dt yt rest :
  match_format s = Some (mt, dt, yt, rest) ->
  s = (mt ++ "/" ++ dt ++ "/" ++ yt ++ rest)%string
  /\ (exists m, 1 <= m <= 12 /\ month_text mt m)
  /\ (exists d, 1 <= d <= 31 /\ day_text dt d)
  /\ (exists y, 0 <= y <= 9999 /\ yt = four_digits y).
Proof.
  unfold match_format. intros H.
  apply first_match_some in H as ([mt' r1] & Hin1 & H).
  destruct (alt_m_in _ _ _ Hin1) as (-> & Hm).
  destruct (skip_slash r1) as [r2|] eqn:Hs1; [|discriminate].
  apply skip_slash_some in Hs1 as ->.
  apply first_match_some in H as ([dt' r3] & Hin2 & H).
  destruct (alt_d_in _ _ _ Hin2) as (-> & Hd).
  destruct (skip_slash r3) as [r4|] eqn:Hs2; [|discriminate].
  apply skip_slash_some in Hs2 as ->.
  destruct (take_Y r4) as [[yt' r5]|] eqn:HY; [|discriminate].
  injection H as <- <- <- <-.
  destruct (take_Y_some _ _ _ HY) as (-> & Hy).
  auto.
Qed.

(** Whatever is parsed to a date is a text of that date, and the date is
    valid. *)
Lemma strptime_sound s y m d :
  strptime s = inr (y, m, d) -> date_text s y m d /\ valid_date y m d.
Proof.
  unfold strptime.
  destruct (match_format s) as [[[[mt dt] yt] rest]|] eqn:Hmf; [|discriminate].
  destruct rest; [|discriminate].
  destruct (match_format_sound _ _ _ _ _ Hmf)
    as (-> & (m' & Hmr & Hm) & (d' & Hdr & Hd) & (y' & Hyr & ->)).
  rewrite (py_int_four_digits y' Hyr), (month_text_value mt m' Hmr Hm),
    (day_text_value dt d' Hdr Hd).
  destruct (y' <? 1) eqn:Hy1; [discriminate|].
  destruct ((1 <=? d') && (d' <=? days_in_month y' m')) eqn:Hday;
    [|discriminate].
  intros [= <- <- <-]. apply Z.ltb_ge in Hy1.
  apply andb_true_iff in Hday as [H1 H2]. apply Z.leb_le in H1, H2.
  split.
  - exists mt, dt. split; [|auto].
    now rewrite append_empty_r.
  - repeat split; lia.
Qed.

Lemma strptime_error s e : strptime s = inl e -> is_ValueError e = true.
Proof.
  unfold strptime.
  destruct (match_format s) as [[[[mt dt] yt] rest]|]; [|now intros [= <-]].
  destruct rest; [|now intros [= <-]].
  destruct (py_int yt <? 1); [now intros [= <-]|].
  destruct ((1 <=? py_int dt) && _); [discriminate|now intros [= <-]].
Qed.

(** *** Stripping *)

Lemma append_assoc (a b c : string) :
  ((a ++ b) ++ c)%string = (a ++ b ++ c)%string.
Proof.
  induction a as [|x a IH]; [reflexivity|].
  rewrite !append_cons. now rewrite IH.
Qed.

Lemma rstrip_spaces ws :
  string_forall is_space ws = true -> rstrip ws = EmptyString.
Proof.
  induction ws as [|c ws IH]; [reflexivity|].
  cbn [string_forall rstrip]. intros H.
  apply andb_true_iff in H as [Hc Hs]. now rewrite (IH Hs), Hc.
Qed.

Lemma rstrip_app_spaces s ws :
  string_forall is_space ws = true -> rstrip (s ++ ws) = rstrip s.
Proof.
  intros H. induction s as [|c s IH].
  - rewrite append_nil. now apply rstrip_spaces.
  - rewrite append_cons. cbn [rstrip]. now rewrite IH.
Qed.







(** *** Printing the year *)


(** *** The conversion *)

Lemma convert_date_format_any_year s y m d w :
  date_text (strip s) y m d -> valid_date y m d ->
  convert_date_format (PStr s) w
  = (Ok (str_of_Z y ++ "-" ++ two_digits m ++ "-" ++ two_digits d)%string, w).
Proof.
  intros Ht Hv. unfold convert_date_format, bind, try_except.
  cbn [py_strip lift ret].
  rewrite (strptime_accepts _ _ _ _ Ht Hv). reflexivity.
Qed.


(** A text is the text of a date or it is not. *)
Lemma date_text_or_not s :
  (exists y m d, date_text s y m d /\ valid_date y m d)
  \/ (forall y m d, ~ (date_text s y m d /\ valid_date y m d)).
Proof.
  destruct (strptime s) as [e|[[y m] d]] eqn:Hp.
  - right. intros y m d [Ht Hv].
    rewrite (strptime_accepts _ _ _ _ Ht Hv) in Hp. discriminate.
  - left. exists y, m, d. now apply strptime_sound.
Qed.

Lemma convert_date_format_rejects s w :
  (forall y m d, ~ (date_text (strip s) y m d /\ valid_date y m d)) ->
  exists e,
    is_ValueError e = true
    /\ convert_date_format (PStr s) w
       = (Raise e, set_stdout (stdout w ++ [date_error_line (strip s)]) w).
Proof.
  intros Hnot. unfold convert_date_format, bind, try_except.
  cbn [py_strip lift ret].
  destruct (strptime (strip s)) as [e|[[y m] d]] eqn:Hp.
  - exists e. pose proof (strptime_error _ _ Hp) as He.
    split; [exact He|]. cbn [lift raise]. rewrite He. reflexivity.
  - exfalso. apply (Hnot y m d). now apply strptime_sound.
Qed.


End DateProperties.

(** * The properties at work on examples *)

Section Examples.

Lemma served_two_pages srv :
  srv 0%nat (ContractAssets.page_request acme acme_key 1)
  = Reply (assets_page (sample_assets 100)) ->
  srv 1%nat (ContractAssets.page_request acme acme_key 2)
  = Reply (assets_page (sample_assets 40)) ->
  ContractAssets.pages_served acme acme_key srv 0 1
    [sample_assets 100; sample_assets 40].
Proof.
  intros H1 H2. split; [|split; [|exact I]].
  - exists (assets_page (sample_assets 100)). eexists.
    split; [exact H1|]. split; [reflexivity|]. split; [reflexivity|].
    split; [reflexivity|]. intros H. apply (f_equal (@length _)) in H.
    vm_compute in H. discriminate.
  - exists (assets_page (sample_assets 40)). eexists.
    split; [exact H2|]. split; [reflexivity|]. split; [reflexivity|].
    split; [reflexivity|]. intros H. apply (f_equal (@length _)) in H.
    vm_compute in H. discriminate.
Qed.

(** Two full pages, then a 503: the loop returns the 140 records. *)
Lemma pagination_halts_at_first_stop_page_witness :
  fst (ContractAssets.fetch_pages acme acme_key 5 1 []
         (fresh_world failing_third_server))
  = Ok (sample_assets 100 ++ sample_assets 40).
Proof.
  destruct (pagination_halts_at_first_stop_page acme acme_key
              [sample_assets 100; sample_assets 40] 5
              (fresh_world failing_third_server))
    as (_ & Hfailed & _).
  - apply served_two_pages; reflexivity.
  - cbn. lia.
  - rewrite (Hfailed (mk_response 503 "Service Unavailable" None None
                 (Some "Service Unavailable"))).
    + cbn [fst concat]. now rewrite app_nil_r.
    + split; [reflexivity|]. cbn. lia.
Defined.

Lemma two_pages_take_three_calls_witness :
  fst (ContractAssets.fetch_pages acme acme_key 3 1 []
         (fresh_world two_page_server))
  = Ok (sample_assets 100 ++ sample_assets 40)
  /\ length (sample_assets 100 ++ sample_assets 40) = 140%nat.
Proof.
  destruct (two_pages_take_three_calls acme acme_key
              (sample_assets 100) (sample_assets 40) 3
              (fresh_world two_page_server)) as [Hrun Hlen].
  - reflexivity.
  - reflexivity.
  - apply served_two_pages; reflexivity.
  - exists (assets_page []). eexists.
    split; [reflexivity|]. split; [reflexivity|]. split; [reflexivity|].
    left. reflexivity.
  - lia.
  - rewrite Hrun. split; [reflexivity|exact Hlen].
Defined.

(** C3 as stated fails: with pages of 100 and 40 records the loop sends
    three requests, not two. *)
Lemma third_page_is_requested :
  let final := ContractAssets.fetch_pages acme acme_key 10 1 []
                 (fresh_world two_page_server) in
  (exists records, fst final = Ok records /\ length records = 140%nat)
  /\ length (trace (snd final)) = 3%nat
  /\ ~ length (trace (snd final)) = 2%nat.
Proof.
  cbv zeta. split; [|split].
  - exists (sample_assets 100 ++ sample_assets 40).
    split; vm_compute; reflexivity.
  - vm_compute. reflexivity.
  - vm_compute. discriminate.
Qed.

Lemma update_ticket_with_assets_full_replace_witness :
  Forall2 (fun a t => py_item a "asset_tag" = inr t) [entry_C] [PStr "C"]
  /\ trace (snd (TicketAssetsNote.update_ticket_with_assets 54157 acme
                   (BasicAuth acme_key acme_password) [entry_C]
                   (fresh_world ticket_with_A_and_B)))
     = [mk_request PUT ("https://" ++ acme)%string (ETicket 54157)
          (BasicAuth acme_key acme_password)
          (JsonBody (PDict [("assets",
                             PList [PDict [("display_id", PStr "C")]])]))].
Proof.
  assert (H : Forall2 (fun a t => py_item a "asset_tag" = inr t)
                      [entry_C] [PStr "C"])
    by (constructor; [reflexivity|constructor]).
  split; [exact H|].
  exact (proj1 (update_ticket_with_assets_full_replace 54157 acme
                  (BasicAuth acme_key acme_password) [entry_C] [PStr "C"]
                  (fresh_world ticket_with_A_and_B) H)).
Defined.

Lemma department_5_is_resolved :
  ContractAssets.resolved_with_200 acme acme_key no_locations_server
    ContractAssets.Department (PInt 5).
Proof.
  intros n id' Hkey. eexists. split; reflexivity.
Qed.

(** Two records of department 5 and location 9 behind a server that knows
    the departments and refuses every location lookup: one call for the
    department, although the location is asked for twice. *)
Lemma each_id_resolved_once_witness :
  let final := ContractAssets.write_rows acme acme_key lease_csv
                 [located_asset 1; located_asset 2]
                 (fresh_world no_locations_server) in
  ContractAssets.calls_for ContractAssets.Department (PInt 5)
    (trace (snd final)) = 1%nat
  /\ ContractAssets.calls_for ContractAssets.Location (PInt 9)
       (trace (snd final)) = 2%nat.
Proof.
  cbv zeta. split; [|vm_compute; reflexivity].
  destruct (each_id_resolved_once acme acme_key lease_csv
              [located_asset 1; located_asset 2]
              (fresh_world no_locations_server)
              ContractAssets.Department (PInt 5))
    as [_ Hmiss].
  destruct (Hmiss eq_refl department_5_is_resolved) as [_ Hexact].
  apply Hexact.
  - vm_compute. reflexivity.
  - reflexivity.
  - exists (located_asset 1). split; [now left|reflexivity].
Defined.

(** C6 as stated fails: behind a server whose lookups fail, two records of
    department 5 cost two calls for that one id. *)
Lemma failed_lookup_is_repeated :
  let w := fresh_world broken_directory_server in
  let final := ContractAssets.write_rows acme acme_key lease_csv
                 [sample_asset 1; sample_asset 2] w in
  ContractAssets.cached (PInt 5) (dept_cache w) = false
  /\ fst final = Ok tt
  /\ ContractAssets.calls_for ContractAssets.Department (PInt 5)
       (trace (snd final)) = 2%nat
  /\ ~ ContractAssets.calls_for ContractAssets.Department (PInt 5)
         (trace (snd final)) = 1%nat.
Proof.
  cbv zeta. split; [reflexivity|]. split; [vm_compute; reflexivity|].
  split; [vm_compute; reflexivity|]. vm_compute. discriminate.
Qed.

Lemma failed_lookup_is_not_cached_witness :
  let w := fresh_world broken_directory_server in
  let rq := ContractAssets.get_request acme acme_key (EDepartment (PInt 5)) in
  fst (ContractAssets.resolver acme acme_key ContractAssets.Department
         (PInt 5) w) = Ok PNone
  /\ dept_cache (snd (ContractAssets.resolver acme acme_key
                        ContractAssets.Department (PInt 5) w)) = [].
Proof.
  cbv zeta.
  destruct (failed_lookup_is_not_cached acme acme_key
              ContractAssets.Department (PInt 5)
              (fresh_world broken_directory_server)
              (plain_response 500 None))
    as (Hrun & Hcaches & _).
  - reflexivity.
  - reflexivity.
  - reflexivity.
  - reflexivity.
  - cbn. lia.
  - rewrite Hrun. split; [reflexivity|].
    exact (Hcaches ContractAssets.Department).
Defined.



Lemma manager_email_requester_then_agent_witness :
  fst (Termination.fetch_manager_email acme_key acme_password acme (PInt 77)
         (fresh_world agent_manager_server))
  = Ok (PStr "boss@acme.com").
Proof.
  exact (proj2 (manager_email_requester_then_agent acme_key acme_password acme
                  (PInt 77) (fresh_world agent_manager_server))
               (plain_response 404 None)
               (plain_response 200
                  (Some (PDict [("agent", PDict [("email", PStr "boss@acme.com")])])))
               (PDict [("agent", PDict [("email", PStr "boss@acme.com")])])
               (PDict [("email", PStr "boss@acme.com")])
               (PStr "boss@acme.com")
               eq_refl eq_refl eq_refl eq_refl eq_refl eq_refl eq_refl).
Defined.

Lemma requester_found_skips_agents_witness :
  let final := Termination.fetch_requester_info acme_key acme_password acme
                 (PStr "Jane.Doe@Acme.com") (fresh_world requester_directory) in
  fst final = Ok (PInt 1001, PInt 77, "requester")
  /\ trace (snd final)
     = [Termination.search_request acme
          (Termination.get_headers acme_key acme_password)
          "jane.doe@acme.com" "requesters" "primary_email"].
Proof.
  cbv zeta.
  rewrite (requester_found_skips_agents acme_key acme_password acme
             "Jane.Doe@Acme.com" (fresh_world requester_directory)
             (plain_response 200
                (Some (PDict [("requesters",
                               PList [PDict [("id", PInt 1001);
                                             ("reporting_manager_id", PInt 77)]])])))
             [("requesters",
               PList [PDict [("id", PInt 1001);
                             ("reporting_manager_id", PInt 77)]])]
             [("id", PInt 1001); ("reporting_manager_id", PInt 77)]
             [] (PInt 1001)).
  - split; reflexivity.
  - reflexivity.
  - left. cbn. lia.
  - reflexivity.
  - reflexivity.
  - reflexivity.
Defined.

Lemma termination_ticket_has_employee_id :
  Termination.contains_employee_id
    "Termination notice. Employee ID: 4821 Last day: 03/14/2024".
Proof.
  exists "Termination notice. ", " ", "4821", " Last day: 03/14/2024".
  split; [reflexivity|]. split; [reflexivity|]. split; [reflexivity|].
  discriminate.
Qed.

Lemma main_stops_at_hrms_login_witness :
  let final := Termination.main acme_key acme_password acme
                 "hrms-key" "svc" "secret" "ACME"
                 "https://hrms.example/login" "https://hrms.example/report"
                 sample_repr 54157 (fresh_world ticket_server) in
  fst final = Ok tt
  /\ trace (snd final)
     = [Termination.ticket_request acme_key acme_password acme 54157].
Proof.
  cbv zeta.
  destruct (main_stops_at_hrms_login acme_key acme_password acme
              "hrms-key" "svc" "secret" "ACME"
              "https://hrms.example/login" "https://hrms.example/report"
              sample_repr 54157 (fresh_world ticket_server)
              (plain_response 200 (Some termination_ticket))
              termination_ticket
              (PDict [("id", PInt 54157);
                      ("description_text",
                       PStr "Termination notice. Employee ID: 4821 Last day: 03/14/2024")])
              "Termination notice. Employee ID: 4821 Last day: 03/14/2024")
    as (employee_id & _ & Hmain).
  - reflexivity.
  - left. cbn. lia.
  - reflexivity.
  - reflexivity.
  - reflexivity.
  - exact termination_ticket_has_employee_id.
  - rewrite Hmain. split; reflexivity.
Defined.

Lemma iso_text_is_no_date y m d :
  ~ (Termination.date_text (strip "2024-03-14") y m d
     /\ Termination.valid_date y m d).
Proof.
  intros [Ht Hv]. pose proof (strptime_accepts _ _ _ _ Ht Hv) as H.
  vm_compute in H. discriminate.
Qed.



End Examples.

(** * Further properties of contract_assets.py *)

Section ResolverHits.
Import ContractAssets.

Variable FSURL : string.
Variable api_key : string.

#[local] Abbreviation resolver := (resolver FSURL api_key).
#[local] Abbreviation write_asset_row := (write_asset_row FSURL api_key).
#[local] Abbreviation get_request := (get_request FSURL api_key).

Lemma cache_get_cache_set a b v c :
  key_eqb a b = true -> cache_get a (cache_set b v c) = Some v.
Proof.
  intros Hab. induction c as [|[k v'] c IH]; cbn.
  - now rewrite Hab.
  - destruct (key_eqb b k) eqn:Hbk; cbn.
    + now rewrite (key_eqb_trans _ _ _ Hab Hbk).
    + rewrite (key_eqb_congr a b k Hab), Hbk. exact IH.
Qed.

(** An id found in the cache is answered from it: no request, no change. *)
Lemma resolver_hit k id v w :
  truthy id = true -> hashable id = true ->
  cache_get id (cache_of k w) = Some v ->
  resolver k id w = (Ok v, w).
Proof.
  intros Ht Hh Hc.
  destruct k; cbn [ContractAssets.resolver cache_of] in *;
    [unfold ContractAssets.get_department_name, read_dept_cache
    |unfold ContractAssets.get_location_name, read_location_cache
    |unfold ContractAssets.get_requester_name, read_requester_cache];
    rewrite Ht; cbn [negb]; unfold bind, cache_mem, cache_item;
    rewrite Hh, Hc; reflexivity.
Qed.

(** X1. A record whose department, location and requester ids are all
    absent or null is written with three empty names and costs no request:
    the only change is the new row in the file. *)
Theorem record_without_ids_costs_no_call
        (path : string) (d : list (string * pyval)) (w : world) :
  (forall k, truthy (match dict_lookup (field_of k) d with
                     | Some x => x
                     | None => PNone
                     end) = false) ->
  let field name := match dict_lookup name d with
                    | Some x => x
                    | None => PNone
                    end in
  let rows := match fs w !! path with Some rows => rows | None => [] end in
  write_asset_row path (PDict d) w
  = (Ok tt,
     set_fs (<[path := rows ++ [[field "display_id"; field "asset_tag";
                                 field "name"; PNone; PNone; PNone]]]> (fs w))
            w).
Proof.
  intros Hnull field rows. subst field rows.
  pose proof (Hnull Department) as H1. pose proof (Hnull Location) as H2.
  pose proof (Hnull Requester) as H3. cbn [field_of] in H1, H2, H3.
  unfold ContractAssets.write_asset_row, bind. cbn [py_get lift ret].
  rewrite H1, H2, H3. reflexivity.
Qed.

(** X2. Once a lookup answered with status 200 has returned a value, a
    lookup of the same id that follows it, or of an id equal to it as a
    dict key (such as [1] after [True]), returns that value without sending
    a request or changing anything. *)
Theorem stored_lookup_is_served_from_cache
        (k : kind) (id id' v : pyval) (w w1 : world) (r : response) :
  truthy id = true ->
  cached id (cache_of k w) = false ->
  server w (length (trace w)) (get_request (endpoint_of k id)) = Reply r ->
  status_code r = 200 ->
  resolver k id w = (Ok v, w1) ->
  key_eqb id' id = true ->
  resolver k id' w1 = (Ok v, w1)
  /\ trace w1 = trace w ++ [get_request (endpoint_of k id)].
Proof.
  intros Ht Hmiss Hr Hst Hrun Hkey.
  pose proof (resolver_effect_holds FSURL api_key k id w) as Heff.
  rewrite Hrun in Heff. cbn [fst snd] in Heff.
  inversion Heff as [o w' Htr Hc Hhit
                    |v' w' Htr Hh Hm Htrace Hck Hco
                    |e w' Htr Hm Htrace Hc
                    |r' w' Htr Hh' Hm Hr' Hst' Htrace Hc]; subst.
  - rewrite (Hhit v eq_refl Ht) in Hmiss. discriminate.
  - split; [|exact Htrace].
    apply resolver_hit.
    + now rewrite (key_eqb_truthy _ _ Hkey).
    + destruct id' as [| | | | |], id as [| | | | |];
        try reflexivity; discriminate.
    + rewrite Hck. now apply cache_get_cache_set.
  - rewrite Hr in Hr'. injection Hr' as <-. contradiction.
Qed.

End ResolverHits.

Section ContractAssetsEdges.
Import ContractAssets.

Variable FSURL : string.
Variable api_key : string.

#[local] Abbreviation get_requester_name := (get_requester_name FSURL api_key).
#[local] Abbreviation get_request := (get_request FSURL api_key).
#[local] Abbreviation fetch_pages := (fetch_pages FSURL api_key).
#[local] Abbreviation page_request := (page_request FSURL api_key).
#[local] Abbreviation page_requests := (page_requests FSURL api_key).
#[local] Abbreviation pages_served := (pages_served FSURL api_key).
#[local] Abbreviation update_ticket_with_attachment :=
  (update_ticket_with_attachment FSURL api_key).

(** *** Stripped text *)

Lemma lstrip_length s : (String.length (lstrip s) <= String.length s)%nat.
Proof.
  induction s as [|c s IH]; cbn [lstrip String.length]; [lia|].
  destruct (is_space c); cbn [String.length]; lia.
Qed.

Lemma lstrip_fixed s :
  lstrip s = s ->
  s = EmptyString \/ exists c s', s = String c s' /\ is_space c = false.
Proof.
  destruct s as [|c s]; [now left|]. cbn [lstrip].
  destruct (is_space c) eqn:Hc; [|right; eauto].
  intros H. pose proof (lstrip_length s) as Hl. rewrite H in Hl.
  cbn [String.length] in Hl. lia.
Qed.

Lemma lstrip_idem s : lstrip (lstrip s) = lstrip s.
Proof.
  induction s as [|c s IH]; [reflexivity|]. cbn [lstrip].
  destruct (is_space c) eqn:Hc; [exact IH|]. cbn [lstrip]. now rewrite Hc.
Qed.

Lemma rstrip_idem s : rstrip (rstrip s) = rstrip s.
Proof.
  induction s as [|c s IH]; [reflexivity|]. cbn [rstrip].
  destruct (rstrip s) as [|c' r] eqn:Hr.
  - destruct (is_space c) eqn:Hc; [reflexivity|].
    cbn [rstrip]. now rewrite Hc.
  - cbn [rstrip] in IH |- *. 
    change (rstrip (String c (String c' r))) with
      (match rstrip (String c' r) with
       | EmptyString => if is_space c then EmptyString else String c EmptyString
       | r0 => String c r0
       end).
    now rewrite IH.
Qed.

Lemma rstrip_cons c s :
  rstrip (String c s)
  = match rstrip s with
    | EmptyString => if is_space c then EmptyString else String c EmptyString
    | r => String c r
    end.
Proof. reflexivity. Qed.

Lemma rstrip_lstrip s : rstrip s = s -> rstrip (lstrip s) = lstrip s.
Proof.
  induction s as [|c s IH]; [reflexivity|]. cbn [lstrip].
  destruct (is_space c) eqn:Hc; [|auto]. rewrite rstrip_cons, Hc.
  destruct (rstrip s) as [|c' r] eqn:Hr; [discriminate|].
  intros [= E]. apply IH. exact E.
Qed.

Lemma strip_lstrip s : lstrip (strip s) = strip s.
Proof. unfold strip. apply lstrip_idem. Qed.

Lemma strip_rstrip s : rstrip (strip s) = strip s.
Proof. unfold strip. apply rstrip_lstrip, rstrip_idem. Qed.

Lemma rstrip_app_fixed x : forall p,
  x <> EmptyString -> rstrip x = x -> rstrip (p ++ x) = (p ++ x)%string.
Proof.
  intros p Hne Hx. induction p as [|c p IH].
  - now rewrite append_nil.
  - rewrite append_cons. cbn [rstrip]. rewrite IH.
    destruct (p ++ x)%string eqn:E; [|reflexivity].
    destruct p; [rewrite append_nil in E; contradiction|discriminate].
Qed.

Lemma lstrip_app_fixed x q :
  x <> EmptyString -> lstrip x = x -> lstrip (x ++ q) = (x ++ q)%string.
Proof.
  intros Hne Hx. destruct (lstrip_fixed x Hx) as [->|(c & x' & -> & Hc)];
    [contradiction|].
  rewrite append_cons. cbn [lstrip]. now rewrite Hc.
Qed.

(** Joining two stripped names with a space and stripping the result keeps
    the parts that are not empty, one space apart. *)
Lemma strip_join f l :
  (if truthy (PStr (strip f)) || truthy (PStr (strip l))
   then PStr (strip (strip f ++ " " ++ strip l))
   else PNone)
  = joined_name (strip f) (strip l).
Proof.
  pose proof (strip_lstrip f) as Hfl. pose proof (strip_rstrip f) as Hfr.
  pose proof (strip_lstrip l) as Hll. pose proof (strip_rstrip l) as Hlr.
  destruct (strip f) as [|a f'] eqn:Ef; destruct (strip l) as [|b l'] eqn:El;
    cbn [truthy String.eqb negb orb joined_name].
  - reflexivity.
  - f_equal. rewrite append_nil. unfold strip.
    change (" " ++ String b l')%string with (String " " (String b l')).
    pose proof (rstrip_app_fixed (String b l') " " ltac:(discriminate) Hlr) as H.
    change (" " ++ String b l')%string with (String " " (String b l')) in H.
    rewrite H. cbn [lstrip]. change (is_space " ") with true. cbv beta iota.
    exact Hll.
  - f_equal. unfold strip. change (" " ++ "")%string with " ".
    rewrite (rstrip_app_spaces (String a f') " " eq_refl), Hfr. exact Hfl.
  - f_equal. unfold strip.
    rewrite <- append_assoc.
    rewrite (rstrip_app_fixed (String b l') _ ltac:(discriminate) Hlr).
    rewrite append_assoc.
    now apply lstrip_app_fixed.
Qed.

(** X3. A requester lookup answered with status 200 returns (and stores)
    the first and the last name, each stripped, one space apart; a name
    that is empty or blank leaves no space behind, and two such names give
    [None]. *)
Theorem requester_name_is_trimmed_join
        (user_id : pyval) (w : world) (r : response)
        (j requester : pyval) (f l : string) :
  truthy user_id = true -> hashable user_id = true ->
  cache_get user_id (requester_cache w) = None ->
  server w (length (trace w)) (get_request (ERequester user_id)) = Reply r ->
  status_code r = 200 ->
  json_body r = Some j ->
  py_get j "requester" (PDict []) = inr requester ->
  py_get requester "first_name" (PStr "") = inr (PStr f) ->
  py_get requester "last_name" (PStr "") = inr (PStr l) ->
  let name := joined_name (strip f) (strip l) in
  get_requester_name user_id w
  = (Ok name,
     set_requester_cache (cache_set user_id name (requester_cache w))
       (set_trace (trace w ++ [get_request (ERequester user_id)]) w)).
Proof.
  intros Ht Hh Hc Hr Hst Hj Hreq Hf Hl name. subst name.
  unfold ContractAssets.get_requester_name. rewrite Ht. cbn [negb].
  unfold bind, read_requester_cache, cache_mem. rewrite Hh, Hc.
  cbn [lift ret]. unfold api_get, http. rewrite Hr, Hst.
  cbn [Z.eqb Pos.eqb]. unfold json. rewrite Hj. cbn [ret].
  rewrite Hreq. cbn [lift ret]. rewrite Hf. cbn [lift ret py_strip].
  rewrite Hl. cbn [lift ret py_strip]. rewrite strip_join. reflexivity.
Qed.

(** X4. A requester whose [first_name] or [last_name] is present but is
    not a string (JSON null, say) makes the lookup raise [AttributeError]:
    the request has been sent and nothing is stored. *)
Theorem requester_null_name_raises
        (user_id : pyval) (w : world) (r : response)
        (j requester first_name last_name : pyval) :
  truthy user_id = true -> hashable user_id = true ->
  cache_get user_id (requester_cache w) = None ->
  server w (length (trace w)) (get_request (ERequester user_id)) = Reply r ->
  status_code r = 200 ->
  json_body r = Some j ->
  py_get j "requester" (PDict []) = inr requester ->
  py_get requester "first_name" (PStr "") = inr first_name ->
  py_get requester "last_name" (PStr "") = inr last_name ->
  py_strip first_name = inl AttributeError
  \/ py_strip last_name = inl AttributeError ->
  get_requester_name user_id w
  = (Raise AttributeError,
     set_trace (trace w ++ [get_request (ERequester user_id)]) w).
Proof.
  intros Ht Hh Hc Hr Hst Hj Hreq Hf Hl Hbad.
  unfold ContractAssets.get_requester_name. rewrite Ht. cbn [negb].
  unfold bind, read_requester_cache, cache_mem. rewrite Hh, Hc.
  cbn [lift ret]. unfold api_get, http. rewrite Hr, Hst.
  cbn [Z.eqb Pos.eqb]. unfold json. rewrite Hj. cbn [ret].
  rewrite Hreq. cbn [lift ret]. rewrite Hf. cbn [lift ret].
  destruct (py_strip first_name) as [e|fs'] eqn:Hfs.
  - destruct first_name; cbn in Hfs; try discriminate;
      injection Hfs as <-; reflexivity.
  - destruct Hbad as [Hbad|Hbad]; [discriminate|].
    cbn [lift ret]. rewrite Hl. cbn [lift ret]. rewrite Hbad. reflexivity.
Qed.

(** X5. When the file to attach does not exist, the ticket is not
    touched: [update_ticket_with_attachment] prints the error of [open] and
    returns without sending any request. *)
Theorem unreadable_file_sends_nothing
        (ticket_id : Z) (file_path : string) (w : world) :
  fs w !! file_path = None ->
  update_ticket_with_attachment ticket_id file_path w
  = (Ok tt,
     set_stdout (stdout w ++ [read_error_line file_path
                                (FileNotFoundError file_path)]) w).
Proof.
  intros Hfile.
  unfold ContractAssets.update_ticket_with_attachment, bind, try_except,
    read_file.
  rewrite Hfile. reflexivity.
Qed.

(** X6. A transport failure is not handled by the pagination loop: when
    the request for a page raises, after any number of full pages, the
    exception leaves the loop and the records gathered so far are not
    returned. *)
Theorem pagination_propagates_transport_failure
        (pages : list (list pyval)) (fuel : nat) (w : world) (e : exn) :
  pages_served (server w) (length (trace w)) 1 pages ->
  (length pages < fuel)%nat ->
  server w (length (trace w) + length pages)%nat
         (page_request (1 + Z.of_nat (length pages))) = Fails e ->
  fetch_pages fuel 1 [] w
  = (Raise e,
     set_trace (trace w ++ page_requests 1 (S (length pages))) w).
Proof.
  intros Hserved Hfuel Hfail.
  replace fuel with (length pages + S (fuel - length pages - 1))%nat by lia.
  rewrite (fetch_pages_through _ _ _ _ _ _ _ Hserved). cbn [app].
  rewrite page_requests_snoc.
  cbn [ContractAssets.fetch_pages]. unfold api_get, bind, http.
  fold (ContractAssets.page_request FSURL api_key (1 + Z.of_nat (length pages))).
  cbn [server trace set_trace].
  assert (Hn : forall n z, length (page_requests z n) = n).
  { induction n as [|n IH]; intros z; [reflexivity|]. cbn. now rewrite IH. }
  rewrite length_app, Hn, Hfail. cbn [set_trace trace].
  rewrite <- app_assoc. reflexivity.
Qed.

End ContractAssetsEdges.

Section CsvProperties.
Import ContractAssets.

Variable FSURL : string.
Variable api_key : string.

#[local] Abbreviation resolver := (resolver FSURL api_key).
#[local] Abbreviation write_asset_row := (write_asset_row FSURL api_key).
#[local] Abbreviation write_rows := (write_rows FSURL api_key).
#[local] Abbreviation write_csv := (write_csv FSURL api_key).
#[local] Abbreviation fetch_pages := (fetch_pages FSURL api_key).
#[local] Abbreviation script := (script FSURL api_key).
#[local] Abbreviation attachment_request := (attachment_request FSURL api_key).

(** A row that is written is appended to the file. *)
Lemma write_asset_row_appends path asset rows0 w :
  fs w !! path = Some rows0 ->
  fst (write_asset_row path asset w) = Ok tt ->
  exists row,
    fs (snd (write_asset_row path asset w)) !! path = Some (rows0 ++ [row])
    /\ row_of asset row.
Proof.
  intros Hfile.
  set (P := fun (o : outcome unit) (w' : world) =>
              o = Ok tt ->
              exists row, fs w' !! path = Some (rows0 ++ [row])
                          /\ row_of asset row).
  change (P (fst (write_asset_row path asset w))
            (snd (write_asset_row path asset w))).
  unfold ContractAssets.write_asset_row.
  destruct asset as [| | | | |d]; try (intros H; discriminate H).
  do 6 (apply bind_rule; cbn [py_get lift ret]).
  apply bind_rule.
  pose proof (guarded_fs FSURL api_key Department
                (match dict_lookup "department_id" d with
                 | Some x => x | None => PNone end) w _ eq_refl) as F1.
  cbn [ContractAssets.resolver] in F1.
  destruct ((if truthy _ then ContractAssets.get_department_name _ _ _
             else ret PNone) w) as [o1 w1].
  cbn [snd] in F1. destruct o1 as [dept_name| |]; try (intros H; discriminate H).
  apply bind_rule.
  pose proof (guarded_fs FSURL api_key Location
                (match dict_lookup "location_id" d with
                 | Some x => x | None => PNone end) w1 _ eq_refl) as F2.
  cbn [ContractAssets.resolver] in F2.
  destruct ((if truthy _ then ContractAssets.get_location_name _ _ _
             else ret PNone) w1) as [o2 w2].
  cbn [snd] in F2. destruct o2 as [loc_name| |]; try (intros H; discriminate H).
  apply bind_rule.
  pose proof (guarded_fs FSURL api_key Requester
                (match dict_lookup "user_id" d with
                 | Some x => x | None => PNone end) w2 _ eq_refl) as F3.
  cbn [ContractAssets.resolver] in F3.
  destruct ((if truthy _ then ContractAssets.get_requester_name _ _ _
             else ret PNone) w2) as [o3 w3].
  cbn [snd] in F3.
  destruct o3 as [requester_name| |]; try (intros H; discriminate H).
  intros _. cbn [writerow fst snd fs set_fs].
  rewrite F3, F2, F1, Hfile, lookup_insert_eq.
  eexists. split; [reflexivity|].
  unfold row_of. cbn [py_get]. do 6 eexists. repeat (split; [reflexivity|]).
  reflexivity.
Qed.

Lemma write_rows_appends path assets : forall rows0 w,
  fs w !! path = Some rows0 ->
  fst (write_rows path assets w) = Ok tt ->
  exists rows,
    fs (snd (write_rows path assets w)) !! path = Some (rows0 ++ rows)
    /\ Forall2 row_of assets rows.
Proof.
  induction assets as [|asset assets IH]; intros rows0 w Hfile Hok.
  - exists []. rewrite app_nil_r. split; [exact Hfile|constructor].
  - unfold ContractAssets.write_rows in *. cbn [for_each] in *.
    unfold bind in *.
    pose proof (write_asset_row_appends path asset rows0 w Hfile) as Hrow.
    destruct (ContractAssets.write_asset_row FSURL api_key path asset w)
      as [[[]| |] w1]; cbn [fst snd] in *; try discriminate.
    destruct (Hrow eq_refl) as (row & Hfile1 & Hrow1).
    destruct (IH _ w1 Hfile1 Hok) as (rows & Hfile2 & Hrows).
    exists (row :: rows). rewrite <- app_assoc in Hfile2.
    split; [exact Hfile2|now constructor].
Qed.

Lemma write_csv_content (path : string) (assets : list pyval) (w : world) :
  fst (write_csv path assets w) = Ok tt ->
  exists rows,
    fs (snd (write_csv path assets w)) !! path = Some (csv_header :: rows)
    /\ Forall2 row_of assets rows.
Proof.
  unfold ContractAssets.write_csv, bind, open_w, writerow.
  cbn [fst snd fs set_fs]. rewrite lookup_insert_eq. cbn [app].
  intros Hok.
  match type of Hok with
  | fst (for_each _ _ ?w0) = _ =>
      destruct (write_rows_appends path assets [csv_header] w0) as
        (rows & Hfile & Hrows);
      [cbn [fs set_fs]; now rewrite lookup_insert_eq|exact Hok|]
  end.
  exists rows. split; [exact Hfile|exact Hrows].
Qed.

(** X7. When [write_csv] completes, the file holds the header row followed
    by exactly one row per asset, in the order of the assets, each row
    starting with the asset's [display_id], [asset_tag] and [name];
    whatever the file held before is gone. *)
Theorem csv_is_header_then_one_row_per_asset
        (path : string) (assets : list pyval) (w : world) :
  fst (write_csv path assets w) = Ok tt ->
  exists rows,
    fs (snd (write_csv path assets w)) !! path = Some (csv_header :: rows)
    /\ Forall2 row_of assets rows
    /\ length rows = length assets.
Proof.
  intros Hok. destruct (write_csv_content path assets w Hok)
    as (rows & Hfile & Hrows).
  exists rows. split; [exact Hfile|]. split; [exact Hrows|].
  symmetry. eapply Forall2_length. exact Hrows.
Qed.

(** *** The server stays the same *)

Lemma fetch_pages_server fuel : forall page acc w,
  server (snd (fetch_pages fuel page acc w)) = server w.
Proof.
  induction fuel as [|fuel IH]; intros page acc w; [reflexivity|].
  cbn [ContractAssets.fetch_pages].
  unfold bind, api_get, http, json, py_get, py_iter, lift, ret, raise, print.
  repeat (cbn [fst snd negb]; run_case); cbn [fst snd]; try reflexivity;
    rewrite IH; reflexivity.
Qed.

Lemma fetch_pages_remove_error fuel : forall page acc w,
  remove_error (snd (fetch_pages fuel page acc w)) = remove_error w.
Proof.
  induction fuel as [|fuel IH]; intros page acc w; [reflexivity|].
  cbn [ContractAssets.fetch_pages].
  unfold bind, api_get, http, json, py_get, py_iter, lift, ret, raise, print.
  repeat (cbn [fst snd negb]; run_case); cbn [fst snd]; try reflexivity;
    rewrite IH; reflexivity.
Qed.

Lemma write_asset_row_server path asset w :
  server (snd (write_asset_row path asset w)) = server w.
Proof.
  set (P := fun (_ : outcome unit) (w' : world) => server w' = server w).
  change (P (fst (write_asset_row path asset w))
            (snd (write_asset_row path asset w))).
  unfold ContractAssets.write_asset_row.
  destruct asset as [| | | | |d]; try reflexivity.
  do 6 (apply bind_rule; cbn [py_get lift ret]).
  apply bind_rule.
  pose proof (guarded_server FSURL api_key Department
                (match dict_lookup "department_id" d with
                 | Some x => x | None => PNone end) w _ eq_refl) as S1.
  cbn [ContractAssets.resolver] in S1.
  destruct ((if truthy _ then ContractAssets.get_department_name _ _ _
             else ret PNone) w) as [o1 w1].
  cbn [snd] in S1. destruct o1; try exact S1.
  apply bind_rule.
  pose proof (guarded_server FSURL api_key Location
                (match dict_lookup "location_id" d with
                 | Some x => x | None => PNone end) w1 _ eq_refl) as S2.
  cbn [ContractAssets.resolver] in S2.
  destruct ((if truthy _ then ContractAssets.get_location_name _ _ _
             else ret PNone) w1) as [o2 w2].
  cbn [snd] in S2. rewrite S1 in S2. destruct o2; try exact S2.
  apply bind_rule.
  pose proof (guarded_server FSURL api_key Requester
                (match dict_lookup "user_id" d with
                 | Some x => x | None => PNone end) w2 _ eq_refl) as S3.
  cbn [ContractAssets.resolver] in S3.
  destruct ((if truthy _ then ContractAssets.get_requester_name _ _ _
             else ret PNone) w2) as [o3 w3].
  cbn [snd] in S3. rewrite S2 in S3. destruct o3; exact S3.
Qed.

Lemma write_asset_row_remove_error path asset w :
  remove_error (snd (write_asset_row path asset w)) = remove_error w.
Proof.
  set (P := fun (_ : outcome unit) (w' : world) => remove_error w' = remove_error w).
  change (P (fst (write_asset_row path asset w))
            (snd (write_asset_row path asset w))).
  unfold ContractAssets.write_asset_row.
  destruct asset as [| | | | |d]; try reflexivity.
  do 6 (apply bind_rule; cbn [py_get lift ret]).
  apply bind_rule.
  pose proof (guarded_remove_error FSURL api_key Department
                (match dict_lookup "department_id" d with
                 | Some x => x | None => PNone end) w _ eq_refl) as S1.
  cbn [ContractAssets.resolver] in S1.
  destruct ((if truthy _ then ContractAssets.get_department_name _ _ _
             else ret PNone) w) as [o1 w1].
  cbn [snd] in S1. destruct o1; try exact S1.
  apply bind_rule.
  pose proof (guarded_remove_error FSURL api_key Location
                (match dict_lookup "location_id" d with
                 | Some x => x | None => PNone end) w1 _ eq_refl) as S2.
  cbn [ContractAssets.resolver] in S2.
  destruct ((if truthy _ then ContractAssets.get_location_name _ _ _
             else ret PNone) w1) as [o2 w2].
  cbn [snd] in S2. rewrite S1 in S2. destruct o2; try exact S2.
  apply bind_rule.
  pose proof (guarded_remove_error FSURL api_key Requester
                (match dict_lookup "user_id" d with
                 | Some x => x | None => PNone end) w2 _ eq_refl) as S3.
  cbn [ContractAssets.resolver] in S3.
  destruct ((if truthy _ then ContractAssets.get_requester_name _ _ _
             else ret PNone) w2) as [o3 w3].
  cbn [snd] in S3. rewrite S2 in S3. destruct o3; exact S3.
Qed.

Lemma write_rows_server path assets : forall w,
  server (snd (write_rows path assets w)) = server w.
Proof.
  induction assets as [|asset assets IH]; intros w; [reflexivity|].
  unfold ContractAssets.write_rows in *. cbn [for_each]. unfold bind.
  pose proof (write_asset_row_server path asset w) as S1.
  destruct (ContractAssets.write_asset_row FSURL api_key path asset w)
    as [[[]| |] w1]; cbn [snd] in S1 |- *; try exact S1.
  now rewrite IH.
Qed.

Lemma write_rows_remove_error path assets : forall w,
  remove_error (snd (write_rows path assets w)) = remove_error w.
Proof.
  induction assets as [|asset assets IH]; intros w; [reflexivity|].
  unfold ContractAssets.write_rows in *. cbn [for_each]. unfold bind.
  pose proof (write_asset_row_remove_error path asset w) as S1.
  destruct (ContractAssets.write_asset_row FSURL api_key path asset w)
    as [[[]| |] w1]; cbn [snd] in S1 |- *; try exact S1.
  now rewrite IH.
Qed.

(** X8. A run of the whole script that comes to its end has sent the
    attachment as its last request: a PUT on the ticket that carries the
    CSV (header first) under the name of the lease file, with priority 1;
    and at the end the CSV file is gone if and only if that PUT was
    answered with status 200 or 201 and the system did not refuse to remove
    the file. *)
Theorem script_ends_with_the_attachment
        (fuel : nat) (ticket_id : Z) (now_ym : string) (w : world) :
  fst (script fuel ticket_id now_ym w) = Ok tt ->
  exists earlier rows,
    let put := attachment_request ticket_id (csv_filename now_ym)
                 (csv_header :: rows) in
    trace (snd (script fuel ticket_id now_ym w)) = earlier ++ [put]
    /\ (fs (snd (script fuel ticket_id now_ym w)) !! csv_filename now_ym = None
        <-> (exists r, server w (length earlier) put = Reply r
                       /\ (status_code r = 200 \/ status_code r = 201))
            /\ remove_error w (csv_filename now_ym) = None).
Proof.
  remember (script fuel ticket_id now_ym w) as result eqn:E.
  unfold ContractAssets.script, bind in E.
  pose proof (fetch_pages_server fuel 1 [] w) as S1.
  pose proof (fetch_pages_remove_error fuel 1 [] w) as R1.
  destruct (ContractAssets.fetch_pages FSURL api_key fuel 1 [] w)
    as [[all_assets| |] w1]; cbn [fst snd] in *;
    try (subst result; discriminate).
  cbn [write_dept_cache write_location_cache write_requester_cache] in E.
  set (w2 := set_requester_cache [] (set_location_cache []
               (set_dept_cache [] w1))) in E.
  pose proof (write_csv_content (csv_filename now_ym) all_assets w2) as Hcsv.
  assert (S2 : server (snd (write_csv (csv_filename now_ym) all_assets w2))
               = server w2).
  { unfold ContractAssets.write_csv, bind, open_w, writerow.
    cbn [fst snd].
    etransitivity; [apply (write_rows_server (csv_filename now_ym))|].
    reflexivity. }
  assert (R2 : remove_error (snd (write_csv (csv_filename now_ym) all_assets w2))
               = remove_error w2).
  { unfold ContractAssets.write_csv, bind, open_w, writerow.
    cbn [fst snd].
    etransitivity; [apply (write_rows_remove_error (csv_filename now_ym))|].
    reflexivity. }
  destruct (ContractAssets.write_csv FSURL api_key (csv_filename now_ym)
              all_assets w2) as [[[]| |] w3]; cbn [fst snd] in *;
    try (subst result; discriminate).
  destruct (Hcsv eq_refl) as (rows & Hfile & _).
  cbn [print] in E.
  match type of E with
  | _ = ContractAssets.update_ticket_with_attachment _ _ _ _ ?w4 =>
      set (w' := w4) in E;
      destruct (update_ticket_with_attachment_run FSURL api_key ticket_id
                  (csv_filename now_ym) (csv_header :: rows) w')
        as (_ & Htrace & Hfs); [exact Hfile|]
  end.
  rewrite <- E in Htrace, Hfs.
  intros _. exists (trace w3), rows. cbv zeta. split; [exact Htrace|].
  rewrite Hfs. change (trace w') with (trace w3).
  change (server w') with (server w3). change (fs w') with (fs w3).
  change (remove_error w') with (remove_error w3).
  rewrite S2, R2. change (server w2) with (server w1).
  change (remove_error w2) with (remove_error w1). rewrite S1, R1.
  set (put := ContractAssets.attachment_request FSURL api_key ticket_id
                (csv_filename now_ym) (csv_header :: rows)).
  destruct (server w (length (trace w3)) put) as [r|e].
  - destruct (is_success (status_code r)) eqn:Hs.
    + destruct (remove_error w (csv_filename now_ym)) as [e|] eqn:Hrm.
      * replace (fs w3 !! csv_filename now_ym) with (Some (csv_header :: rows))
          by (symmetry; exact Hfile).
        split; [discriminate|]. intros [_ Hno]. discriminate.
      * rewrite lookup_delete_eq. split; [|reflexivity].
        intros _. split; [|reflexivity]. exists r.
        split; [reflexivity|]. now apply is_success_spec.
    + replace (fs w3 !! csv_filename now_ym) with (Some (csv_header :: rows))
        by (symmetry; exact Hfile).
      split; [discriminate|].
      intros [(r' & Hr' & Hst) _]. injection Hr' as <-.
      apply is_success_spec in Hst. congruence.
  - replace (fs w3 !! csv_filename now_ym) with (Some (csv_header :: rows))
      by (symmetry; exact Hfile).
    split; [discriminate|].
    intros [(r' & Hr' & _) _]. discriminate.
Qed.

End CsvProperties.

(** * Further properties of freshservice_hrms_termination.py *)

Section EmployeeIdProperties.
Import Termination.

Lemma skip_prefix_some lit : forall s r,
  skip_prefix lit s = Some r -> s = (lit ++ r)%string.
Proof.
  induction lit as [|c lit IH]; intros s r; cbn [skip_prefix].
  - now intros [= ->].
  - destruct s as [|c' s]; [discriminate|].
    destruct (Ascii.eqb c c') eqn:Hc; [|discriminate].
    apply Ascii.eqb_eq in Hc as <-. intros H.
    rewrite append_cons. now rewrite (IH _ _ H).
Qed.

Lemma skip_spaces_split s :
  exists spaces,
    s = (spaces ++ skip_spaces s)%string
    /\ string_forall is_space spaces = true.
Proof.
  induction s as [|c s (spaces & E & Hs)].
  - exists EmptyString. split; reflexivity.
  - cbn [skip_spaces]. destruct (is_space c) eqn:Hc.
    + exists (String c spaces). rewrite append_cons, <- E.
      split; [reflexivity|]. cbn [string_forall]. now rewrite Hc, Hs.
    + exists EmptyString. split; reflexivity.
Qed.

Lemma take_digits_split s :
  exists rest,
    s = (take_digits s ++ rest)%string
    /\ string_forall is_digit (take_digits s) = true.
Proof.
  induction s as [|c s (rest & E & Hd)].
  - exists EmptyString. split; reflexivity.
  - cbn [take_digits]. destruct (is_digit c) eqn:Hc.
    + exists rest. rewrite append_cons, <- E.
      split; [reflexivity|]. cbn [string_forall]. now rewrite Hc, Hd.
    + exists (String c s). split; reflexivity.
Qed.

Lemma match_here_sound s g :
  match_here s = Some g ->
  g <> EmptyString /\ string_forall is_digit g = true
  /\ exists spaces after,
       s = ("Employee ID:" ++ spaces ++ g ++ after)%string
       /\ string_forall is_space spaces = true.
Proof.
  unfold match_here.
  destruct (skip_prefix "Employee ID:" s) as [rest|] eqn:Hp; [|discriminate].
  apply skip_prefix_some in Hp.
  destruct (skip_spaces_split rest) as (spaces & E1 & Hs).
  destruct (take_digits_split (skip_spaces rest)) as (after & E2 & Hd).
  destruct (take_digits (skip_spaces rest)) as [|c ds] eqn:Ht; [discriminate|].
  intros [= <-]. split; [discriminate|]. split; [exact Hd|].
  exists spaces, after. split; [|exact Hs].
  rewrite Hp. f_equal. rewrite E1 at 1. f_equal. exact E2.
Qed.

Lemma re_search_sound s : forall g,
  re_search s = Some g ->
  contains_employee_id s /\ g <> EmptyString
  /\ string_forall is_digit g = true.
Proof.
  induction s as [|c s IH]; intros g.
  - cbn. discriminate.
  - cbn [re_search]. destruct (match_here (String c s)) as [g'|] eqn:Hm.
    + intros [= <-].
      destruct (match_here_sound _ _ Hm) as (Hne & Hd & spaces & after & E & Hs).
      split; [|auto].
      exists EmptyString, spaces, g', after. rewrite append_nil. auto.
    + intros H. destruct (IH g H)
        as ((before & spaces & number & after & E & Hs & Hd & Hne) & Hg).
      split; [|exact Hg].
      exists (String c before), spaces, number, after.
      rewrite append_cons, <- E. auto.
Qed.

(** X9. [extract_employee_id] succeeds exactly on a description that holds
    [Employee ID:], any white space and a number; what it returns is then a
    non-empty string of digits; on any other description it raises
    [ValueError]. *)
Theorem employee_id_found_iff_present (description : string) (w : world) :
  (contains_employee_id description ->
   exists g,
     extract_employee_id (PStr description) w = (Ok g, w)
     /\ g <> EmptyString /\ string_forall is_digit g = true)
  /\ (~ contains_employee_id description ->
      extract_employee_id (PStr description) w
      = (Raise (ValueError "Employee ID not found in description text."), w)).
Proof.
  split.
  - intros Hc. destruct (re_search_found _ Hc) as [g Hg].
    exists g. cbn [extract_employee_id]. rewrite Hg.
    split; [reflexivity|]. apply (re_search_sound _ _ Hg).
  - intros Hnot. cbn [extract_employee_id].
    destruct (re_search description) as [g|] eqn:Hg; [|reflexivity].
    exfalso. apply Hnot. apply (re_search_sound _ _ Hg).
Qed.

Lemma employee_id_lookup_fails description w :
  (contains_employee_id description ->
   exists g, extract_employee_id (PStr description) w = (Ok g, w))
  /\ (~ contains_employee_id description ->
      extract_employee_id (PStr description) w
      = (Raise (ValueError "Employee ID not found in description text."), w)).
Proof.
  split.
  - intros Hc. destruct (re_search_found _ Hc) as [g Hg].
    exists g. cbn [extract_employee_id]. now rewrite Hg.
  - intros Hnot. cbn [extract_employee_id].
    destruct (re_search description) as [g|] eqn:Hg; [|reflexivity].
    exfalso. apply Hnot. apply (re_search_sound _ _ Hg).
Qed.

End EmployeeIdProperties.

Section TerminationEdges.
Import Termination.

Variables fs_api_key fs_password fs_domain : string.
Variables apiKey username password company : string.
Variables onePoint_login_domain onePoint_term_report : string.
Variable py_repr : pyval -> string.

#[local] Abbreviation main :=
  (main fs_api_key fs_password fs_domain apiKey username password company
        onePoint_login_domain onePoint_term_report py_repr).
#[local] Abbreviation ticket_request :=
  (ticket_request fs_api_key fs_password fs_domain).
#[local] Abbreviation headers := (get_headers fs_api_key fs_password).
#[local] Abbreviation search_request := (search_request fs_domain headers).
#[local] Abbreviation search_namespace := (search_namespace fs_domain headers).
#[local] Abbreviation fetch_requester_info :=
  (fetch_requester_info fs_api_key fs_password fs_domain).
#[local] Abbreviation fetch_manager_email :=
  (fetch_manager_email fs_api_key fs_password fs_domain).
#[local] Abbreviation requester_lookup := (requester_lookup fs_domain headers).
#[local] Abbreviation create_service_request :=
  (create_service_request fs_api_key fs_password fs_domain py_repr).
#[local] Abbreviation place_request :=
  (place_request fs_api_key fs_password fs_domain py_repr).

Lemma passes_status r :
  passes r -> (400 <=? status_code r) && (status_code r <? 600) = false.
Proof.
  unfold passes. intros H. apply andb_false_iff. rewrite Z.leb_gt, Z.ltb_ge. lia.
Qed.

Lemma error_status r :
  400 <= status_code r < 600 ->
  (400 <=? status_code r) && (status_code r <? 600) = true.
Proof.
  intros H. apply andb_true_iff. rewrite Z.leb_le, Z.ltb_lt. lia.
Qed.

(** X10. For a ticket whose description holds no employee id, [main]
    prints the [ValueError] of [extract_employee_id] and returns: the ticket
    request is the only request, nothing else is looked up or created. *)
Theorem main_without_employee_id_stops
        (ticket_id : Z) (w : world) (r : response)
        (j ticket : pyval) (description : string) :
  server w (length (trace w)) (ticket_request ticket_id) = Reply r ->
  passes r ->
  json_body r = Some j ->
  py_item j "ticket" = inr ticket ->
  py_item ticket "description_text" = inr (PStr description) ->
  ~ contains_employee_id description ->
  main ticket_id w
  = (Ok tt,
     set_stdout
       (stdout w ++ [[Exc (ValueError "Employee ID not found in description text.")]])
       (set_trace (trace w ++ [ticket_request ticket_id]) w)).
Proof.
  intros Hr Hst Hj Hticket Hdesc Hnot.
  unfold Termination.main, fetch_ticket_data.
  fold (Termination.ticket_request fs_api_key fs_password fs_domain ticket_id).
  unfold bind at 1. unfold bind at 1.
  rewrite (http_reply _ _ _ Hr). unfold raise_for_status.
  rewrite (passes_status r Hst).
  unfold bind at 1. cbn [ret]. unfold json. rewrite Hj. cbn [ret].
  rewrite Hticket. unfold bind at 1. cbn [lift ret].
  rewrite Hdesc. unfold bind at 1. cbn [lift ret].
  unfold bind at 1, try_except at 1, bind at 1.
  rewrite (proj2 (employee_id_lookup_fails description _) Hnot).
  reflexivity.
Qed.

(** X11. When the ticket cannot be fetched (status 400 to 599), [main]
    does not print and return as it does for later failures: the
    [HTTPError] of [raise_for_status] leaves [main] uncaught, after the
    one request. *)
Theorem main_raises_when_ticket_fetch_fails
        (ticket_id : Z) (w : world) (r : response) :
  server w (length (trace w)) (ticket_request ticket_id) = Reply r ->
  400 <= status_code r < 600 ->
  main ticket_id w
  = (Raise (HTTPError r), set_trace (trace w ++ [ticket_request ticket_id]) w).
Proof.
  intros Hr Hst.
  unfold Termination.main, fetch_ticket_data.
  fold (Termination.ticket_request fs_api_key fs_password fs_domain ticket_id).
  unfold bind at 1. unfold bind at 1.
  rewrite (http_reply _ _ _ Hr). unfold raise_for_status.
  rewrite (error_status r Hst). reflexivity.
Qed.

(** *** Searching the two namespaces *)

Lemma search_namespace_misses email endpoint field key user_type err w :
  search_misses key
    (server w (length (trace w)) (search_request email endpoint field)) ->
  exists w',
    search_namespace email endpoint field key user_type err w = (Ok None, w')
    /\ trace w' = trace w ++ [search_request email endpoint field]
    /\ server w' = server w.
Proof.
  intros (r & Hr & Hcase).
  unfold Termination.search_namespace, search_api, try_except, bind, print, http.
  fold (Termination.search_request fs_domain headers email endpoint field).
  cbn [fst snd server trace set_stdout]. rewrite Hr. unfold raise_for_status.
  destruct Hcase as [[Herr [content Hc]]|(Hpass & j & found & Hj & Hget & Hfalsy)].
  - rewrite (error_status r Herr). cbn [raise is_HTTPError].
    unfold http_error_report, content_decode, bind, print. rewrite Hc.
    cbn [ret]. eexists.
    split; [reflexivity|]. split; reflexivity.
  - rewrite (passes_status r Hpass). cbn [ret]. unfold json. rewrite Hj.
    cbn [ret]. rewrite Hget. cbn [lift ret]. rewrite Hfalsy. cbn [ret].
    eexists. split; [reflexivity|]. split; reflexivity.
Qed.

Lemma search_namespace_garbled email endpoint field key user_type err w :
  search_garbled
    (server w (length (trace w)) (search_request email endpoint field)) ->
  exists w',
    search_namespace email endpoint field key user_type err w
    = (Raise UnicodeDecodeError, w')
    /\ trace w' = trace w ++ [search_request email endpoint field]
    /\ server w' = server w.
Proof.
  intros (r & Hr & Herr & Hc).
  unfold Termination.search_namespace, search_api, try_except, bind, print, http.
  fold (Termination.search_request fs_domain headers email endpoint field).
  cbn [fst snd server trace set_stdout]. rewrite Hr. unfold raise_for_status.
  rewrite (error_status r Herr). cbn [raise is_HTTPError].
  unfold http_error_report, content_decode, bind, print. rewrite Hc.
  cbn [raise]. eexists. split; [reflexivity|]. split; reflexivity.
Qed.

Lemma search_namespace_finds email endpoint field key user_type err w id mgr :
  search_finds key
    (server w (length (trace w)) (search_request email endpoint field))
    id mgr ->
  exists w',
    search_namespace email endpoint field key user_type err w
    = (Ok (Some (id, mgr, user_type)), w')
    /\ trace w' = trace w ++ [search_request email endpoint field]
    /\ server w' = server w.
Proof.
  intros (r & d & person & others & Hr & Hpass & Hj & Hd & Hid & Hmgr).
  unfold Termination.search_namespace, search_api, try_except, bind, print, http.
  fold (Termination.search_request fs_domain headers email endpoint field).
  cbn [fst snd server trace set_stdout]. rewrite Hr. unfold raise_for_status.
  rewrite (passes_status r Hpass). cbn [ret]. unfold json. rewrite Hj.
  cbn [ret py_get lift]. rewrite Hd. cbn [truthy py_item lift ret].
  rewrite Hd. cbn [py_first lift ret]. rewrite Hid. cbn [lift ret].
  rewrite Hmgr. cbn [lift ret]. eexists. split; [reflexivity|].
  split; reflexivity.
Qed.

(** X12. When the search among requesters finds nobody, be it an empty
    list or an HTTP error whose body decodes as UTF-8,
    [fetch_requester_info] searches the agents by [email], and an agent
    found there is returned with the user type ['agent']; the two searches
    are its only requests. *)
Theorem agent_found_after_requesters_miss
        (email : string) (w : world) (id mgr : pyval) :
  let first := search_request (lower email) "requesters" "primary_email" in
  let second := search_request (lower email) "agents" "email" in
  search_misses "requesters" (server w (length (trace w)) first) ->
  search_finds "agents" (server w (S (length (trace w))) second) id mgr ->
  fst (fetch_requester_info (PStr email) w) = Ok (id, mgr, "agent")
  /\ trace (snd (fetch_requester_info (PStr email) w))
     = trace w ++ [first; second].
Proof.
  intros first second Hmiss Hfind. subst first second.
  unfold Termination.fetch_requester_info, bind.
  destruct (search_namespace_misses _ _ _ _ "requester"
              "Error searching requesters: " _ Hmiss) as (w1 & -> & Ht1 & Hs1).
  assert (Hfind' : search_finds "agents"
            (server w1 (length (trace w1))
               (search_request (lower email) "agents" "email")) id mgr).
  { rewrite Hs1, Ht1, length_app. cbn [length].
    now replace (length (trace w) + 1)%nat with (S (length (trace w))) by lia. }
  destruct (search_namespace_finds _ _ _ _ "agent"
              "Error searching agents: " _ _ _ Hfind') as (w2 & -> & Ht2 & _).
  cbn [fst snd ret]. split; [reflexivity|].
  rewrite Ht2, Ht1, <- app_assoc. reflexivity.
Qed.

(** X13. When neither search finds anybody, [fetch_requester_info] raises
    [ValueError('User not found in both requesters and agents')] after
    exactly the two searches; an error status of a search counts as nobody
    found and is not raised, provided the body of that answer decodes as
    UTF-8 (the handler prints it). *)
Theorem nobody_found_raises_value_error (email : string) (w : world) :
  let first := search_request (lower email) "requesters" "primary_email" in
  let second := search_request (lower email) "agents" "email" in
  search_misses "requesters" (server w (length (trace w)) first) ->
  search_misses "agents" (server w (S (length (trace w))) second) ->
  fst (fetch_requester_info (PStr email) w)
  = Raise (ValueError "User not found in both requesters and agents")
  /\ trace (snd (fetch_requester_info (PStr email) w))
     = trace w ++ [first; second].
Proof.
  intros first second Hmiss1 Hmiss2. subst first second.
  unfold Termination.fetch_requester_info, bind.
  destruct (search_namespace_misses _ _ _ _ "requester"
              "Error searching requesters: " _ Hmiss1) as (w1 & -> & Ht1 & Hs1).
  assert (Hmiss2' : search_misses "agents"
            (server w1 (length (trace w1))
               (search_request (lower email) "agents" "email"))).
  { rewrite Hs1, Ht1, length_app. cbn [length].
    now replace (length (trace w) + 1)%nat with (S (length (trace w))) by lia. }
  destruct (search_namespace_misses _ _ _ _ "agent"
              "Error searching agents: " _ Hmiss2') as (w2 & -> & Ht2 & Hs2).
  cbn [fst snd print raise]. split; [reflexivity|].
  cbn [trace set_stdout]. rewrite Ht2, Ht1, <- app_assoc. reflexivity.
Qed.

(** X14. The first answer decides [fetch_manager_email]: status 200 gives
    the requester's [primary_email]; a status from 400 to 599 other than
    404 raises [HTTPError]; and any other status (a redirect, say) makes
    the function return [None] without an error.  In all three cases the
    requester lookup is the only request. *)
Theorem manager_lookup_by_status (manager_id : pyval) (w : world) (r : response) :
  server w (length (trace w)) (requester_lookup manager_id) = Reply r ->
  status_code r <> 404 ->
  trace (snd (fetch_manager_email manager_id w))
  = trace w ++ [requester_lookup manager_id]
  /\ (forall j requester email,
        status_code r = 200 -> json_body r = Some j ->
        py_item j "requester" = inr requester ->
        py_item requester "primary_email" = inr email ->
        fst (fetch_manager_email manager_id w) = Ok email)
  /\ (400 <= status_code r < 600 ->
      fst (fetch_manager_email manager_id w) = Raise (HTTPError r))
  /\ (status_code r <> 200 -> ~ 400 <= status_code r < 600 ->
      fst (fetch_manager_email manager_id w) = Ok PNone).
Proof.
  intros Hr H404. split; [|split; [|split]].
  - rewrite fetch_manager_email_trace. fold headers. rewrite Hr.
    apply Z.eqb_neq in H404. now rewrite H404.
  - intros j requester email H200 Hj Hreq Hemail.
    unfold Termination.fetch_manager_email, bind, http. rewrite Hr, H200.
    cbn [Z.eqb Pos.eqb]. unfold json. rewrite Hj. cbn [ret].
    rewrite Hreq. cbn [lift ret]. rewrite Hemail. reflexivity.
  - intros Herr.
    unfold Termination.fetch_manager_email, bind, http. rewrite Hr.
    replace (status_code r =? 200) with false by (symmetry; apply Z.eqb_neq; lia).
    apply Z.eqb_neq in H404. rewrite H404.
    cbn [print fst snd]. unfold raise_for_status.
    rewrite (error_status r Herr). reflexivity.
  - intros H200 Hnot.
    unfold Termination.fetch_manager_email, bind, http. rewrite Hr.
    apply Z.eqb_neq in H200, H404. rewrite H200, H404.
    cbn [print fst snd]. unfold raise_for_status.
    replace ((400 <=? status_code r) && (status_code r <? 600)) with false
      by (symmetry; apply andb_false_iff; rewrite Z.leb_gt, Z.ltb_ge; lia).
    reflexivity.
Qed.

(** X15. [create_service_request] sends one POST to item 95 of the service
    catalog, whatever follows; in its payload the [email] is the manager's
    email, or [noreply@hrms.com] when that is [None] or empty, so it is
    never empty.  An answer with an error status is raised as [HTTPError]
    when its body decodes as UTF-8, and as the [UnicodeDecodeError] of the
    handler, which prints the body, when it does not; for any other status
    the id of the new service request is returned. *)
Theorem service_request_is_placed_once
        (requester_id it_deactivation_date manager_email : pyval) (w : world) :
  let post := place_request requester_id it_deactivation_date manager_email in
  trace (snd (create_service_request requester_id it_deactivation_date
                manager_email w))
  = trace w ++ [post]
  /\ (forall r content, server w (length (trace w)) post = Reply r ->
        400 <= status_code r < 600 -> decoded r = Some content ->
        fst (create_service_request requester_id it_deactivation_date
               manager_email w) = Raise (HTTPError r))
  /\ (forall r, server w (length (trace w)) post = Reply r ->
        400 <= status_code r < 600 -> decoded r = None ->
        fst (create_service_request requester_id it_deactivation_date
               manager_email w) = Raise UnicodeDecodeError)
  /\ (forall r j sr id, server w (length (trace w)) post = Reply r ->
        passes r -> json_body r = Some j ->
        py_item j "service_request" = inr sr -> py_item sr "id" = inr id ->
        fst (create_service_request requester_id it_deactivation_date
               manager_email w) = Ok id).
Proof.
  intros post. subst post.
  assert (Hrq : forall w0,
    http (mk_request POST (fs_url fs_domain) (EPlaceRequest 95)
            (BasicAuth fs_api_key fs_password)
            (JsonBody
               (PDict [("quantity", PInt 1);
                       ("email", if negb (truthy manager_email)
                                 then PStr "noreply@hrms.com"
                                 else manager_email);
                       ("custom_fields",
                        PDict [("date_of_change",
                                PStr (py_str py_repr it_deactivation_date));
                               ("untitled", PStr (py_str py_repr requester_id));
                               ("employee_change_type", PStr "Termination")])])))
         w0
    = http (place_request requester_id it_deactivation_date manager_email) w0).
  { intros w0. unfold Termination.place_request.
    destruct (truthy manager_email); reflexivity. }
  unfold Termination.create_service_request, bind, print.
  cbn [fst snd]. rewrite Hrq. unfold http.
  cbn [server trace set_stdout].
  set (post := Termination.place_request fs_api_key fs_password fs_domain
                 py_repr requester_id it_deactivation_date manager_email).
  split; [|split; [|split]].
  - unfold try_except, raise_for_status, content_decode, json, bind, print,
      py_item, lift, raise, ret.
    repeat (cbn [fst snd]; run_case); reflexivity.
  - intros r content Hr Herr Hc. rewrite Hr. cbn [fst snd].
    unfold try_except, raise_for_status. rewrite (error_status r Herr).
    cbn [raise is_HTTPError]. unfold content_decode, bind, print.
    rewrite Hc. reflexivity.
  - intros r Hr Herr Hc. rewrite Hr. cbn [fst snd].
    unfold try_except, raise_for_status. rewrite (error_status r Herr).
    cbn [raise is_HTTPError]. unfold content_decode, bind, print.
    rewrite Hc. reflexivity.
  - intros r j sr id Hr Hpass Hj Hsr Hid. rewrite Hr. cbn [fst snd].
    unfold try_except, raise_for_status. rewrite (passes_status r Hpass).
    cbn [ret]. unfold json. rewrite Hj. cbn [ret]. rewrite Hsr.
    cbn [lift ret]. rewrite Hid. reflexivity.
Qed.

End TerminationEdges.

Section ReportProperties.
Import Termination.

Lemma map_exn_aligned labels rows :
  Forall row_is_aligned rows ->
  exists ds, map_exn (align_row labels) rows = inr ds.
Proof.
  induction 1 as [|row rows (values & vs & Hv & Hvs) _ (ds & IH)].
  - exists []. reflexivity.
  - eexists. cbn [map_exn]. unfold align_row at 1. rewrite Hv, Hvs, IH.
    reflexivity.
Qed.

(** [process_employee_data] on a report, once the report is taken apart. *)
Lemma process_report cols rows w :
  process_employee_data (report cols rows) w
  = (do col_list <- lift (py_iter cols);
     do labels <- lift (map_exn clean_label col_list);
     do employee_data_list <-
       lift (map_exn (align_row labels)
               (match rows with PList l => l | other => [other] end));
     match employee_data_list with
     | [] => raise IndexError
     | employee_data :: _ =>
         do employee_data <- convert_dates date_fields employee_data;
         ret (PDict employee_data)
     end) w.
Proof. reflexivity. Qed.

(** X16. [process_employee_data] uses the first row of the report only:
    further rows, as long as they have columns, change nothing in what it
    returns, prints or does; and a report whose body holds a single row
    that is not wrapped in a list is read like a list of that one row. *)
Theorem only_the_first_row_is_used
        (cols first : pyval) (others : list pyval) (w : world) :
  Forall row_is_aligned others ->
  process_employee_data (report cols (PList (first :: others))) w
  = process_employee_data (report cols (PList [first])) w
  /\ ((forall l, first <> PList l) ->
      process_employee_data (report cols first) w
      = process_employee_data (report cols (PList [first])) w).
Proof.
  intros Hothers. rewrite !process_report. split.
  - unfold bind.
    destruct (lift (py_iter cols) w) as [[col_list| |] w1]; try reflexivity.
    destruct (lift (map_exn clean_label col_list) w1) as [[labels| |] w2];
      try reflexivity.
    cbn [map_exn].
    destruct (align_row labels first) as [e|employee_data]; [reflexivity|].
    destruct (map_exn_aligned labels others Hothers) as [ds ->].
    reflexivity.
  - intros Hnot. destruct first; try reflexivity. now destruct (Hnot l).
Qed.

(** *** The date loop *)


Lemma dict_lookup_set_ne k k' v d :
  k <> k' -> dict_lookup k' (dict_set k v d) = dict_lookup k' d.
Proof.
  intros Hne. induction d as [|[k0 v0] d IH]; cbn.
  - apply String.eqb_neq in Hne. rewrite String.eqb_sym in Hne. now rewrite Hne.
  - destruct (String.eqb k k0) eqn:E; cbn.
    + apply String.eqb_eq in E as <-.
      apply String.eqb_neq in Hne. rewrite String.eqb_sym in Hne.
      now rewrite Hne.
    + now rewrite IH.
Qed.

Lemma convert_date_format_ok s y m d w :
  date_text (strip s) y m d -> valid_date y m d ->
  convert_date_format (PStr s) w = (Ok (iso_date y m d), w).
Proof. apply convert_date_format_any_year. Qed.


Lemma date_fields_nodup : List.NoDup date_fields.
Proof.
  unfold date_fields.
  repeat (constructor; [cbn; intuition discriminate|]). constructor.
Qed.


Lemma convert_date_format_bad s w :
  (forall y m d, ~ (date_text (strip s) y m d /\ valid_date y m d)) ->
  exists e w',
    convert_date_format (PStr s) w = (Raise e, w')
    /\ is_ValueError e = true /\ trace w' = trace w.
Proof.
  intros Hbad. destruct (convert_date_format_rejects s w Hbad) as (e & He & ->).
  eauto.
Qed.

Lemma convert_dates_bad fields : List.NoDup fields -> forall data w,
  (forall f v, In f fields -> dict_lookup f data = Some v ->
               date_value_ok v \/ date_value_bad v) ->
  (exists f v, In f fields /\ dict_lookup f data = Some v /\ date_value_bad v) ->
  exists e w',
    convert_dates fields data w = (Raise e, w')
    /\ is_ValueError e = true /\ trace w' = trace w.
Proof.
  induction 1 as [|f fields Hnotin Hnodup IH]; intros data w Hall Hsome.
  - destruct Hsome as (f & v & [] & _).
  - cbn [convert_dates].
    assert (Hskip : forall data0 w0,
              (forall k, k <> f -> dict_lookup k data0 = dict_lookup k data) ->
              trace w0 = trace w ->
              (exists f' v, In f' fields /\ dict_lookup f' data = Some v
                            /\ date_value_bad v) ->
              exists e w',
                convert_dates fields data0 w0 = (Raise e, w')
                /\ is_ValueError e = true /\ trace w' = trace w).
    { intros data0 w0 Hsame Ht (f' & v & Hin & Hl & Hbad).
      assert (Hne : f' <> f) by (intros ->; contradiction).
      destruct (IH data0 w0) as (e & w' & Hrun & He & Ht').
      - intros g u Hg Hu. apply (Hall g u); [now right|].
        rewrite <- Hsame; [exact Hu|]. intros ->. contradiction.
      - exists f', v. rewrite (Hsame f' Hne). auto.
      - exists e, w'. rewrite Ht' , Ht. auto. }
    destruct (dict_lookup f data) as [v|] eqn:Hf.
    + destruct (Hall f v (or_introl eq_refl) Hf) as [Hok|Hbad].
      * assert (Hlater : exists f' v', In f' fields
                           /\ dict_lookup f' data = Some v'
                           /\ date_value_bad v').
        { destruct Hsome as (f' & v' & [<-|Hin] & Hl & (s & -> & Ht & Hno)).
          - rewrite Hf in Hl. injection Hl as ->.
            destruct Hok as [Hfalsy|(s' & y & m & d & [= ->] & Htext & Hv)].
            + rewrite Ht in Hfalsy. discriminate.
            + destruct (Hno y m d). auto.
          - exists f', (PStr s). split; [exact Hin|]. split; [exact Hl|].
            exists s. auto. }
        destruct Hok as [Hfalsy|(s & y & m & d & -> & Htext & Hvalid)].
        -- rewrite Hfalsy. unfold bind, print. cbn [fst snd].
           apply Hskip; auto.
        -- assert (Htruthy : truthy (PStr s) = true).
           { destruct s as [|c s]; [|reflexivity].
             destruct Htext as (mt & dt & E & _).
             change (strip "") with EmptyString in E.
             destruct mt; discriminate E. }
           rewrite Htruthy. unfold bind, print. cbn [fst snd].
           rewrite (convert_date_format_ok s y m d _ Htext Hvalid).
           apply Hskip; auto.
           intros k Hk. apply dict_lookup_set_ne. auto.
      * destruct Hbad as (s & -> & Ht & Hno). rewrite Ht.
        unfold bind, print. cbn [fst snd].
        match goal with
        | |- context [convert_date_format (PStr s) ?w0] =>
            destruct (convert_date_format_bad s w0 Hno)
              as (e & w' & Hrun & He & Ht')
        end.
        rewrite Hrun. exists e, w'. auto.
    + unfold bind, print. cbn [fst snd]. apply Hskip; auto.
      destruct Hsome as (f' & v' & [<-|Hin] & Hl & Hbad); [congruence|eauto].
Qed.

Lemma text_is_date_or_not v :
  date_value_is_text v -> date_value_ok v \/ date_value_bad v.
Proof.
  intros [Hfalsy|[s ->]]; [left; now left|].
  destruct (truthy (PStr s)) eqn:Ht; [|left; now left].
  destruct (date_text_or_not (strip s)) as [(y & m & d & Htext & Hvalid)|Hno].
  - left. right. exists s, y, m, d. auto.
  - right. exists s. auto.
Qed.

(** X18. One date field that holds a non-empty string which is not the
    text of a valid date is enough to abort: when each of the four date
    fields is absent, empty or a string, whatever it says, and at least one
    is such a string, the date loop of [process_employee_data] raises
    [ValueError], having sent nothing. *)
Theorem malformed_employee_date_aborts
        (data : list (string * pyval)) (w : world) :
  (forall f v, In f date_fields -> dict_lookup f data = Some v ->
               date_value_is_text v) ->
  (exists f v, In f date_fields /\ dict_lookup f data = Some v
               /\ date_value_bad v) ->
  exists e w',
    convert_dates date_fields data w = (Raise e, w')
    /\ is_ValueError e = true /\ trace w' = trace w.
Proof.
  intros Htext. apply convert_dates_bad; [apply date_fields_nodup|].
  intros f v Hin Hl. apply text_is_date_or_not. exact (Htext f v Hin Hl).
Qed.

End ReportProperties.

Section OffboardProperties.
Import Termination.

Variables fs_api_key fs_password fs_domain : string.
Variable py_repr : pyval -> string.

#[local] Abbreviation headers := (get_headers fs_api_key fs_password).
#[local] Abbreviation search_request := (search_request fs_domain headers).
#[local] Abbreviation fetch_requester_info :=
  (fetch_requester_info fs_api_key fs_password fs_domain).
#[local] Abbreviation fetch_manager_email :=
  (fetch_manager_email fs_api_key fs_password fs_domain).
#[local] Abbreviation requester_lookup := (requester_lookup fs_domain headers).
#[local] Abbreviation agent_lookup := (agent_lookup fs_domain headers).
#[local] Abbreviation create_service_request :=
  (create_service_request fs_api_key fs_password fs_domain py_repr).
#[local] Abbreviation place_request :=
  (place_request fs_api_key fs_password fs_domain py_repr).
#[local] Abbreviation offboard :=
  (offboard fs_api_key fs_password fs_domain py_repr).

Lemma fetch_requester_info_nobody email w :
  search_misses "requesters"
    (server w (length (trace w))
       (search_request (lower email) "requesters" "primary_email")) ->
  search_misses "agents"
    (server w (S (length (trace w)))
       (search_request (lower email) "agents" "email")) ->
  exists w',
    fetch_requester_info (PStr email) w
    = (Raise (ValueError "User not found in both requesters and agents"), w')
    /\ trace w'
       = trace w ++ [search_request (lower email) "requesters" "primary_email";
                     search_request (lower email) "agents" "email"].
Proof.
  intros Hmiss1 Hmiss2.
  unfold Termination.fetch_requester_info, bind.
  destruct (search_namespace_misses fs_api_key fs_password fs_domain
              _ _ _ _ "requester" "Error searching requesters: " _ Hmiss1)
    as (w1 & -> & Ht1 & Hs1).
  assert (Hmiss2' : search_misses "agents"
            (server w1 (length (trace w1))
               (search_request (lower email) "agents" "email"))).
  { rewrite Hs1, Ht1, length_app. cbn [length].
    now replace (length (trace w) + 1)%nat with (S (length (trace w))) by lia. }
  destruct (search_namespace_misses fs_api_key fs_password fs_domain
              _ _ _ _ "agent" "Error searching agents: " _ Hmiss2')
    as (w2 & -> & Ht2 & Hs2).
  cbn [print raise]. eexists. split; [reflexivity|].
  cbn [trace set_stdout]. rewrite Ht2, Ht1, <- app_assoc. reflexivity.
Qed.

Lemma fetch_requester_info_requester email w id mgr :
  search_finds "requesters"
    (server w (length (trace w))
       (search_request (lower email) "requesters" "primary_email")) id mgr ->
  exists w',
    fetch_requester_info (PStr email) w = (Ok (id, mgr, "requester"), w')
    /\ trace w'
       = trace w ++ [search_request (lower email) "requesters" "primary_email"]
    /\ server w' = server w.
Proof.
  intros Hfind. unfold Termination.fetch_requester_info, bind.
  destruct (search_namespace_finds fs_api_key fs_password fs_domain
              _ _ _ _ "requester" "Error searching requesters: " _ _ _ Hfind)
    as (w1 & -> & Ht1 & Hs1).
  cbn [ret]. eauto.
Qed.

Lemma fetch_manager_email_fails manager_id w r lookups :
  manager_lookup_fails (server w) (length (trace w))
    (requester_lookup manager_id) (agent_lookup manager_id) r lookups ->
  exists w',
    fetch_manager_email manager_id w = (Raise (HTTPError r), w')
    /\ trace w' = trace w ++ lookups
    /\ server w' = server w.
Proof.
  intros [(Hr & Herr & H404 & ->)|(r0 & Hr0 & H404 & Hr & Herr & ->)].
  - unfold Termination.fetch_manager_email, bind, http. rewrite Hr.
    replace (status_code r =? 200) with false by (symmetry; apply Z.eqb_neq; lia).
    apply Z.eqb_neq in H404. rewrite H404.
    cbn [print fst snd]. unfold raise_for_status.
    replace ((400 <=? status_code r) && (status_code r <? 600)) with true
      by (symmetry; apply andb_true_iff; rewrite Z.leb_le, Z.ltb_lt; lia).
    cbn [raise]. eexists. split; [reflexivity|]. split; reflexivity.
  - unfold Termination.fetch_manager_email, bind, http. rewrite Hr0, H404.
    cbn [Z.eqb Pos.eqb fst snd server trace set_trace].
    rewrite length_app. cbn [length].
    replace (length (trace w) + 1)%nat with (S (length (trace w))) by lia.
    rewrite Hr.
    replace (status_code r =? 200) with false by (symmetry; apply Z.eqb_neq; lia).
    cbn [print fst snd]. unfold raise_for_status.
    replace ((400 <=? status_code r) && (status_code r <? 600)) with true
      by (symmetry; apply andb_true_iff; rewrite Z.leb_le, Z.ltb_lt; lia).
    cbn [raise]. eexists. split; [reflexivity|].
    cbn [trace set_trace set_stdout server]. rewrite <- app_assoc.
    split; reflexivity.
Qed.

(** Whatever the answer, [create_service_request] sends its one request and
    ends; the [HTTPError] it raises, if any, is that of an answer whose
    body its own handler has decoded. *)
Lemma create_service_request_outcome requester_id date manager_email w :
  (forall r, server w (length (trace w))
               (place_request requester_id date manager_email)
             <> Fails (HTTPError r)) ->
  exists o w',
    create_service_request requester_id date manager_email w = (o, w')
    /\ trace w' = trace w ++ [place_request requester_id date manager_email]
    /\ o <> OutOfFuel
    /\ (forall r, o = Raise (HTTPError r) -> exists content, decoded r = Some content).
Proof.
  intros Hnf.
  assert (Hrq : forall w0,
    http (mk_request POST (fs_url fs_domain) (EPlaceRequest 95)
            (BasicAuth fs_api_key fs_password)
            (JsonBody
               (PDict [("quantity", PInt 1);
                       ("email", if negb (truthy manager_email)
                                 then PStr "noreply@hrms.com"
                                 else manager_email);
                       ("custom_fields",
                        PDict [("date_of_change", PStr (py_str py_repr date));
                               ("untitled", PStr (py_str py_repr requester_id));
                               ("employee_change_type", PStr "Termination")])])))
         w0
    = http (place_request requester_id date manager_email) w0).
  { intros w0. unfold Termination.place_request.
    destruct (truthy manager_email); reflexivity. }
  unfold Termination.create_service_request, bind, print.
  cbn [fst snd]. rewrite Hrq. unfold http.
  cbn [server trace set_stdout].
  unfold try_except, raise_for_status, content_decode, json, bind, print,
    py_item, lift, raise, ret.
  repeat (cbn [fst snd]; run_case);
    (eexists; eexists; split; [reflexivity|]; split; [reflexivity|];
     split; [discriminate|]; intros r' Hr'; inversion Hr'; subst;
     first [ eexists; eassumption
           | exfalso; eapply Hnf; reflexivity
           | match goal with
             | H : is_HTTPError (HTTPError _) = false |- _ => discriminate H
             end ]).
Qed.

Lemma offboard_without_requester d email w :
  dict_lookup "Primary Email" d = Some (PStr email) ->
  search_misses "requesters"
    (server w (length (trace w))
       (search_request (lower email) "requesters" "primary_email")) ->
  search_misses "agents"
    (server w (S (length (trace w)))
       (search_request (lower email) "agents" "email")) ->
  exists w',
    offboard (PDict d) w = (Ok tt, w')
    /\ trace w'
       = trace w ++ [search_request (lower email) "requesters" "primary_email";
                     search_request (lower email) "agents" "email"].
Proof.
  intros Hemail Hmiss1 Hmiss2.
  destruct (fetch_requester_info_nobody email w Hmiss1 Hmiss2)
    as (w' & Hrun & Ht).
  unfold Termination.offboard. unfold bind at 1 2 3.
  cbn [py_item py_get lift ret]. rewrite Hemail. cbn [lift ret].
  unfold bind at 1, try_except at 1, bind at 1. rewrite Hrun.
  cbn [is_ValueError]. cbv beta iota delta [bind print ret].
  cbn [truthy negb]. eexists. split; [reflexivity|exact Ht].
Qed.

(** X19. When the employee is found neither among the requesters nor among
    the agents (an error status of a search counting as nobody found when
    the body of the answer decodes as UTF-8), the part of [main] that
    follows the HRMS record places no service request: it returns normally,
    the two searches being its only requests. *)
Theorem no_requester_no_service_request
        (d : list (string * pyval)) (email : string) (w : world) :
  dict_lookup "Primary Email" d = Some (PStr email) ->
  let first := search_request (lower email) "requesters" "primary_email" in
  let second := search_request (lower email) "agents" "email" in
  search_misses "requesters" (server w (length (trace w)) first) ->
  search_misses "agents" (server w (S (length (trace w))) second) ->
  fst (offboard (PDict d) w) = Ok tt
  /\ trace (snd (offboard (PDict d) w)) = trace w ++ [first; second].
Proof.
  intros Hemail first second Hmiss1 Hmiss2. subst first second.
  destruct (offboard_without_requester d email w Hemail Hmiss1 Hmiss2)
    as (w' & -> & Ht).
  split; [reflexivity|exact Ht].
Qed.

Lemma fetch_requester_info_garbled email w :
  search_garbled
    (server w (length (trace w))
       (search_request (lower email) "requesters" "primary_email")) ->
  exists w',
    fetch_requester_info (PStr email) w = (Raise UnicodeDecodeError, w')
    /\ trace w'
       = trace w ++ [search_request (lower email) "requesters" "primary_email"].
Proof.
  intros Hg. unfold Termination.fetch_requester_info, bind.
  destruct (search_namespace_garbled fs_api_key fs_password fs_domain
              _ _ _ "requesters" "requester" "Error searching requesters: " _ Hg)
    as (w1 & -> & Ht1 & _).
  eexists. split; [reflexivity|exact Ht1].
Qed.

Lemma offboard_garbled d email w :
  dict_lookup "Primary Email" d = Some (PStr email) ->
  search_garbled
    (server w (length (trace w))
       (search_request (lower email) "requesters" "primary_email")) ->
  exists w',
    offboard (PDict d) w = (Ok tt, w')
    /\ trace w'
       = trace w ++ [search_request (lower email) "requesters" "primary_email"].
Proof.
  intros Hemail Hg.
  destruct (fetch_requester_info_garbled email w Hg) as (w' & Hrun & Ht).
  unfold Termination.offboard. unfold bind at 1 2 3.
  cbn [py_item py_get lift ret]. rewrite Hemail. cbn [lift ret].
  unfold bind at 1, try_except at 1, bind at 1. rewrite Hrun.
  cbn [is_ValueError]. cbv beta iota delta [bind print ret].
  cbn [truthy negb]. eexists. split; [reflexivity|exact Ht].
Qed.

(** X29. An error answer to the search among requesters whose body is not
    UTF-8 ends the lookup at once: the handler that prints the body raises
    [UnicodeDecodeError], [fetch_requester_info] lets it through and the
    agents are never searched.  The part of [main] that follows the HRMS
    record catches it as a [ValueError], finds itself without a requester
    and returns normally, having placed no service request. *)
Theorem garbled_search_error_stops_the_lookup
        (d : list (string * pyval)) (email : string) (w : world) :
  dict_lookup "Primary Email" d = Some (PStr email) ->
  let first := search_request (lower email) "requesters" "primary_email" in
  search_garbled (server w (length (trace w)) first) ->
  fst (fetch_requester_info (PStr email) w) = Raise UnicodeDecodeError
  /\ trace (snd (fetch_requester_info (PStr email) w)) = trace w ++ [first]
  /\ fst (offboard (PDict d) w) = Ok tt
  /\ trace (snd (offboard (PDict d) w)) = trace w ++ [first].
Proof.
  intros Hemail first Hg. subst first.
  destruct (fetch_requester_info_garbled email w Hg) as (w1 & -> & Ht1).
  destruct (offboard_garbled d email w Hemail Hg) as (w2 & -> & Ht2).
  split; [reflexivity|]. split; [exact Ht1|].
  split; [reflexivity|exact Ht2].
Qed.

(** The run of the part of [main] that follows the HRMS record when the
    lookup of the manager ends in an HTTP error. *)
Lemma offboard_without_manager d email w id mgr r lookups :
  dict_lookup "Primary Email" d = Some (PStr email) ->
  search_finds "requesters"
    (server w (length (trace w))
       (search_request (lower email) "requesters" "primary_email")) id mgr ->
  truthy id = true -> truthy mgr = true ->
  manager_lookup_fails (server w) (S (length (trace w)))
    (requester_lookup mgr) (agent_lookup mgr) r lookups ->
  (forall r',
     server w (S (length (trace w)) + length lookups)%nat
            (place_request id (match dict_lookup "IT Deactivation Date" d with
                               | Some v => v
                               | None => PNone
                               end) PNone)
     <> Fails (HTTPError r')) ->
  exists w',
    offboard (PDict d) w = (Ok tt, w')
    /\ trace w'
       = trace w ++ [search_request (lower email) "requesters" "primary_email"]
         ++ lookups
         ++ match decoded r with
            | Some _ =>
                [place_request id
                   (match dict_lookup "IT Deactivation Date" d with
                    | Some v => v
                    | None => PNone
                    end) PNone]
            | None => []
            end.
Proof.
  intros Hemail Hfind Hid Hmgr Hfails Hnf.
  destruct (fetch_requester_info_requester email w id mgr Hfind)
    as (w1 & Hrun1 & Ht1 & Hs1).
  unfold Termination.offboard. unfold bind at 1 2 3.
  cbn [py_item py_get lift ret]. rewrite Hemail. cbn [lift ret].
  unfold bind at 1, try_except at 1, bind at 1. rewrite Hrun1.
  unfold bind at 1. cbn [print fst snd]. rewrite Hmgr.
  unfold bind at 1, try_except at 1, bind at 1.
  match goal with
  | |- context [Termination.fetch_manager_email _ _ _ mgr ?w2] =>
      destruct (fetch_manager_email_fails mgr w2 r lookups)
        as (w3 & Hrun3 & Ht3 & Hs3);
      [cbn [server trace set_stdout]; rewrite Hs1, Ht1, length_app;
       cbn [length];
       replace (length (trace w) + 1)%nat with (S (length (trace w))) by lia;
       exact Hfails|];
      rewrite Hrun3
  end.
  cbn [is_HTTPError]. unfold http_error_report at 1.
  unfold bind at 1 2. cbn [print fst snd]. unfold content_decode at 1.
  destruct (decoded r) as [content|] eqn:Hdec.
  - cbv beta iota delta [bind print ret]. rewrite Hid. cbn [negb].
    unfold try_except2.
    match goal with
    | |- context [Termination.create_service_request _ _ _ _ id ?dt PNone ?w4] =>
        destruct (create_service_request_outcome id dt PNone w4)
          as (o & w5 & Hrun5 & Ht5 & Hfuel & Hdecoded);
        [cbn [server trace set_stdout]; rewrite Hs3; cbn [server set_stdout];
         rewrite Hs1, Ht3; cbn [trace set_stdout]; rewrite Ht1, !length_app;
         cbn [length];
         replace (length (trace w) + 1 + length lookups)%nat
           with (S (length (trace w)) + length lookups)%nat by lia;
         exact Hnf|];
        rewrite Hrun5
    end.
    assert (Hfinal : trace w5
                     = trace w ++ [search_request (lower email) "requesters"
                                     "primary_email"]
                       ++ lookups
                       ++ [place_request id
                             (match dict_lookup "IT Deactivation Date" d with
                              | Some v => v
                              | None => PNone
                              end) PNone]).
    { rewrite Ht5. cbn [trace set_stdout]. rewrite Ht3.
      cbn [trace set_stdout]. rewrite Ht1.
      rewrite <- !app_assoc. reflexivity. }
    destruct o as [v|e|]; [| |contradiction].
    + eexists. split; [reflexivity|exact Hfinal].
    + destruct e; cbn [is_HTTPError any_exception];
        try (cbv beta iota delta [bind print ret];
             eexists; split; [reflexivity|exact Hfinal]).
      destruct (Hdecoded _ eq_refl) as [content' Hc'].
      unfold http_error_report, content_decode. rewrite Hc'.
      cbv beta iota delta [bind print ret].
      eexists; split; [reflexivity|exact Hfinal].
  - cbn [raise is_ValueError]. cbv beta iota delta [bind print ret].
    cbn [truthy negb]. eexists. split; [reflexivity|].
    cbn [trace set_stdout]. rewrite Ht3. cbn [trace set_stdout]. rewrite Ht1.
    rewrite app_nil_r, <- !app_assoc. reflexivity.
Qed.

(** X20. A manager whose lookup ends in an HTTP error (as requester with a
    status other than 404, or as agent after a 404 as requester) does not
    stop the off-boarding when the body of the error answer decodes as
    UTF-8: the part of [main] that follows the HRMS record goes on without
    a manager email and places the service request with the address
    [noreply@hrms.com]; it returns normally whatever the status and the
    body of the answer to that request, and also when the request fails in
    transit (with anything but an [HTTPError], which [requests.post] itself
    does not raise).  When the body of the manager's error answer is not
    UTF-8, the handler that prints it raises [UnicodeDecodeError], which is
    caught as a [ValueError]: the run returns normally as well, but places
    no service request. *)
Theorem failed_manager_lookup_uses_default_email
        (d : list (string * pyval)) (email : string) (w : world)
        (id mgr : pyval) (r : response) (lookups : list request) :
  dict_lookup "Primary Email" d = Some (PStr email) ->
  let date := match dict_lookup "IT Deactivation Date" d with
              | Some v => v
              | None => PNone
              end in
  let first := search_request (lower email) "requesters" "primary_email" in
  let post := place_request id date PNone in
  search_finds "requesters" (server w (length (trace w)) first) id mgr ->
  truthy id = true -> truthy mgr = true ->
  manager_lookup_fails (server w) (S (length (trace w)))
    (requester_lookup mgr) (agent_lookup mgr) r lookups ->
  (forall r', server w (S (length (trace w)) + length lookups)%nat post
              <> Fails (HTTPError r')) ->
  fst (offboard (PDict d) w) = Ok tt
  /\ (forall content, decoded r = Some content ->
        trace (snd (offboard (PDict d) w))
        = trace w ++ [first] ++ lookups ++ [post])
  /\ (decoded r = None ->
        trace (snd (offboard (PDict d) w)) = trace w ++ [first] ++ lookups)
  /\ body post
     = JsonBody
         (PDict [("quantity", PInt 1);
                 ("email", PStr "noreply@hrms.com");
                 ("custom_fields",
                  PDict [("date_of_change", PStr (py_str py_repr date));
                         ("untitled", PStr (py_str py_repr id));
                         ("employee_change_type", PStr "Termination")])]).
Proof.
  intros Hemail date first post Hfind Hid Hmgr Hfails Hnf.
  subst first post date.
  destruct (offboard_without_manager d email w id mgr r lookups
              Hemail Hfind Hid Hmgr Hfails Hnf) as (w' & -> & Ht).
  split; [reflexivity|]. split; [|split; [|reflexivity]].
  - intros content Hc. cbn [snd]. rewrite Ht, Hc. reflexivity.
  - intros Hc. cbn [snd]. rewrite Ht, Hc, app_nil_r. reflexivity.
Qed.

End OffboardProperties.

(** ** term_ticket_assets_note.py: the whole run *)

Section NoteScriptProperties.
Import TicketAssetsNote.

Variables fs_api_key fs_password fs_domain : string.
Variable py_repr : pyval -> string.

#[local] Abbreviation main := (TicketAssetsNote.main fs_api_key fs_password fs_domain py_repr).
#[local] Abbreviation collect_assets :=
  (TicketAssetsNote.collect_assets (fs_domain) (get_headers fs_api_key fs_password)).
#[local] Abbreviation create_html_body := (TicketAssetsNote.create_html_body py_repr).
#[local] Abbreviation items_request :=
  (TicketAssetsNote.items_request fs_api_key fs_password fs_domain).
#[local] Abbreviation assets_request :=
  (TicketAssetsNote.assets_request fs_api_key fs_password fs_domain).
#[local] Abbreviation type_request :=
  (TicketAssetsNote.type_request fs_api_key fs_password fs_domain).
#[local] Abbreviation type_requests :=
  (TicketAssetsNote.type_requests fs_api_key fs_password fs_domain).
#[local] Abbreviation note_request :=
  (TicketAssetsNote.note_request fs_api_key fs_password fs_domain).
#[local] Abbreviation link_request :=
  (TicketAssetsNote.link_request fs_api_key fs_password fs_domain).
#[local] Abbreviation types_served :=
  (TicketAssetsNote.types_served fs_api_key fs_password fs_domain).
#[local] Abbreviation writes_in_order :=
  (TicketAssetsNote.writes_in_order fs_api_key fs_password fs_domain).

Lemma collect_assets_run assets : forall types acc w,
  types_served (server w) (length (trace w)) assets types ->
  collect_assets (map PDict assets) acc w
  = (Ok (acc ++ entries assets types),
     set_trace (trace w ++ type_requests assets) w).
Proof.
  induction assets as [|a assets IH]; intros [|t types] acc w Hs;
    cbn [types_served] in Hs; try contradiction.
  - cbn. rewrite !app_nil_r. destruct w; reflexivity.
  - destruct Hs as ((r & d & Hr & Hj & Ht) & Hs).
    cbn [map TicketAssetsNote.collect_assets].
    unfold bind at 1. cbn [py_get lift ret].
    unfold bind at 1, get_asset_type at 1, bind at 1.
    unfold TicketAssetsNote.type_request, field in Hr.
    rewrite (http_reply _ _ _ Hr). unfold json. rewrite Hj. cbn [ret].
    unfold bind at 1. cbn [lift ret].
    unfold bind at 1. cbn [py_item lift ret]. rewrite Ht. cbn [lift ret].
    unfold bind at 1. cbn [lift ret].
    rewrite (IH types).
    + cbn [entries type_requests map trace set_trace server].
      rewrite <- !app_assoc. reflexivity.
    + cbn [trace set_trace server]. rewrite length_app. cbn [length].
      now replace (length (trace w) + 1)%nat with (S (length (trace w))) by lia.
Qed.

Lemma types_served_length srv assets : forall n types,
  types_served srv n assets types -> length types = length assets.
Proof.
  induction assets as [|a assets IH]; intros n [|t types] Hs;
    cbn [types_served] in Hs; try contradiction; [reflexivity|].
  cbn [length]. f_equal. now apply (IH (S n)).
Qed.

Lemma entries_tags assets : forall types,
  length types = length assets ->
  Forall2 (fun a t => py_item a "asset_tag" = inr t)
          (entries assets types) (map (field "asset_tag") assets).
Proof.
  induction assets as [|a assets IH]; intros [|t types] Hlen;
    cbn [length] in Hlen; try discriminate; cbn [entries map]; constructor.
  - reflexivity.
  - apply IH. lia.
Qed.

Lemma fetch_json_run (rq : request) (w : world) r v :
  server w (length (trace w)) rq = Reply r ->
  json_body r = Some v ->
  (do response <- http rq; json response) w
  = (Ok v, set_trace (trace w ++ [rq]) w).
Proof.
  intros Hr Hj. unfold bind. rewrite (http_reply _ _ _ Hr).
  unfold json. now rewrite Hj.
Qed.

(** The answer that a hypothesis gives for the call the run has reached. *)
Ltac served H :=
  cbn [server trace set_stdout set_trace];
  unfold TicketAssetsNote.type_requests;
  rewrite ?length_app, ?length_map; cbn [length];
  match type of H with
  | server _ ?m _ = _ =>
      match goal with
      | |- server _ ?n _ = _ => replace n with m by lia
      end
  end; exact H.

(** The run of [main] when every query is answered as the script expects. *)
Lemma main_run ticket_id w name assets types html rn rl :
  names_employee (server w (length (trace w)) (items_request ticket_id)) name ->
  truthy name = true ->
  lists_assets (server w (S (length (trace w))) (assets_request name)) assets ->
  types_served (server w) (S (S (length (trace w)))) assets types ->
  create_html_body (entries assets types) = inr html ->
  server w (length assets + 2 + length (trace w))%nat
         (note_request ticket_id html) = Reply rn ->
  server w (length assets + 3 + length (trace w))%nat
         (link_request ticket_id (map (field "asset_tag") assets)) = Reply rl ->
  exists w',
    main ticket_id w = (Ok tt, w')
    /\ trace w'
       = trace w ++ [items_request ticket_id; assets_request name]
         ++ type_requests assets
         ++ [note_request ticket_id html;
             link_request ticket_id (map (field "asset_tag") assets)]
    /\ stdout w'
       = stdout w
         ++ [[Lit "User Name: "; Val name];
             [Val (PInt (status_code rn)); Lit " "; Val (PStr (text rn))];
             [Lit "Ticket updated with assets: "; Val (PInt (status_code rl));
              Lit ", "; Val (PStr (text rl))]].
Proof.
  intros (r0 & d0 & first & rest & item & fields & Hr0 & Hj0 & Hitems & -> & Hcf
          & Hname) Hname_true (r1 & d1 & Hr1 & Hj1 & Hlisted) Htypes Hhtml
         Hrn Hrl.
  unfold TicketAssetsNote.main.
  unfold fetch_requested_items.
  rewrite (bind_ok _ _ _ _ _ (fetch_json_run _ _ _ _ Hr0 Hj0)).
  unfold bind at 1. cbn [lift py_in ret]. rewrite Hitems. cbn [ret].
  unfold bind at 1 2. cbn [lift py_item ret]. rewrite Hitems.
  cbn [lift ret truthy].
  unfold bind at 1. cbn [ret].
  unfold bind at 1. cbn [lift py_first ret].
  unfold bind at 1. cbn [lift py_item ret]. rewrite Hcf. cbn [lift ret].
  unfold bind at 1. cbn [lift py_get ret]. fold (field "untitled" fields).
  rewrite Hname, Hname_true.
  unfold bind at 1. cbn [print].
  unfold fetch_assets.
  erewrite (bind_ok (do response <- http _; json response));
    [|apply (fetch_json_run _ _ r1 (PDict d1)); [served Hr1|exact Hj1]].
  unfold bind at 1. cbn [lift py_get ret]. rewrite Hlisted.
  unfold bind at 1. cbn [lift py_iter ret].
  erewrite (bind_ok (TicketAssetsNote.collect_assets _ _ _ _));
    [|apply (collect_assets_run assets types);
      cbn [server trace set_stdout set_trace]; rewrite !length_app;
      cbn [length];
      replace (length (trace w) + 1 + 1)%nat
        with (S (S (length (trace w)))) by lia;
      exact Htypes].
  cbn [app]. unfold bind at 1. rewrite Hhtml. cbn [lift ret].
  unfold add_note_to_ticket.
  unfold bind at 1 2.
  erewrite http_reply by served Hrn.
  cbn [ret]. unfold bind at 1. cbn [print].
  unfold update_ticket_with_assets. unfold bind at 1 2.
  rewrite (map_exn_stubs _ _ (entries_tags assets types
                                (types_served_length _ _ _ _ Htypes))).
  cbn [lift ret]. unfold bind at 1.
  erewrite http_reply by served Hrl.
  cbn [ret print]. eexists. split; [reflexivity|].
  cbn [trace stdout set_trace set_stdout]. rewrite <- !app_assoc.
  split; reflexivity.
Qed.

(** X21. When every query is answered as the script expects, [main] sends,
    in this order: the requested-items query, the assets query for the
    employee named by the first item, one asset-type query per asset (none
    is shared between assets of the same type), the note, and the PUT whose
    asset list holds one [display_id] stub per asset.  The status of the
    answers to the note and to the PUT is printed, never tested: the run
    ends normally whatever they are. *)
Theorem assets_are_noted_then_linked
        (ticket_id : Z) (w : world) (name : pyval)
        (assets : list (list (string * pyval))) (types : list pyval)
        (html : string) (rn rl : response) :
  names_employee (server w (length (trace w)) (items_request ticket_id)) name ->
  truthy name = true ->
  lists_assets (server w (S (length (trace w))) (assets_request name)) assets ->
  types_served (server w) (S (S (length (trace w)))) assets types ->
  create_html_body (entries assets types) = inr html ->
  server w (length assets + 2 + length (trace w))%nat
         (note_request ticket_id html) = Reply rn ->
  server w (length assets + 3 + length (trace w))%nat
         (link_request ticket_id (map (field "asset_tag") assets)) = Reply rl ->
  fst (main ticket_id w) = Ok tt
  /\ trace (snd (main ticket_id w))
     = trace w ++ [items_request ticket_id; assets_request name]
       ++ type_requests assets
       ++ [note_request ticket_id html;
           link_request ticket_id (map (field "asset_tag") assets)]
  /\ stdout (snd (main ticket_id w))
     = stdout w
       ++ [[Lit "User Name: "; Val name];
           [Val (PInt (status_code rn)); Lit " "; Val (PStr (text rn))];
           [Lit "Ticket updated with assets: "; Val (PInt (status_code rl));
            Lit ", "; Val (PStr (text rl))]].
Proof.
  intros Hname Htrue Hassets Htypes Hhtml Hrn Hrl.
  destruct (main_run ticket_id w name assets types html rn rl
              Hname Htrue Hassets Htypes Hhtml Hrn Hrl) as (w' & -> & Ht & Ho).
  split; [reflexivity|]. split; [exact Ht|exact Ho].
Qed.

(** X22. An answer to the assets query that carries no [assets] key (the
    JSON body of an error, for instance: the status is not looked at) is
    read as an empty list: [main] still posts the note, with an empty
    [<ul>], and still sends the PUT, whose asset list is empty. *)
Theorem answer_without_assets_empties_the_list
        (ticket_id : Z) (w : world) (name : pyval)
        (r : response) (d : list (string * pyval)) (rn rl : response) :
  names_employee (server w (length (trace w)) (items_request ticket_id)) name ->
  truthy name = true ->
  server w (S (length (trace w))) (assets_request name) = Reply r ->
  json_body r = Some (PDict d) ->
  dict_lookup "assets" d = None ->
  let note := note_request ticket_id "<p>Assets to be collected:</p><ul></ul>" in
  let link := link_request ticket_id [] in
  server w (2 + length (trace w))%nat note = Reply rn ->
  server w (3 + length (trace w))%nat link = Reply rl ->
  fst (main ticket_id w) = Ok tt
  /\ trace (snd (main ticket_id w))
     = trace w ++ [items_request ticket_id; assets_request name; note; link]
  /\ body link = JsonBody (PDict [("assets", PList [])]).
Proof.
  intros Hname Htrue Hr Hj Hnone note link Hrn Hrl. subst note link.
  destruct (main_run ticket_id w name [] []
              "<p>Assets to be collected:</p><ul></ul>" rn rl Hname Htrue)
    as (w' & -> & Ht & _).
  - exists r, d. rewrite Hnone. auto.
  - exact I.
  - reflexivity.
  - exact Hrn.
  - exact Hrl.
  - split; [reflexivity|]. split; [exact Ht|reflexivity].
Qed.

(** X23. When the answer to the requested-items query is a JSON object
    without the key [requested_items], or with an empty or null value
    under it, [main] says so and ends normally: the query is its only
    request, whatever the status of the answer. *)
Theorem missing_requested_items_sends_one_query
        (ticket_id : Z) (w : world) (r : response) (d : list (string * pyval)) :
  server w (length (trace w)) (items_request ticket_id) = Reply r ->
  json_body r = Some (PDict d) ->
  (forall v, dict_lookup "requested_items" d = Some v -> truthy v = false) ->
  main ticket_id w
  = (Ok tt,
     set_stdout (stdout w ++ [[Lit "requested_items not found or empty"]])
       (set_trace (trace w ++ [items_request ticket_id]) w)).
Proof.
  intros Hr Hj Hempty.
  unfold TicketAssetsNote.main, fetch_requested_items.
  rewrite (bind_ok _ _ _ _ _ (fetch_json_run _ _ _ _ Hr Hj)).
  unfold bind at 1. cbn [lift py_in ret].
  destruct (dict_lookup "requested_items" d) as [v|] eqn:Hv.
  - unfold bind at 1 2. cbn [lift py_item ret]. rewrite Hv. cbn [lift ret].
    rewrite (Hempty v eq_refl). reflexivity.
  - unfold bind at 1. cbn [ret]. reflexivity.
Qed.

(** X24. When the first requested item carries no employee reference (its
    custom field [untitled] is missing, null or empty), [main] says so and
    ends normally: no asset is looked up and nothing is written to the
    ticket. *)
Theorem missing_employee_name_sends_one_query
        (ticket_id : Z) (w : world) (name : pyval) :
  names_employee (server w (length (trace w)) (items_request ticket_id)) name ->
  truthy name = false ->
  main ticket_id w
  = (Ok tt,
     set_stdout (stdout w ++ [[Lit "employee_name not found in custom_fields"]])
       (set_trace (trace w ++ [items_request ticket_id]) w)).
Proof.
  intros (r0 & d0 & first & rest & item & fields & Hr0 & Hj0 & Hitems & -> & Hcf
          & Hname) Hfalse.
  unfold TicketAssetsNote.main, fetch_requested_items.
  rewrite (bind_ok _ _ _ _ _ (fetch_json_run _ _ _ _ Hr0 Hj0)).
  unfold bind at 1. cbn [lift py_in ret]. rewrite Hitems. cbn [ret].
  unfold bind at 1 2. cbn [lift py_item ret]. rewrite Hitems.
  cbn [lift ret truthy].
  unfold bind at 1. cbn [ret].
  unfold bind at 1. cbn [lift py_first ret].
  unfold bind at 1. cbn [lift py_item ret]. rewrite Hcf. cbn [lift ret].
  unfold bind at 1. cbn [lift py_get ret]. fold (field "untitled" fields).
  rewrite Hname, Hfalse. reflexivity.
Qed.

Lemma collect_assets_missing_type pre : forall types a post acc w r d,
  types_served (server w) (length (trace w)) pre types ->
  server w (length pre + length (trace w))%nat
         (type_request (field "asset_type_id" a)) = Reply r ->
  json_body r = Some (PDict d) ->
  dict_lookup "asset_type" d = None ->
  collect_assets (map PDict (pre ++ a :: post)) acc w
  = (Raise (KeyError (PStr "asset_type")),
     set_trace (trace w ++ type_requests (pre ++ [a])) w).
Proof.
  induction pre as [|p pre IH]; intros [|t types] a post acc w r d Hs Hr Hj Hd;
    cbn [types_served] in Hs; try contradiction.
  - cbn [app map TicketAssetsNote.collect_assets].
    unfold bind at 1. cbn [py_get lift ret].
    unfold bind at 1, get_asset_type at 1, bind at 1.
    unfold TicketAssetsNote.type_request, field in Hr. cbn [length Nat.add] in Hr.
    rewrite (http_reply _ _ _ Hr). unfold json. rewrite Hj. cbn [ret].
    unfold bind at 1. cbn [lift ret].
    unfold bind at 1. cbn [py_item lift]. rewrite Hd. reflexivity.
  - destruct Hs as ((r' & d' & Hr' & Hj' & Ht') & Hs).
    cbn [app map TicketAssetsNote.collect_assets].
    unfold bind at 1. cbn [py_get lift ret].
    unfold bind at 1, get_asset_type at 1, bind at 1.
    unfold TicketAssetsNote.type_request, field in Hr'.
    rewrite (http_reply _ _ _ Hr'). unfold json. rewrite Hj'. cbn [ret].
    unfold bind at 1. cbn [lift ret].
    unfold bind at 1. cbn [py_item lift ret]. rewrite Ht'. cbn [lift ret].
    unfold bind at 1. cbn [lift ret].
    rewrite (IH types a post _ _ r d).
    + cbn [type_requests map app trace set_trace server].
      rewrite <- !app_assoc. reflexivity.
    + cbn [trace set_trace server]. rewrite length_app. cbn [length].
      now replace (length (trace w) + 1)%nat with (S (length (trace w))) by lia.
    + cbn [trace set_trace server]. rewrite length_app. cbn [length].
      replace (length pre + (length (trace w) + 1))%nat
        with (length (p :: pre) + length (trace w))%nat by (cbn [length]; lia).
      exact Hr.
    + exact Hj.
    + exact Hd.
Qed.

(** X25. The answer to an asset-type query is subscripted with
    [asset_type] unguarded: when the answer for some asset is a JSON object
    without that key, [main] ends with [KeyError('asset_type')] right after
    that query.  The types of the later assets are not asked for, and
    neither the note nor the asset list is sent. *)
Theorem asset_type_answer_without_type_stops_the_run
        (ticket_id : Z) (w : world) (name : pyval)
        (pre : list (list (string * pyval))) (a : list (string * pyval))
        (post : list (list (string * pyval))) (types : list pyval)
        (r : response) (d : list (string * pyval)) :
  names_employee (server w (length (trace w)) (items_request ticket_id)) name ->
  truthy name = true ->
  lists_assets (server w (S (length (trace w))) (assets_request name))
               (pre ++ a :: post) ->
  types_served (server w) (S (S (length (trace w)))) pre types ->
  server w (length pre + 2 + length (trace w))%nat
         (type_request (field "asset_type_id" a)) = Reply r ->
  json_body r = Some (PDict d) ->
  dict_lookup "asset_type" d = None ->
  main ticket_id w
  = (Raise (KeyError (PStr "asset_type")),
     set_stdout (stdout w ++ [[Lit "User Name: "; Val name]])
       (set_trace (trace w ++ [items_request ticket_id; assets_request name]
                   ++ type_requests (pre ++ [a])) w)).
Proof.
  intros (r0 & d0 & first & rest & item & fields & Hr0 & Hj0 & Hitems & -> & Hcf
          & Hname) Hname_true (r1 & d1 & Hr1 & Hj1 & Hlisted) Htypes Hr Hj Hd.
  unfold TicketAssetsNote.main.
  unfold fetch_requested_items.
  rewrite (bind_ok _ _ _ _ _ (fetch_json_run _ _ _ _ Hr0 Hj0)).
  unfold bind at 1. cbn [lift py_in ret]. rewrite Hitems. cbn [ret].
  unfold bind at 1 2. cbn [lift py_item ret]. rewrite Hitems.
  cbn [lift ret truthy].
  unfold bind at 1. cbn [ret].
  unfold bind at 1. cbn [lift py_first ret].
  unfold bind at 1. cbn [lift py_item ret]. rewrite Hcf. cbn [lift ret].
  unfold bind at 1. cbn [lift py_get ret]. fold (field "untitled" fields).
  rewrite Hname, Hname_true.
  unfold bind at 1. cbn [print].
  unfold fetch_assets.
  erewrite (bind_ok (do response <- http _; json response));
    [|apply (fetch_json_run _ _ r1 (PDict d1)); [served Hr1|exact Hj1]].
  unfold bind at 1. cbn [lift py_get ret]. rewrite Hlisted.
  unfold bind at 1. cbn [lift py_iter ret].
  unfold bind at 1.
  erewrite (collect_assets_missing_type pre types a post);
    [| |served Hr|exact Hj|exact Hd].
  - cbn [trace stdout set_trace set_stdout server]. rewrite <- !app_assoc.
    reflexivity.
  - cbn [server trace set_stdout set_trace]. rewrite !length_app.
    cbn [length].
    replace (length (trace w) + 1 + 1)%nat
      with (S (S (length (trace w)))) by lia.
    exact Htypes.
Qed.

Lemma collect_assets_gets items : forall acc w,
  exists gets,
    trace (snd (collect_assets items acc w)) = trace w ++ gets
    /\ Forall (fun rq => meth rq = GET) gets.
Proof.
  induction items as [|a items IH]; intros acc w.
  - exists []. cbn. rewrite app_nil_r. split; [reflexivity|constructor].
  - cbn [TicketAssetsNote.collect_assets].
    unfold get_asset_type, bind, http, json, lift, raise, ret.
    repeat run_case;
      repeat match goal with
             | H : (_, _) = (_, _) |- _ => inversion H; subst; clear H
             end;
      cbn [fst snd trace set_trace];
      try (exists []; rewrite app_nil_r; split; [reflexivity|constructor]);
      try (eexists [_]; split; [reflexivity|repeat constructor]).
    all: match goal with
         | |- context [TicketAssetsNote.collect_assets _ _ _ ?acc' ?w'] =>
             destruct (IH acc' w') as (gets & Ht & Hg)
         end.
    all: rewrite Ht; cbn [trace set_trace]; rewrite <- app_assoc.
    all: eexists (_ :: gets); split; [reflexivity|].
    all: constructor; [reflexivity|exact Hg].
Qed.

Lemma map_exn_stubs_inv (assets stubs : list pyval) :
  map_exn asset_stub assets = inr stubs ->
  exists tags, stubs = map (fun t => PDict [("display_id", t)]) tags.
Proof.
  revert stubs. induction assets as [|a assets IH]; intros stubs H.
  - cbn in H. injection H as <-. now exists [].
  - cbn [map_exn] in H. unfold asset_stub at 1 in H.
    destruct (py_item a "asset_tag") as [e|t]; [discriminate|].
    destruct (map_exn asset_stub assets) as [e|rest]; [discriminate|].
    injection H as <-. destruct (IH rest eq_refl) as (tags & ->).
    now exists (t :: tags).
Qed.

(** X26. Whatever the server answers, the requests of [main] are a run of
    GETs, the first of them the requested-items query, followed by at most
    two writes: the note on the ticket and then the PUT of its asset list.
    The PUT is never sent without the note before it, and nothing is read
    after a write. *)
Theorem main_reads_then_writes (ticket_id : Z) (w : world) :
  exists gets writes,
    trace (snd (main ticket_id w))
    = trace w ++ items_request ticket_id :: gets ++ writes
    /\ Forall (fun rq => meth rq = GET) gets
    /\ writes_in_order ticket_id writes.
Proof.
  unfold TicketAssetsNote.main, fetch_requested_items, fetch_assets,
    add_note_to_ticket, update_ticket_with_assets.
  unfold bind, http, json, lift, raise, ret, print.
  repeat run_case;
    repeat match goal with
           | H : (_, _) = (_, _) |- _ => inversion H; subst; clear H
           end.
  all: try match goal with
           | H : TicketAssetsNote.collect_assets _ _ ?each ?acc ?w1 = (_, _) |- _ =>
               destruct (collect_assets_gets each acc w1) as (looked & Hl & Hg);
               rewrite H in Hl; cbn [snd trace set_trace set_stdout] in Hl
           end.
  all: try match goal with
           | H : map_exn asset_stub _ = inr _ |- _ =>
               destruct (map_exn_stubs_inv _ _ H) as (tags & ->)
           end.
  all: cbn [snd trace set_trace set_stdout]; try rewrite Hl;
    rewrite <- ?app_assoc; cbn [app].
  all: eexists; eexists; split;
    [lazymatch goal with
     | |- _ ++ _ :: ?a :: ?g ++ [?n; ?l] = _ ++ _ :: ?G ++ ?W =>
         unify G (a :: g); unify W [n; l]
     | |- _ ++ _ :: ?a :: ?g ++ [?n] = _ ++ _ :: ?G ++ ?W =>
         unify G (a :: g); unify W [n]
     | |- _ ++ _ :: ?r = _ ++ _ :: ?G ++ ?W =>
         unify G r; unify W (@nil request); rewrite app_nil_r
     end; reflexivity
    |split; [repeat constructor; try assumption|]].
  all: unfold TicketAssetsNote.writes_in_order, is_note, is_link.
  all: first [ left; reflexivity
             | right; left; eexists; split; [reflexivity|];
               eexists; reflexivity
             | right; right; eexists; eexists; split; [reflexivity|];
               split; eexists; reflexivity ].
Qed.

End NoteScriptProperties.

(** ** freshservice_hrms_termination.py: the HRMS calls *)

Section HrmsProperties.
Import Termination.

Variables apiKey username password company : string.
Variables onePoint_login_domain onePoint_term_report : string.

#[local] Abbreviation login_hrms :=
  (login_hrms apiKey username password company onePoint_login_domain).
#[local] Abbreviation login_request :=
  (login_request apiKey username password company onePoint_login_domain).
#[local] Abbreviation fetch_employee_data :=
  (fetch_employee_data onePoint_term_report).
#[local] Abbreviation report_request := (report_request onePoint_term_report).

Lemma raise_for_status_ok r :
  ~ (400 <= status_code r < 600) -> raise_for_status r = ret tt.
Proof.
  intros H. unfold raise_for_status.
  destruct ((400 <=? status_code r) && (status_code r <? 600)) eqn:E;
    [|reflexivity].
  apply andb_true_iff in E. rewrite Z.leb_le, Z.ltb_lt in E. lia.
Qed.

Lemma raise_for_status_error r :
  400 <= status_code r < 600 -> raise_for_status r = raise (HTTPError r).
Proof.
  intros H. unfold raise_for_status.
  replace ((400 <=? status_code r) && (status_code r <? 600)) with true;
    [reflexivity|].
  symmetry. apply andb_true_iff. rewrite Z.leb_le, Z.ltb_lt. lia.
Qed.

(** X27. [login_hrms] returns a value exactly when the login answer has a
    status outside 400..599 and a JSON object with the key [token]; the
    value is then what that key holds.  A token in the body of an error
    answer is never returned. *)
Theorem login_returns_exactly_the_token (w : world) (t : pyval) :
  fst (login_hrms w) = Ok t
  <-> exists r d,
        server w (length (trace w)) login_request = Reply r
        /\ ~ (400 <= status_code r < 600)
        /\ json_body r = Some (PDict d)
        /\ dict_lookup "token" d = Some t.
Proof.
  unfold Termination.login_hrms. unfold bind at 1. unfold http.
  fold login_request.
  destruct (server w (length (trace w)) login_request) as [r|e] eqn:Hr.
  - destruct (Z_le_dec 400 (status_code r)) as [Hlo|Hlo];
      [destruct (Z_lt_dec (status_code r) 600) as [Hhi|Hhi]|].
    + unfold bind at 1. rewrite raise_for_status_error by lia. cbn [raise fst].
      split; [discriminate|].
      intros (r' & d & Hr' & Hok & _). injection Hr' as <-. lia.
    + unfold bind at 1. rewrite raise_for_status_ok by lia. cbn [ret].
      unfold bind at 1, json.
      destruct (json_body r) as [[| | | | |d]|] eqn:Hj; cbn [ret raise lift py_item fst];
        try (split; [discriminate|];
             intros (r' & d' & Hr' & _ & Hj' & _); injection Hr' as <-;
             congruence).
      destruct (dict_lookup "token" d) as [v|] eqn:Hv; cbn [lift ret raise fst].
      * split.
        -- intros H. injection H as <-. exists r, d. repeat split; auto. lia.
        -- intros (r' & d' & Hr' & _ & Hj' & Hv'). injection Hr' as <-.
           congruence.
      * split; [discriminate|].
        intros (r' & d' & Hr' & _ & Hj' & Hv'). injection Hr' as <-.
        congruence.
    + unfold bind at 1. rewrite raise_for_status_ok by lia. cbn [ret].
      unfold bind at 1, json.
      destruct (json_body r) as [[| | | | |d]|] eqn:Hj; cbn [ret raise lift py_item fst];
        try (split; [discriminate|];
             intros (r' & d' & Hr' & _ & Hj' & _); injection Hr' as <-;
             congruence).
      destruct (dict_lookup "token" d) as [v|] eqn:Hv; cbn [lift ret raise fst].
      * split.
        -- intros H. injection H as <-. exists r, d. repeat split; auto. lia.
        -- intros (r' & d' & Hr' & _ & Hj' & Hv'). injection Hr' as <-.
           congruence.
      * split; [discriminate|].
        intros (r' & d' & Hr' & _ & Hj' & Hv'). injection Hr' as <-.
        congruence.
  - cbn [fst]. split; [discriminate|].
    intros (r' & d & Hr' & _). discriminate.
Qed.

(** X28. [fetch_employee_data] sends one POST that carries the token as a
    bearer credential and the employee id as the only filter value.  When
    the answer has a status outside 400..599 and parses to a document, the
    document is returned if it has a [result] and the call raises
    [ValueError('No result found in the response')] if it has none. *)
Theorem employee_report_needs_a_result
        (employee_id : string) (token : pyval) (w : world)
        (r : response) (d : list (string * pyval)) :
  server w (length (trace w)) (report_request employee_id token) = Reply r ->
  ~ (400 <= status_code r < 600) ->
  xml_body r = Some (PDict d) ->
  fetch_employee_data employee_id token w
  = (match dict_lookup "result" d with
     | Some _ => Ok (PDict d)
     | None => Raise (ValueError "No result found in the response")
     end,
     set_trace (trace w ++ [report_request employee_id token]) w).
Proof.
  intros Hr Hok Hx.
  unfold Termination.fetch_employee_data. unfold bind at 1.
  unfold Termination.report_request in Hr. rewrite (http_reply _ _ _ Hr).
  unfold bind at 1. rewrite raise_for_status_ok by exact Hok. cbn [ret].
  unfold bind at 1, xml_parse. rewrite Hx. cbn [ret].
  unfold bind at 1. cbn [lift has_key ret].
  destruct (dict_lookup "result" d); reflexivity.
Qed.

End HrmsProperties.

(** ** Further examples *)

Section MoreExamples.

(** A record without ids is written without a single lookup. *)
Lemma record_without_ids_costs_no_call_witness :
  trace (snd (ContractAssets.write_asset_row acme acme_key lease_csv
                (PDict loose_asset) (world_with_csv broken_directory_server)))
  = [].
Proof.
  rewrite (record_without_ids_costs_no_call acme acme_key lease_csv loose_asset
             (world_with_csv broken_directory_server)).
  - reflexivity.
  - intros []; reflexivity.
Defined.

(** Department 5, once resolved, is answered from the cache. *)
Lemma stored_lookup_is_served_from_cache_witness :
  let w := fresh_world directory_server in
  let w1 := snd (ContractAssets.resolver acme acme_key
                   ContractAssets.Department (PInt 5) w) in
  ContractAssets.resolver acme acme_key ContractAssets.Department (PInt 5) w1
  = (Ok (PStr "IT"), w1).
Proof.
  cbv zeta.
  refine (proj1 (stored_lookup_is_served_from_cache acme acme_key
                   ContractAssets.Department (PInt 5) (PInt 5) (PStr "IT")
                   (fresh_world directory_server) _
                   (plain_response 200
                      (Some (PDict [("department", PDict [("name", PStr "IT")]);
                                    ("location", PDict [("name", PStr "Austin")]);
                                    ("requester",
                                     PDict [("first_name", PStr "Ada");
                                            ("last_name", PStr "Lovelace")])])))
                   _ _ _ _ _ _)); reflexivity.
Defined.

Lemma requester_name_is_trimmed_join_witness :
  fst (ContractAssets.get_requester_name acme acme_key (PInt 8)
         (fresh_world padded_name_server))
  = Ok (PStr "Ada Lovelace").
Proof.
  rewrite (requester_name_is_trimmed_join acme acme_key (PInt 8)
             (fresh_world padded_name_server)
             (plain_response 200
                (Some (PDict [("requester",
                               PDict [("first_name", PStr " Ada ");
                                      ("last_name", PStr "Lovelace ")])])))
             (PDict [("requester", PDict [("first_name", PStr " Ada ");
                                          ("last_name", PStr "Lovelace ")])])
             (PDict [("first_name", PStr " Ada ");
                     ("last_name", PStr "Lovelace ")])
             " Ada " "Lovelace "); reflexivity.
Defined.

Lemma requester_null_name_raises_witness :
  fst (ContractAssets.get_requester_name acme acme_key (PInt 8)
         (fresh_world null_name_server))
  = Raise AttributeError.
Proof.
  rewrite (requester_null_name_raises acme acme_key (PInt 8)
             (fresh_world null_name_server)
             (plain_response 200
                (Some (PDict [("requester",
                               PDict [("first_name", PNone);
                                      ("last_name", PStr "Lovelace")])])))
             (PDict [("requester", PDict [("first_name", PNone);
                                          ("last_name", PStr "Lovelace")])])
             (PDict [("first_name", PNone); ("last_name", PStr "Lovelace")])
             PNone (PStr "Lovelace")); try reflexivity.
  left. reflexivity.
Defined.

Lemma unreadable_file_sends_nothing_witness :
  trace (snd (ContractAssets.update_ticket_with_attachment acme acme_key 54157
                lease_csv (fresh_world directory_server)))
  = [].
Proof.
  rewrite (unreadable_file_sends_nothing acme acme_key 54157 lease_csv
             (fresh_world directory_server)); reflexivity.
Defined.

Lemma pagination_propagates_transport_failure_witness :
  fst (ContractAssets.fetch_pages acme acme_key 1 1 []
         (fresh_world unreachable_server))
  = Raise ConnectionError.
Proof.
  rewrite (pagination_propagates_transport_failure acme acme_key [] 1
             (fresh_world unreachable_server) ConnectionError).
  - reflexivity.
  - exact I.
  - cbn. lia.
  - reflexivity.
Defined.

Lemma csv_is_header_then_one_row_per_asset_witness :
  exists rows,
    fs (snd (ContractAssets.write_csv acme acme_key lease_csv [sample_asset 1]
               (fresh_world directory_server))) !! lease_csv
    = Some (ContractAssets.csv_header :: rows)
    /\ length rows = 1%nat.
Proof.
  destruct (csv_is_header_then_one_row_per_asset acme acme_key lease_csv
              [sample_asset 1] (fresh_world directory_server))
    as (rows & Hfile & _ & Hlen).
  - vm_compute. reflexivity.
  - exists rows. split; [exact Hfile|exact Hlen].
Defined.

(** Two assets are fetched, resolved and written, the CSV is attached with
    status 200 and removed. *)
Lemma script_ends_with_the_attachment_witness :
  let final := ContractAssets.script acme acme_key 3 54157 "2026-11"
                 (fresh_world small_contract_server) in
  length (trace (snd final)) = 4%nat
  /\ exists earlier rows,
       trace (snd final)
       = earlier ++ [ContractAssets.attachment_request acme acme_key 54157
                       lease_csv (ContractAssets.csv_header :: rows)]
       /\ fs (snd final) !! lease_csv = None.
Proof.
  cbv zeta. split; [vm_compute; reflexivity|].
  destruct (script_ends_with_the_attachment acme acme_key 3 54157 "2026-11"
              (fresh_world small_contract_server))
    as (earlier & rows & Ht & Hgone).
  - vm_compute. reflexivity.
  - exists earlier, rows. split; [exact Ht|]. apply Hgone.
    split; [|reflexivity]. eexists. split; [reflexivity|]. left. reflexivity.
Defined.

Lemma plain_ticket_names_nobody :
  ~ Termination.contains_employee_id "Printer is out of toner".
Proof.
  intros Hc. destruct (re_search_found _ Hc) as [g Hg].
  vm_compute in Hg. discriminate.
Qed.

Lemma main_without_employee_id_stops_witness :
  fst (Termination.main acme_key acme_password acme "k" "u" "p" "c"
         "https://hrms.example/login" "https://hrms.example/report"
         sample_repr 7 (fresh_world (constant_server 200 (Some plain_ticket))))
  = Ok tt.
Proof.
  rewrite (main_without_employee_id_stops acme_key acme_password acme
             "k" "u" "p" "c" "https://hrms.example/login"
             "https://hrms.example/report" sample_repr 7
             (fresh_world (constant_server 200 (Some plain_ticket)))
             (plain_response 200 (Some plain_ticket)) plain_ticket
             (PDict [("id", PInt 7);
                     ("description_text", PStr "Printer is out of toner")])
             "Printer is out of toner"); try reflexivity.
  - left. cbn. lia.
  - exact plain_ticket_names_nobody.
Defined.

Lemma main_raises_when_ticket_fetch_fails_witness :
  fst (Termination.main acme_key acme_password acme "k" "u" "p" "c"
         "https://hrms.example/login" "https://hrms.example/report"
         sample_repr 7 (fresh_world broken_directory_server))
  = Raise (HTTPError (plain_response 500 None)).
Proof.
  rewrite (main_raises_when_ticket_fetch_fails acme_key acme_password acme
             "k" "u" "p" "c" "https://hrms.example/login"
             "https://hrms.example/report" sample_repr 7
             (fresh_world broken_directory_server) (plain_response 500 None)).
  - reflexivity.
  - reflexivity.
  - cbn. lia.
Defined.

Lemma requesters_miss_in (srv : nat -> request -> reply) n rq others :
  srv n rq = Reply (plain_response 200 (Some (PDict (("requesters", PList []) :: others)))) ->
  Termination.search_misses "requesters" (srv n rq).
Proof.
  intros ->. eexists. split; [reflexivity|]. right. split; [left; cbn; lia|].
  eexists. eexists. split; [reflexivity|]. split; reflexivity.
Qed.

Lemma agents_miss_in (srv : nat -> request -> reply) n rq :
  srv n rq = Reply (plain_response 200
                      (Some (PDict [("requesters", PList []); ("agents", PList [])]))) ->
  Termination.search_misses "agents" (srv n rq).
Proof.
  intros ->. eexists. split; [reflexivity|]. right. split; [left; cbn; lia|].
  eexists. eexists. split; [reflexivity|]. split; reflexivity.
Qed.

Lemma agent_found_after_requesters_miss_witness :
  fst (Termination.fetch_requester_info acme_key acme_password acme
         (PStr "Jane.Doe@acme.com") (fresh_world agent_directory))
  = Ok (PInt 2002, PInt 77, "agent").
Proof.
  refine (proj1 (agent_found_after_requesters_miss acme_key acme_password acme
                   "Jane.Doe@acme.com" (fresh_world agent_directory)
                   (PInt 2002) (PInt 77) _ _)).
  - apply (requesters_miss_in _ _ _ []). reflexivity.
  - eexists. eexists. eexists. eexists.
    split; [reflexivity|]. split; [left; cbn; lia|].
    split; [reflexivity|]. split; [reflexivity|]. split; reflexivity.
Defined.

Lemma nobody_found_raises_value_error_witness :
  fst (Termination.fetch_requester_info acme_key acme_password acme
         (PStr "Jane.Doe@acme.com") (fresh_world empty_directory))
  = Raise (ValueError "User not found in both requesters and agents").
Proof.
  refine (proj1 (nobody_found_raises_value_error acme_key acme_password acme
                   "Jane.Doe@acme.com" (fresh_world empty_directory) _ _)).
  - apply (requesters_miss_in _ _ _ [("agents", PList [])]). reflexivity.
  - apply agents_miss_in. reflexivity.
Defined.

Lemma manager_lookup_by_status_witness :
  fst (Termination.fetch_manager_email acme_key acme_password acme (PInt 77)
         (fresh_world broken_directory_server))
  = Raise (HTTPError (plain_response 500 None)).
Proof.
  destruct (manager_lookup_by_status acme_key acme_password acme (PInt 77)
              (fresh_world broken_directory_server) (plain_response 500 None))
    as (_ & _ & Herr & _).
  - reflexivity.
  - cbn. lia.
  - apply Herr. cbn. lia.
Defined.

Lemma only_the_first_row_is_used_witness :
  let cols := PList [PDict [("label", PStr "Primary Email")]] in
  let jane := PDict [("col", PList [PStr "jane.doe@acme.com"])] in
  let john := PDict [("col", PList [PStr "john.roe@acme.com"])] in
  Termination.process_employee_data
    (Termination.report cols (PList [jane; john])) (fresh_world hrms_server)
  = Termination.process_employee_data
      (Termination.report cols (PList [jane])) (fresh_world hrms_server).
Proof.
  cbv zeta.
  refine (proj1 (only_the_first_row_is_used _ _ _ _ _)).
  constructor; [|constructor].
  eexists. eexists. split; reflexivity.
Defined.



Lemma iso_date_is_bad : Termination.date_value_bad (PStr "2024-03-14").
Proof.
  exists "2024-03-14". split; [reflexivity|]. split; [reflexivity|].
  exact iso_text_is_no_date.
Qed.

Lemma malformed_employee_date_aborts_witness :
  exists e w',
    Termination.convert_dates Termination.date_fields bad_record
      (fresh_world hrms_server) = (Raise e, w')
    /\ is_ValueError e = true.
Proof.
  destruct (malformed_employee_date_aborts bad_record (fresh_world hrms_server))
    as (e & w' & Hrun & He & _).
  - intros f v [<-|[<-|[<-|[<-|[]]]]]; cbn; intros [= <-].
    right. now exists "2024-03-14".
  - exists "Date Hired", (PStr "2024-03-14").
    split; [right; left; reflexivity|]. split; [reflexivity|].
    exact iso_date_is_bad.
  - exists e, w'. split; [exact Hrun|exact He].
Defined.

Lemma no_requester_no_service_request_witness :
  length (trace (snd (Termination.offboard acme_key acme_password acme
                        sample_repr (PDict employee_record)
                        (fresh_world empty_directory))))
  = 2%nat.
Proof.
  destruct (no_requester_no_service_request acme_key acme_password acme
              sample_repr employee_record "Jane.Doe@acme.com"
              (fresh_world empty_directory)) as [_ Ht].
  - reflexivity.
  - apply (requesters_miss_in _ _ _ [("agents", PList [])]). reflexivity.
  - apply agents_miss_in. reflexivity.
  - rewrite Ht. reflexivity.
Defined.

(** The manager is unknown as a requester (404) and the lookup as an agent
    fails (500): the request is placed all the same. *)
Lemma failed_manager_lookup_uses_default_email_witness :
  fst (Termination.offboard acme_key acme_password acme sample_repr
         (PDict employee_record) (fresh_world manager_gone_directory))
  = Ok tt
  /\ length (trace (snd (Termination.offboard acme_key acme_password acme
                           sample_repr (PDict employee_record)
                           (fresh_world manager_gone_directory))))
     = 4%nat.
Proof.
  destruct (failed_manager_lookup_uses_default_email acme_key acme_password
              acme sample_repr employee_record "Jane.Doe@acme.com"
              (fresh_world manager_gone_directory) (PInt 1001) (PInt 77)
              (plain_response 500 None)
              [Termination.requester_lookup acme
                 (Termination.get_headers acme_key acme_password) (PInt 77);
               Termination.agent_lookup acme
                 (Termination.get_headers acme_key acme_password) (PInt 77)])
    as (Hok & Hplaced & _).
  - reflexivity.
  - eexists. eexists. eexists. eexists.
    split; [reflexivity|]. split; [left; cbn; lia|].
    split; [reflexivity|]. split; [reflexivity|]. split; reflexivity.
  - reflexivity.
  - reflexivity.
  - right. exists (plain_response 404 None).
    split; [reflexivity|]. split; [reflexivity|]. split; [reflexivity|].
    split; [cbn; lia|reflexivity].
  - intros r' H. discriminate H.
  - split; [exact Hok|]. rewrite (Hplaced "" eq_refl). reflexivity.
Defined.

Lemma garbled_search_error_stops_the_lookup_witness :
  fst (Termination.fetch_requester_info acme_key acme_password acme
         (PStr "Jane.Doe@acme.com") (fresh_world garbled_gateway))
  = Raise UnicodeDecodeError
  /\ length (trace (snd (Termination.offboard acme_key acme_password acme
                           sample_repr (PDict employee_record)
                           (fresh_world garbled_gateway))))
     = 1%nat.
Proof.
  destruct (garbled_search_error_stops_the_lookup acme_key acme_password acme
              sample_repr employee_record "Jane.Doe@acme.com"
              (fresh_world garbled_gateway))
    as (Hraise & _ & _ & Ht).
  - reflexivity.
  - eexists. split; [reflexivity|]. split; [cbn; lia|reflexivity].
  - split; [exact Hraise|]. rewrite Ht. reflexivity.
Defined.

Lemma note_server_names_jdoe (srv : nat -> request -> reply) n rq fields :
  srv n rq = items_of fields ->
  TicketAssetsNote.names_employee (srv n rq)
    (TicketAssetsNote.field "untitled" fields).
Proof.
  intros ->. eexists. eexists. eexists. eexists. eexists. eexists.
  split; [reflexivity|]. split; [reflexivity|]. split; [reflexivity|].
  split; [reflexivity|]. split; reflexivity.
Qed.

(** The laptop and the dock are noted and linked although the note is
    refused with status 403. *)
Lemma assets_are_noted_then_linked_witness :
  fst (TicketAssetsNote.main acme_key acme_password acme sample_repr 54157
         (fresh_world note_server))
  = Ok tt
  /\ length (trace (snd (TicketAssetsNote.main acme_key acme_password acme
                           sample_repr 54157 (fresh_world note_server))))
     = 6%nat.
Proof.
  destruct (assets_are_noted_then_linked acme_key acme_password acme sample_repr
              54157 (fresh_world note_server) (PStr "jdoe") [laptop; dock]
              [hardware; hardware]
              ("<p>Assets to be collected:</p><ul>"
               ++ "<li>Name: Laptop, Type of Asset: Hardware, Asset Tag: TAG-1</li>"
               ++ "<li>Name: Dock, Type of Asset: Hardware, Asset Tag: TAG-2</li>"
               ++ "</ul>")
              (mk_response 403 "Forbidden" None None (Some "Forbidden"))
              (mk_response 200 "OK" None None (Some "OK")))
    as (Hrun & Ht & _).
  - apply (note_server_names_jdoe _ _ _ [("untitled", PStr "jdoe")]).
    reflexivity.
  - reflexivity.
  - eexists. eexists. split; [reflexivity|]. split; reflexivity.
  - split; [|split; [|exact I]];
      (eexists; eexists; split; [reflexivity|]; split; reflexivity).
  - reflexivity.
  - reflexivity.
  - reflexivity.
  - split; [exact Hrun|]. rewrite Ht. reflexivity.
Defined.

(** The refused assets query empties the asset list of the ticket. *)
Lemma answer_without_assets_empties_the_list_witness :
  trace (snd (TicketAssetsNote.main acme_key acme_password acme sample_repr
                54157 (fresh_world refusing_server)))
  = [TicketAssetsNote.items_request acme_key acme_password acme 54157;
     TicketAssetsNote.assets_request acme_key acme_password acme (PStr "jdoe");
     TicketAssetsNote.note_request acme_key acme_password acme 54157
       "<p>Assets to be collected:</p><ul></ul>";
     TicketAssetsNote.link_request acme_key acme_password acme 54157 []].
Proof.
  destruct (answer_without_assets_empties_the_list acme_key acme_password acme
              sample_repr 54157 (fresh_world refusing_server) (PStr "jdoe")
              (plain_response 400
                 (Some (PDict [("description", PStr "Validation failed")])))
              [("description", PStr "Validation failed")]
              (mk_response 200 "OK" None None (Some "OK"))
              (mk_response 200 "OK" None None (Some "OK")))
    as (_ & Ht & _).
  - apply (note_server_names_jdoe _ _ _ [("untitled", PStr "jdoe")]).
    reflexivity.
  - reflexivity.
  - reflexivity.
  - reflexivity.
  - reflexivity.
  - reflexivity.
  - reflexivity.
  - exact Ht.
Defined.

Lemma missing_requested_items_sends_one_query_witness :
  fst (TicketAssetsNote.main acme_key acme_password acme sample_repr 54157
         (fresh_world no_items_server))
  = Ok tt.
Proof.
  rewrite (missing_requested_items_sends_one_query acme_key acme_password acme
             sample_repr 54157 (fresh_world no_items_server)
             (plain_response 404 (Some (PDict [("code", PStr "not_found")])))
             [("code", PStr "not_found")]).
  - reflexivity.
  - reflexivity.
  - reflexivity.
  - cbn. discriminate.
Defined.

Lemma missing_employee_name_sends_one_query_witness :
  fst (TicketAssetsNote.main acme_key acme_password acme sample_repr 54157
         (fresh_world nameless_server))
  = Ok tt.
Proof.
  rewrite (missing_employee_name_sends_one_query acme_key acme_password acme
             sample_repr 54157 (fresh_world nameless_server) PNone).
  - reflexivity.
  - apply (note_server_names_jdoe _ _ _ [("reason", PStr "left")]).
    reflexivity.
  - reflexivity.
Defined.

Lemma asset_type_answer_without_type_stops_the_run_witness :
  fst (TicketAssetsNote.main acme_key acme_password acme sample_repr 54157
         (fresh_world typeless_server))
  = Raise (KeyError (PStr "asset_type")).
Proof.
  rewrite (asset_type_answer_without_type_stops_the_run acme_key acme_password
             acme sample_repr 54157 (fresh_world typeless_server) (PStr "jdoe")
             [] laptop [dock] []
             (plain_response 404 (Some (PDict [("code", PStr "not_found")])))
             [("code", PStr "not_found")]).
  - reflexivity.
  - apply (note_server_names_jdoe _ _ _ [("untitled", PStr "jdoe")]).
    reflexivity.
  - reflexivity.
  - eexists. eexists. split; [reflexivity|]. split; reflexivity.
  - exact I.
  - reflexivity.
  - reflexivity.
  - reflexivity.
Defined.

Lemma employee_report_needs_a_result_witness :
  fst (Termination.fetch_employee_data "https://hrms.example/report" "4821"
         (PStr "t0k3n") (fresh_world hrms_server))
  = Ok (PDict hrms_report).
Proof.
  rewrite (employee_report_needs_a_result "https://hrms.example/report" "4821"
             (PStr "t0k3n") (fresh_world hrms_server)
             (mk_response 200 "<result/>" None (Some (PDict hrms_report))
              (Some "<result/>"))
             hrms_report).
  - reflexivity.
  - reflexivity.
  - cbn. lia.
  - reflexivity.
Defined.

End MoreExamples.
